(** * go-sfdc: Bulk API v2 jobs, bulk query jobs and OAuth credentials

    A shallow embedding of the parts of the SDK that decide its documented
    behaviour: CSV result parsing ([bulk.Job]), option validation and
    defaulting ([bulk.Job], [bulkquery.QueryJob]), paged result export
    ([bulkquery.QueryJob]) and credential validation ([credentials]).

    Go values are modelled as follows.
    - [string] is a byte string: Rocq's [string].
    - [int] is [Z]; the code does no arithmetic on it that could wrap.
    - [map[string]string] is [gmap string string].
    - a function returning [(T, error)] returns a pair [T * option error];
      [None] is Go's [nil] error.
    - a run-time panic (index or slice bound out of range) is an outcome of
      its own, see [exec]. *)

From Stdlib Require Import ZArith String Ascii DecimalString Lia Wf_nat.
From stdpp Require Import base option list strings gmap.

Local Open Scope string_scope.
Local Open Scope list_scope.
Local Open Scope Z_scope.

(** ** Bytes the code names *)

Definition LF : ascii := "010"%char.
Definition CR : ascii := "013"%char.
Definition HT : ascii := "009"%char.
Definition DQUOTE : ascii := "034"%char.

(** ** Errors *)

(** The sentinel errors of [encoding/csv] that a [Reader] configured as the
    parsers configure it can wrap in a [*csv.ParseError]. *)
Inductive csvErr : Type :=
| ErrBareQuote
| ErrQuote
| ErrFieldCount.

Global Instance csvErr_eq_dec : EqDecision csvErr.
Proof. solve_decision. Defined.

(** Go's [error] values, as far as the modelled code creates or forwards
    them. *)
Inductive error : Type :=
| EOF                                 (* io.EOF *)
| errInvalidDelim                     (* csv: invalid field or comment delimiter *)
| ParseError (e : csvErr)             (* *csv.ParseError *)
| NumError (fn num : string)          (* *strconv.NumError wrapping ErrSyntax *)
| errorString (msg : string)          (* errors.New(msg) *)
| APIError (status : Z) (body : string) (* sfdc.HandleError(response) *)
| IOError (msg : string).             (* transport and file-system failures *)

Global Instance error_eq_dec : EqDecision error.
Proof. solve_decision. Defined.

(** ** Outcome of running a piece of Go code *)

Inductive panic : Type :=
| IndexOutOfRange (i len : Z)         (* s[i] with i outside [0, len) *)
| SliceBoundsOutOfRange (low len : Z). (* s[low:] with low > len *)

(** [Done a]: the code ran to its [return]; [Panicked p]: it raised a run-time
    panic; [OutOfFuel]: the bound given to a [for] loop was used up. *)
Inductive exec (A : Type) : Type :=
| Done (a : A)
| Panicked (p : panic)
| OutOfFuel.
Arguments Done {A} a.
Arguments Panicked {A} p.
Arguments OutOfFuel {A}.

Global Instance exec_ret : MRet exec := fun A a => Done a.

Global Instance exec_bind : MBind exec := fun A B k m =>
  match m with
  | Done a => k a
  | Panicked p => Panicked p
  | OutOfFuel => OutOfFuel
  end.

(** [s[i]] on a slice. *)
Definition index {A : Type} (s : list A) (i : Z) : exec A :=
  if (i <? 0) || (Z.of_nat (length s) <=? i)
  then Panicked (IndexOutOfRange i (Z.of_nat (length s)))
  else match s !! Z.to_nat i with
       | Some x => Done x
       | None => Panicked (IndexOutOfRange i (Z.of_nat (length s)))
       end.

(** [s[low:]] on a slice, for a constant [low >= 0]. *)
Definition slice_from {A : Type} (s : list A) (low : Z) : exec (list A) :=
  if Z.of_nat (length s) <? low
  then Panicked (SliceBoundsOutOfRange low (Z.of_nat (length s)))
  else Done (drop (Z.to_nat low) s).

(** ** Package strconv *)

Module strconv.

(** [ParseBool]: the twelve accepted literals; any other text is a syntax
    error carried by a [*NumError]. *)
Definition ParseBool (str : string) : bool * option error :=
  if (str =? "1")%string || (str =? "t")%string || (str =? "T")%string
     || (str =? "TRUE")%string || (str =? "true")%string || (str =? "True")%string
  then (true, None)
  else if (str =? "0")%string || (str =? "f")%string || (str =? "F")%string
     || (str =? "FALSE")%string || (str =? "false")%string || (str =? "False")%string
  then (false, None)
  else (false, Some (NumError "ParseBool" str)).

(** The texts [ParseBool] accepts. *)
Definition boolLiterals : list string :=
  ["1"; "t"; "T"; "TRUE"; "true"; "True";
   "0"; "f"; "F"; "FALSE"; "false"; "False"].

(** [Itoa]: the decimal text of an [int]. *)
Definition Itoa (i : Z) : string := NilZero.string_of_int (Z.to_int i).

End strconv.

(** ** Package encoding/csv

    The [Reader] of Go's standard library, in the configuration the parsers
    of this repository leave it in: [Comment] unset, [LazyQuotes] and
    [TrimLeadingSpace] false, [FieldsPerRecord] initially 0, [Comma] one
    byte.  The underlying [io.Reader] is a finite stream: the bytes it
    delivers, followed by [io.EOF] or by a failure of its own. *)

Module csv.

(** An [io.Reader]: [bytes] are delivered, then [fail] ([None]: [io.EOF]). *)
Record Stream : Type := {
  bytes : string;
  fail : option error
}.

(** [readLine] hands out one line at a time, with a final [\r\n] turned into
    [\n] and, before a clean end of input, a last [\r] dropped.  As every
    [\n] ends a line, doing this to the whole input at once gives the same
    lines. *)
Fixpoint normalize (clean : bool) (s : string) : string :=
  match s with
  | EmptyString => EmptyString
  | String c t =>
      match t with
      | EmptyString =>
          if clean && (c =? CR)%char then EmptyString else String c EmptyString
      | String d _ =>
          if (c =? CR)%char && (d =? LF)%char then normalize clean t
          else String c (normalize clean t)
      end
  end.

Record Reader : Type := {
  Comma : ascii;
  FieldsPerRecord : Z;
  unread : string;            (* input not yet consumed, normalized *)
  readErr : option error      (* how the input ends; [None]: io.EOF *)
}.

(** How the input ends, for the reader: [io.EOF] is the clean end, however
    the stream is written down. *)
Definition ending (stream : Stream) : option error :=
  match fail stream with
  | Some EOF => None
  | e => e
  end.

Definition NewReader (stream : Stream) : Reader :=
  {| Comma := ","%char;
     FieldsPerRecord := 0;
     unread := normalize (bool_decide (ending stream = None)) (bytes stream);
     readErr := ending stream |}.

Definition validDelim (c : ascii) : bool :=
  negb ((c =? zero)%char || (c =? DQUOTE)%char || (c =? CR)%char || (c =? LF)%char).

(** Where [readRecord] stands inside a record. *)
Inductive position : Type :=
| FieldStart          (* at the first byte of a field *)
| InField             (* inside a non-quoted field *)
| InQuoted            (* inside a quoted field *)
| AfterQuote.         (* just after a quote met inside a quoted field *)

Definition push (field : string) (c : ascii) : string :=
  field +:+ String c EmptyString.

(** Drop the rest of the current line: after a parse error the next [Read]
    starts on the following line. *)
Fixpoint skipLine (s : string) : string :=
  match s with
  | EmptyString => EmptyString
  | String c t => if (c =? LF)%char then t else skipLine t
  end.

(** Blank lines before a record are skipped. *)
Fixpoint skipEmptyLines (s : string) : string :=
  match s with
  | String c t => if (c =? LF)%char then skipEmptyLines t else s
  | EmptyString => s
  end.

(** The field loop of [readRecord]: [fields] are the fields completed so far,
    [field] the bytes of the current one.  Returns the record, the error and
    the input left.  With a non-nil error the record holds the fields
    completed before it. *)
Fixpoint parseRecord (comma : ascii) (fin : option error) (pos : position)
    (fields : list string) (field : string) (s : string)
    : (list string * option error) * string :=
  match s with
  | EmptyString =>
      match pos with
      | FieldStart | InField | AfterQuote =>
          ((fields ++ [field], fin), EmptyString)
      | InQuoted =>
          match fin with
          | None => ((fields, Some (ParseError ErrQuote)), EmptyString)
          | Some e => ((fields, Some e), EmptyString)
          end
      end
  | String c t =>
      match pos with
      | FieldStart =>
          if (c =? DQUOTE)%char then parseRecord comma fin InQuoted fields field t
          else if (c =? comma)%char
          then parseRecord comma fin FieldStart (fields ++ [field]) EmptyString t
          else if (c =? LF)%char then ((fields ++ [field], None), t)
          else parseRecord comma fin InField fields (push field c) t
      | InField =>
          if (c =? comma)%char
          then parseRecord comma fin FieldStart (fields ++ [field]) EmptyString t
          else if (c =? LF)%char then ((fields ++ [field], None), t)
          else if (c =? DQUOTE)%char
          then ((fields, Some (ParseError ErrBareQuote)), skipLine t)
          else parseRecord comma fin InField fields (push field c) t
      | InQuoted =>
          if (c =? DQUOTE)%char then parseRecord comma fin AfterQuote fields field t
          else parseRecord comma fin InQuoted fields (push field c) t
      | AfterQuote =>
          if (c =? DQUOTE)%char
          then parseRecord comma fin InQuoted fields (push field c) t
          else if (c =? comma)%char
          then parseRecord comma fin FieldStart (fields ++ [field]) EmptyString t
          else if (c =? LF)%char then ((fields ++ [field], None), t)
          else ((fields, Some (ParseError ErrQuote)), skipLine t)
      end
  end.

(** The second half of [readRecord]: the fields of the record that starts at
    [s], then the check or the setting of [FieldsPerRecord]. *)
Definition readFields (r : Reader) (s : string)
    : (list string * option error) * Reader :=
  let '((dst, err), s') :=
    parseRecord (Comma r) (readErr r) FieldStart [] EmptyString s in
  let n := Z.of_nat (length dst) in
  let err' :=
    if (0 <? FieldsPerRecord r) && negb (n =? FieldsPerRecord r)
       && bool_decide (err = None)
    then Some (ParseError ErrFieldCount) else err in
  let fpr := if FieldsPerRecord r =? 0 then n else FieldsPerRecord r in
  ((dst, err'),
   {| Comma := Comma r; FieldsPerRecord := fpr;
      unread := s'; readErr := readErr r |}).

(** The input is used up and ended with [io.EOF]. *)
Definition atEOF (r : Reader) (s : string) : bool :=
  match s, readErr r with
  | EmptyString, None => true
  | _, _ => false
  end.

(** [Read]: the next record, or the error that ends the reading. *)
Definition Read (r : Reader) : (list string * option error) * Reader :=
  if negb (validDelim (Comma r)) then (([], Some errInvalidDelim), r)
  else
    let s := skipEmptyLines (unread r) in
    if atEOF r s
    then (([], Some EOF),
          {| Comma := Comma r; FieldsPerRecord := FieldsPerRecord r;
             unread := s; readErr := readErr r |})
    else readFields r s.

(** A line without quotes and line breaks. *)
Fixpoint plain (s : string) : bool :=
  match s with
  | EmptyString => true
  | String c t =>
      negb ((c =? DQUOTE)%char || (c =? CR)%char || (c =? LF)%char) && plain t
  end.

(** What a reader delivers when it is read until its first error: the rows
    [Read] returns with a nil error, then that error. *)
Inductive yields : Reader -> list (list string) -> error -> Prop :=
| yields_end r v e r' :
    Read r = ((v, Some e), r') -> yields r [] e
| yields_row r v r' rows e :
    Read r = ((v, None), r') -> yields r' rows e -> yields r (v :: rows) e.

End csv.

(** ** Packages net/http, net/url, encoding/json, os and io

    What the modelled code needs of them.  [url.Values] and [http.Header]
    are both [map[string][]string].  The text of a JSON object is kept as its
    list of members; [Request.Query] is the [url.Values] that
    [request.URL.RawQuery] encodes. *)

Module http.

Abbreviation Values := (gmap string (list string)).

(** [Values.Add] and [Header.Add]: append to the values of [key].  Every
    header name the code uses is already in canonical form. *)
Definition Add (key value : string) (v : Values) : Values :=
  <[key := default [] (v !! key) ++ [value]]> v.

(** [Values.Get] and [Header.Get]: the first value of [key], or the empty
    string. *)
Definition Get (key : string) (v : Values) : string :=
  match v !! key with
  | Some (x :: _) => x
  | _ => EmptyString
  end.

Inductive body : Type :=
| NoBody
| JSON (members : list (string * string))
| Raw (data : string).

Module Request.
Record t : Type := {
  Method : string;
  URL : string;
  Query : Values;
  Header : Values;
  Body : body
}.
End Request.

Module Response.
Record t : Type := {
  StatusCode : Z;
  Header : Values;
  Body : string
}.
End Response.

Definition MethodGet : string := "GET".
Definition MethodPost : string := "POST".
Definition StatusOK : Z := 200.

Definition MethodPut : string := "PUT".
Definition MethodPatch : string := "PATCH".
Definition MethodDelete : string := "DELETE".
Definition StatusCreated : Z := 201.
Definition StatusNoContent : Z := 204.

End http.

(** The process' surroundings: the requests sent so far and the files
    written. *)
Module World.
Record t : Type := {
  sent : list http.Request.t;
  files : gmap string string
}.
End World.

(** The library and system calls whose results the model does not compute:
    they are given, and may fail. *)
Module Env.
Record t : Type := {
  (* url.Parse inside http.NewRequest: the URL without its query and the
     query it carries, or an error *)
  url_Parse : string -> (string * http.Values) + error;
  (* os.Create *)
  os_Create : string -> option error;
  (* io.Copy of a body into the created file: [None] when all of it was
     written, else the bytes that reached the file and the error *)
  io_Copy : string -> option (string * error);
  (* encoding/json reading an object: its members, or an error *)
  json_Unmarshal : string -> list (string * string) + error
}.
End Env.

(** [http.NewRequest(method, url, body)]: the request, or the error of
    parsing the URL. *)
Definition NewRequest (env : Env.t) (method url : string) (b : http.body)
    : http.Request.t + error :=
  match Env.url_Parse env url with
  | inr e => inr e
  | inl (u, q) =>
      inl {| http.Request.Method := method; http.Request.URL := u;
             http.Request.Query := q; http.Request.Header := ∅;
             http.Request.Body := b |}
  end.

Definition addHeader (key value : string) (request : http.Request.t)
    : http.Request.t :=
  {| http.Request.Method := http.Request.Method request;
     http.Request.URL := http.Request.URL request;
     http.Request.Query := http.Request.Query request;
     http.Request.Header := http.Add key value (http.Request.Header request);
     http.Request.Body := http.Request.Body request |}.

Definition setQuery (q : http.Values) (request : http.Request.t)
    : http.Request.t :=
  {| http.Request.Method := http.Request.Method request;
     http.Request.URL := http.Request.URL request;
     http.Request.Query := q;
     http.Request.Header := http.Request.Header request;
     http.Request.Body := http.Request.Body request |}.

(** ** Package session *)

Module session.

(** Modelled from the spec: the interface [session.ServiceFormatter], which
    the sources use and do not declare (an injected collaborator that
    resolves the base URL, injects the authorization header and provides the
    HTTP client).  These are the methods the modelled code calls.  The
    client answers a request as the remote side decides, from the request and
    those sent before it. *)
Record ServiceFormatter : Type := {
  ServiceURL : string;
  AuthorizationHeader : http.Request.t -> http.Request.t;
  Client : list http.Request.t -> http.Request.t -> http.Response.t + error
}.

(** [session.Client().Do(request)]: the request goes out, and the response
    or the error of the transport comes back. *)
Definition Do (s : ServiceFormatter) (request : http.Request.t) (w : World.t)
    : (http.Response.t + error) * World.t :=
  (Client s (World.sent w) request,
   {| World.sent := World.sent w ++ [request];
      World.files := World.files w |}).
End session.

(** Modelled from the spec: [sfdc.HandleError], which the sources call and do
    not define (a response without the expected status is decoded from the
    server's error body into a uniform error value). *)
Definition HandleError (response : http.Response.t) : error :=
  APIError (http.Response.StatusCode response) (http.Response.Body response).

(** A member of a decoded JSON object; a member the text lacks leaves the
    field at its zero value. *)
Definition member (key : string) (members : list (string * string)) : string :=
  match List.find (fun kv => (fst kv =? key)%string) members with
  | Some kv => snd kv
  | None => EmptyString
  end.

(** A member of a decoded JSON object read into an [int] field. *)
Definition memberInt (key : string) (members : list (string * string)) : Z :=
  match NilZero.int_of_string (member key members) with
  | Some i => Z.of_int i
  | None => 0
  end.

(** [os.Create(filename)] followed by [io.Copy(out, body)], the tail of
    every export function: the error, and the files as they are left. *)
Definition copyToFile (env : Env.t) (filename body : string) (w : World.t)
    : option error * World.t :=
  match Env.os_Create env filename with
  | Some err => (Some err, w)
  | None =>
      match Env.io_Copy env body with
      | Some (written, err) =>
          (Some err,
           {| World.sent := World.sent w;
              World.files := <[filename := written]> (World.files w) |})
      | None =>
          (None,
           {| World.sent := World.sent w;
              World.files := <[filename := body]> (World.files w) |})
      end
  end.

(** [os.Open(filename)]: the bytes the world holds under that name; a name
    it holds nothing under cannot be opened. *)
Definition openFile (filename : string) (w : World.t) : string + error :=
  match World.files w !! filename with
  | Some content => inl content
  | None => inr (IOError "open: no such file or directory")
  end.

(** ** Package bulk: Bulk API 2.0 ingest jobs *)

Module bulk.

(** Modelled from the spec: the constant [bulk2Endpoint] of this package,
    declared outside the sources (the ingest calls go to
    [{service}/jobs/ingest]). *)
Definition bulk2Endpoint : string := "/jobs/ingest".

(** [type ColumnDelimiter string] and its constants. *)
Abbreviation ColumnDelimiter := string (only parsing).
Definition Backquote : ColumnDelimiter := "BACKQUOTE".
Definition Caret : ColumnDelimiter := "CARET".
Definition Comma : ColumnDelimiter := "COMMA".
Definition Pipe : ColumnDelimiter := "PIPE".
Definition SemiColon : ColumnDelimiter := "SEMICOLON".
Definition Tab : ColumnDelimiter := "TAB".

Abbreviation ContentType := string (only parsing).
Definition CSV : ContentType := "CSV".

Abbreviation LineEnding := string (only parsing).
Definition Linefeed : LineEnding := "LF".
Definition CarriageReturnLinefeed : LineEnding := "CRLF".

Abbreviation Operation := string (only parsing).
Definition Insert : Operation := "insert".
Definition Delete : Operation := "delete".
Definition HardDelete : Operation := "hardDelete".
Definition Update : Operation := "update".
Definition Upsert : Operation := "upsert".

Abbreviation State := string (only parsing).
Definition Open : State := "Open".
Definition UpdateComplete : State := "UploadComplete".
Definition Aborted : State := "Aborted".
Definition JobComplete : State := "JobComplete".
Definition Failed : State := "Failed".

Definition sfID : string := "sf__Id".
Definition sfError : string := "sf__Error".
Definition sfCreated : string := "sf__Created".

(** The record types.  [JobRecord] and [UnprocessedRecord] are embedded in
    the source; their fields are promoted here as Go promotes them. *)
Module SuccessfulRecord.
Record t : Type := {
  Created : bool;
  ID : string;
  Fields : gmap string string
}.
End SuccessfulRecord.

Module FailedRecord.
Record t : Type := {
  Error : string;
  ID : string;
  Fields : gmap string string
}.
End FailedRecord.

Module Options.
Record t : Type := {
  ColumnDelimiter : string;
  ContentType : string;
  ExternalIDFieldName : string;
  LineEnding : string;
  Object : string;
  Operation : string
}.

(** Assignments to a field through the pointer. *)
Definition setLineEnding (v : string) (o : t) : t :=
  {| ColumnDelimiter := ColumnDelimiter o; ContentType := ContentType o;
     ExternalIDFieldName := ExternalIDFieldName o; LineEnding := v;
     Object := Object o; Operation := Operation o |}.

Definition setContentType (v : string) (o : t) : t :=
  {| ColumnDelimiter := ColumnDelimiter o; ContentType := v;
     ExternalIDFieldName := ExternalIDFieldName o; LineEnding := LineEnding o;
     Object := Object o; Operation := Operation o |}.

Definition setColumnDelimiter (v : string) (o : t) : t :=
  {| ColumnDelimiter := v; ContentType := ContentType o;
     ExternalIDFieldName := ExternalIDFieldName o; LineEnding := LineEnding o;
     Object := Object o; Operation := Operation o |}.
End Options.

(** [WriteResponse]; [APIVersion], a [float32] no modelled function reads,
    is kept as the text of the number. *)
Module WriteResponse.
Record t : Type := {
  APIVersion : string;
  ColumnDelimiter : string;
  ConcurrencyMode : string;
  ContentType : string;
  ContentURL : string;
  CreatedByID : string;
  CreatedDate : string;
  ExternalIDFieldName : string;
  ID : string;
  JobType : string;
  LineEnding : string;
  Object : string;
  Operation : string;
  State : string;
  SystemModstamp : string
}.

(** [WriteResponse{}] *)
Definition zero : t :=
  {| APIVersion := EmptyString; ColumnDelimiter := EmptyString;
     ConcurrencyMode := EmptyString; ContentType := EmptyString;
     ContentURL := EmptyString; CreatedByID := EmptyString;
     CreatedDate := EmptyString; ExternalIDFieldName := EmptyString;
     ID := EmptyString; JobType := EmptyString; LineEnding := EmptyString;
     Object := EmptyString; Operation := EmptyString; State := EmptyString;
     SystemModstamp := EmptyString |}.

(** The struct filled from a JSON object, by its [json] tags. *)
Definition ofJSON (m : list (string * string)) : t :=
  {| APIVersion := member "apiVersion" m;
     ColumnDelimiter := member "columnDelimiter" m;
     ConcurrencyMode := member "concurrencyMode" m;
     ContentType := member "contentType" m;
     ContentURL := member "contentUrl" m;
     CreatedByID := member "createdById" m;
     CreatedDate := member "createdDate" m;
     ExternalIDFieldName := member "externalIdFieldName" m;
     ID := member "id" m;
     JobType := member "jobType" m;
     LineEnding := member "lineEnding" m;
     Object := member "object" m;
     Operation := member "operation" m;
     State := member "state" m;
     SystemModstamp := member "systemModstamp" m |}.
End WriteResponse.

Module Job.
Record t : Type := {
  session : session.ServiceFormatter;
  WriteResponse : WriteResponse.t
}.
End Job.

(** [json.Marshal(options)] *)
Definition marshalOptions (options : Options.t) : http.body :=
  http.JSON
    [("columnDelimiter", Options.ColumnDelimiter options);
     ("contentType", Options.ContentType options);
     ("externalIdFieldName", Options.ExternalIDFieldName options);
     ("lineEnding", Options.LineEnding options);
     ("object", Options.Object options);
     ("operation", Options.Operation options)].

(** [formatOptions] works on [*Options]: it returns the options as it leaves
    them, and the error. *)
Definition formatOptions (j : Job.t) (options : Options.t)
    : Options.t * option error :=
  if (Options.Operation options =? EmptyString)%string
  then (options, Some (errorString "bulk job: operation is required"))
  else if (Options.Operation options =? Upsert)%string
          && (Options.ExternalIDFieldName options =? EmptyString)%string
  then (options,
        Some (errorString
          "bulk job: external id field name is required for upsert operation"))
  else if (Options.Object options =? EmptyString)%string
  then (options, Some (errorString "bulk job: object is required"))
  else
    let options :=
      if (Options.LineEnding options =? EmptyString)%string
      then Options.setLineEnding Linefeed options else options in
    let options :=
      if (Options.ContentType options =? EmptyString)%string
      then Options.setContentType CSV options else options in
    let options :=
      if (Options.ColumnDelimiter options =? EmptyString)%string
      then Options.setColumnDelimiter Comma options else options in
    (options, None).

(** [response]: send the request and decode the job record. *)
Definition response (env : Env.t) (j : Job.t) (request : http.Request.t)
    (w : World.t) : (WriteResponse.t * option error) * World.t :=
  match session.Do (Job.session j) request w with
  | (inr err, w') => ((WriteResponse.zero, Some err), w')
  | (inl resp, w') =>
      if negb (http.Response.StatusCode resp =? http.StatusOK)
      then ((WriteResponse.zero, Some (HandleError resp)), w')
      else match Env.json_Unmarshal env (http.Response.Body resp) with
           | inr err => ((WriteResponse.zero, Some err), w')
           | inl m => ((WriteResponse.ofJSON m, None), w')
           end
  end.

Definition createCallout (env : Env.t) (j : Job.t) (options : Options.t)
    (w : World.t) : (WriteResponse.t * option error) * World.t :=
  let url := session.ServiceURL (Job.session j) +:+ bulk2Endpoint in
  match NewRequest env http.MethodPost url (marshalOptions options) with
  | inr err => ((WriteResponse.zero, Some err), w)
  | inl request =>
      let request := addHeader "Accept" "application/json" request in
      let request := addHeader "Content-Type" "application/json" request in
      let request := session.AuthorizationHeader (Job.session j) request in
      response env j request w
  end.

(** [create]: the job as the call leaves it, and the error. *)
Definition create (env : Env.t) (j : Job.t) (options : Options.t)
    (w : World.t) : (Job.t * option error) * World.t :=
  match formatOptions j options with
  | (_, Some err) => ((j, Some err), w)
  | (options, None) =>
      let '((wr, err), w') := createCallout env j options w in
      ({| Job.session := Job.session j; Job.WriteResponse := wr |}, err, w')
  end.

(** The [range] loop of [headerPosition], from index [idx] on. *)
Fixpoint headerPosition_range (column : string) (idx : Z) (header : list string)
    : Z :=
  match header with
  | [] => -1
  | col :: rest =>
      if (col =? column)%string then idx
      else headerPosition_range column (idx + 1) rest
  end.

Definition headerPosition (j : Job.t) (column : string) (header : list string)
    : Z :=
  headerPosition_range column 0 header.

(** The [range] loop of [record], from index [idx] on. *)
Fixpoint record_range (values : list string) (idx : Z) (fields : list string)
    (record : gmap string string) : exec (gmap string string) :=
  match fields with
  | [] => mret record
  | field :: rest =>
      v ← index values idx;
      record_range values (idx + 1) rest (<[field := v]> record)
  end.

Definition record (j : Job.t) (fields values : list string)
    : exec (gmap string string) :=
  record_range values 0 fields ∅.

Definition delimiter (j : Job.t) : ascii :=
  let d := WriteResponse.ColumnDelimiter (Job.WriteResponse j) in
  if (d =? Tab)%string then HT
  else if (d =? SemiColon)%string then ";"%char
  else if (d =? Pipe)%string then "|"%char
  else if (d =? Caret)%string then "^"%char
  else if (d =? Backquote)%string then "`"%char
  else ","%char.

(** [reader.Comma = j.delimiter()] *)
Definition setComma (comma : ascii) (reader : csv.Reader) : csv.Reader :=
  {| csv.Comma := comma;
     csv.FieldsPerRecord := csv.FieldsPerRecord reader;
     csv.unread := csv.unread reader;
     csv.readErr := csv.readErr reader |}.

(** The reader both parsers read from. *)
Definition readerOf (j : Job.t) (stream : csv.Stream) : csv.Reader :=
  setComma (delimiter j) (csv.NewReader stream).

(** The body of the [for] loop of [ParseSuccessfulResults], after the row
    has been read: the record, or the error the function returns with. *)
Definition successfulRow (j : Job.t) (fields values : list string)
    : exec (SuccessfulRecord.t * option error) :=
  let zero := {| SuccessfulRecord.Created := false;
                 SuccessfulRecord.ID := EmptyString;
                 SuccessfulRecord.Fields := ∅ |} in
  cell ← index values (headerPosition j sfCreated fields);
  match strconv.ParseBool cell with
  | (_, Some err) => mret (zero, Some err)
  | (created, None) =>
      id ← index values (headerPosition j sfID fields);
      fs ← slice_from fields 2;
      vs ← slice_from values 2;
      m ← record j fs vs;
      mret ({| SuccessfulRecord.Created := created;
               SuccessfulRecord.ID := id;
               SuccessfulRecord.Fields := m |}, None)
  end.

(** The [for] loop of [ParseSuccessfulResults]; [fuel] bounds its
    iterations. *)
Fixpoint successfulLoop (fuel : nat) (j : Job.t) (reader : csv.Reader)
    (fields : list string) (records : list SuccessfulRecord.t)
    : exec (list SuccessfulRecord.t * option error) :=
  match fuel with
  | O => OutOfFuel
  | S fuel =>
      let '((values, err), reader) := csv.Read reader in
      if bool_decide (err = Some EOF) then mret (records, None)
      else match err with
           | Some err => mret ([], Some err)
           | None =>
               row ← successfulRow j fields values;
               match row with
               | (_, Some err) => mret ([], Some err)
               | (record, None) =>
                   successfulLoop fuel j reader fields (records ++ [record])
               end
           end
  end.

(** [ParseSuccessfulResults].  A [Read] that returns a row consumes input,
    so the loop runs at most once per unread byte, and once more. *)
Definition ParseSuccessfulResults (j : Job.t) (stream : csv.Stream)
    : exec (list SuccessfulRecord.t * option error) :=
  let reader := csv.NewReader stream in
  let reader := setComma (delimiter j) reader in
  let records := [] in
  let '((fields, err), reader) := csv.Read reader in
  match err with
  | Some err => mret ([], Some err)
  | None =>
      successfulLoop (S (String.length (csv.unread reader))) j reader fields
        records
  end.

(** What the loop of [ParseSuccessfulResults] comes to when the reader
    delivers [rows] and then ends with [last]: the rows are decoded in turn,
    and a row that cannot be decoded ends the call. *)
Fixpoint successfulRows (j : Job.t) (fields : list string)
    (rows : list (list string)) (last : error)
    (records : list SuccessfulRecord.t)
    : exec (list SuccessfulRecord.t * option error) :=
  match rows with
  | [] =>
      if bool_decide (last = EOF) then mret (records, None)
      else mret ([], Some last)
  | values :: rows =>
      row ← successfulRow j fields values;
      match row with
      | (_, Some err) => mret ([], Some err)
      | (record, None) =>
          successfulRows j fields rows last (records ++ [record])
      end
  end.

(** The body of the [for] loop of [ParseFailedResults]. *)
Definition failedRow (j : Job.t) (fields values : list string)
    : exec FailedRecord.t :=
  e ← index values (headerPosition j sfError fields);
  id ← index values (headerPosition j sfID fields);
  fs ← slice_from fields 2;
  vs ← slice_from values 2;
  m ← record j fs vs;
  mret {| FailedRecord.Error := e; FailedRecord.ID := id;
          FailedRecord.Fields := m |}.

Fixpoint failedLoop (fuel : nat) (j : Job.t) (reader : csv.Reader)
    (fields : list string) (records : list FailedRecord.t)
    : exec (list FailedRecord.t * option error) :=
  match fuel with
  | O => OutOfFuel
  | S fuel =>
      let '((values, err), reader) := csv.Read reader in
      if bool_decide (err = Some EOF) then mret (records, None)
      else match err with
           | Some err => mret ([], Some err)
           | None =>
               record ← failedRow j fields values;
               failedLoop fuel j reader fields (records ++ [record])
           end
  end.

(** As [successfulRows], for [ParseFailedResults]. *)
Fixpoint failedRows (j : Job.t) (fields : list string)
    (rows : list (list string)) (last : error) (records : list FailedRecord.t)
    : exec (list FailedRecord.t * option error) :=
  match rows with
  | [] =>
      if bool_decide (last = EOF) then mret (records, None)
      else mret ([], Some last)
  | values :: rows =>
      record ← failedRow j fields values;
      failedRows j fields rows last (records ++ [record])
  end.

Definition ParseFailedResults (j : Job.t) (stream : csv.Stream)
    : exec (list FailedRecord.t * option error) :=
  let reader := csv.NewReader stream in
  let reader := setComma (delimiter j) reader in
  let records := [] in
  let '((fields, err), reader) := csv.Read reader in
  match err with
  | Some err => mret ([], Some err)
  | None =>
      failedLoop (S (String.length (csv.unread reader))) j reader fields records
  end.

(** *** The other calls of the ingest job *)

Module UnprocessedRecord.
Record t : Type := { Fields : gmap string string }.
End UnprocessedRecord.

(** [Info]: the job record (embedded in the source) and the counters. *)
Module Info.
Record t : Type := {
  WriteResponse : WriteResponse.t;
  ApexProcessingTime : Z;
  APIActiveProcessingTime : Z;
  NumberRecordsFailed : Z;
  NumberRecordsProcessed : Z;
  Retries : Z;
  TotalProcessingTime : Z;
  ErrorMessage : string
}.

(** [Info{}] *)
Definition zero : t :=
  {| WriteResponse := WriteResponse.zero; ApexProcessingTime := 0;
     APIActiveProcessingTime := 0; NumberRecordsFailed := 0;
     NumberRecordsProcessed := 0; Retries := 0; TotalProcessingTime := 0;
     ErrorMessage := EmptyString |}.

Definition ofJSON (m : list (string * string)) : t :=
  {| WriteResponse := WriteResponse.ofJSON m;
     ApexProcessingTime := memberInt "apexProcessingTime" m;
     APIActiveProcessingTime := memberInt "apiActiveProcessingTime" m;
     NumberRecordsFailed := memberInt "numberRecordsFailed" m;
     NumberRecordsProcessed := memberInt "numberRecordsProcessed" m;
     Retries := memberInt "retries" m;
     TotalProcessingTime := memberInt "totalProcessingTime" m;
     ErrorMessage := member "errorMessage" m |}.
End Info.

Definition infoResponse (env : Env.t) (j : Job.t) (request : http.Request.t)
    (w : World.t) : (Info.t * option error) * World.t :=
  match session.Do (Job.session j) request w with
  | (inr err, w') => ((Info.zero, Some err), w')
  | (inl resp, w') =>
      if negb (http.Response.StatusCode resp =? http.StatusOK)
      then ((Info.zero, Some (HandleError resp)), w')
      else match Env.json_Unmarshal env (http.Response.Body resp) with
           | inr err => ((Info.zero, Some err), w')
           | inl m => ((Info.ofJSON m, None), w')
           end
  end.

Definition fetchInfo (env : Env.t) (j : Job.t) (id : string) (w : World.t)
    : (Info.t * option error) * World.t :=
  let url := session.ServiceURL (Job.session j) +:+ bulk2Endpoint
             +:+ "/" +:+ id in
  match NewRequest env http.MethodGet url http.NoBody with
  | inr err => ((Info.zero, Some err), w)
  | inl request =>
      let request := addHeader "Accept" "application/json" request in
      let request := addHeader "Content-Type" "application/json" request in
      let request := session.AuthorizationHeader (Job.session j) request in
      infoResponse env j request w
  end.

(** [Info] (the method) *)
Definition Info (env : Env.t) (j : Job.t) (w : World.t)
    : (Info.t * option error) * World.t :=
  fetchInfo env j (WriteResponse.ID (Job.WriteResponse j)) w.

Definition setState (env : Env.t) (j : Job.t) (state : string) (w : World.t)
    : (WriteResponse.t * option error) * World.t :=
  let url := session.ServiceURL (Job.session j) +:+ bulk2Endpoint
             +:+ "/" +:+ WriteResponse.ID (Job.WriteResponse j) in
  let body := http.JSON [("state", state)] in
  match NewRequest env http.MethodPatch url body with
  | inr err => ((WriteResponse.zero, Some err), w)
  | inl request =>
      let request := addHeader "Accept" "application/json" request in
      let request := addHeader "Content-Type" "application/json" request in
      let request := session.AuthorizationHeader (Job.session j) request in
      response env j request w
  end.

Definition Close (env : Env.t) (j : Job.t) (w : World.t)
    : (WriteResponse.t * option error) * World.t :=
  setState env j UpdateComplete w.

Definition Abort (env : Env.t) (j : Job.t) (w : World.t)
    : (WriteResponse.t * option error) * World.t :=
  setState env j Aborted w.

(** The method [Delete] of the job; the name [Delete] is the operation
    constant. *)
Definition Job_Delete (env : Env.t) (j : Job.t) (w : World.t)
    : option error * World.t :=
  let url := session.ServiceURL (Job.session j) +:+ bulk2Endpoint
             +:+ "/" +:+ WriteResponse.ID (Job.WriteResponse j) in
  match NewRequest env http.MethodDelete url http.NoBody with
  | inr err => (Some err, w)
  | inl request =>
      let request := session.AuthorizationHeader (Job.session j) request in
      match session.Do (Job.session j) request w with
      | (inr err, w) => (Some err, w)
      | (inl response, w) =>
          if negb (http.Response.StatusCode response =? http.StatusNoContent)
          then (Some (errorString "job error: unable to delete job"), w)
          else (None, w)
      end
  end.

(** [Upload]: the reader handed in is the body of the request. *)
Definition Upload (env : Env.t) (j : Job.t) (body : string) (w : World.t)
    : option error * World.t :=
  let url := session.ServiceURL (Job.session j) +:+ bulk2Endpoint
             +:+ "/" +:+ WriteResponse.ID (Job.WriteResponse j)
             +:+ "/batches" in
  match NewRequest env http.MethodPut url (http.Raw body) with
  | inr err => (Some err, w)
  | inl request =>
      let request := addHeader "Content-Type" "text/csv" request in
      let request := session.AuthorizationHeader (Job.session j) request in
      match session.Do (Job.session j) request w with
      | (inr err, w) => (Some err, w)
      | (inl response, w) =>
          if negb (http.Response.StatusCode response =? http.StatusCreated)
          then (Some (HandleError response), w)
          else (None, w)
      end
  end.

(** [getSuccessfulResults] and [getFailedResults] differ in the last
    segment of the URL only: the code they share, with that segment. *)
Definition getResults (env : Env.t) (j : Job.t) (segment : string)
    (w : World.t) : (http.Response.t + error) * World.t :=
  let url := session.ServiceURL (Job.session j) +:+ bulk2Endpoint
             +:+ "/" +:+ WriteResponse.ID (Job.WriteResponse j)
             +:+ segment in
  match NewRequest env http.MethodGet url http.NoBody with
  | inr err => (inr err, w)
  | inl request =>
      let request := addHeader "Accept" "text/csv" request in
      let request := session.AuthorizationHeader (Job.session j) request in
      match session.Do (Job.session j) request w with
      | (inr err, w) => (inr err, w)
      | (inl response, w) =>
          if negb (http.Response.StatusCode response =? http.StatusOK)
          then (inr (HandleError response), w)
          else (inl response, w)
      end
  end.

Definition getSuccessfulResults (env : Env.t) (j : Job.t) (w : World.t)
    : (http.Response.t + error) * World.t :=
  getResults env j "/successfulResults/" w.

Definition getFailedResults (env : Env.t) (j : Job.t) (w : World.t)
    : (http.Response.t + error) * World.t :=
  getResults env j "/failedResults/" w.

(** The body of a response, read as a stream. *)
Definition bodyStream (response : http.Response.t) : csv.Stream :=
  {| csv.bytes := http.Response.Body response; csv.fail := None |}.

Definition SuccessfulRecords (env : Env.t) (j : Job.t) (w : World.t)
    : exec (list SuccessfulRecord.t * option error) * World.t :=
  match getSuccessfulResults env j w with
  | (inr err, w) => (mret ([], Some err), w)
  | (inl response, w) => (ParseSuccessfulResults j (bodyStream response), w)
  end.

Definition FailedRecords (env : Env.t) (j : Job.t) (w : World.t)
    : exec (list FailedRecord.t * option error) * World.t :=
  match getFailedResults env j w with
  | (inr err, w) => (mret ([], Some err), w)
  | (inl response, w) => (ParseFailedResults j (bodyStream response), w)
  end.

Definition ExportSuccessfulResults (env : Env.t) (j : Job.t)
    (filename : string) (w : World.t) : option error * World.t :=
  match getSuccessfulResults env j w with
  | (inr err, w) => (Some err, w)
  | (inl response, w) =>
      copyToFile env filename (http.Response.Body response) w
  end.

Definition ExportFailedResults (env : Env.t) (j : Job.t)
    (filename : string) (w : World.t) : option error * World.t :=
  match getFailedResults env j w with
  | (inr err, w) => (Some err, w)
  | (inl response, w) =>
      copyToFile env filename (http.Response.Body response) w
  end.

Definition ReadSuccessfulResults (j : Job.t) (filename : string) (w : World.t)
    : exec (list SuccessfulRecord.t * option error) :=
  match openFile filename w with
  | inr err => mret ([], Some err)
  | inl content =>
      ParseSuccessfulResults j {| csv.bytes := content; csv.fail := None |}
  end.

Definition ReadFailedResults (j : Job.t) (filename : string) (w : World.t)
    : exec (list FailedRecord.t * option error) :=
  match openFile filename w with
  | inr err => mret ([], Some err)
  | inl content =>
      ParseFailedResults j {| csv.bytes := content; csv.fail := None |}
  end.

(** The [for] loop of [UnprocessedRecords]. *)
Fixpoint unprocessedLoop (fuel : nat) (j : Job.t) (reader : csv.Reader)
    (fields : list string) (records : list UnprocessedRecord.t)
    : exec (list UnprocessedRecord.t * option error) :=
  match fuel with
  | O => OutOfFuel
  | S fuel =>
      let '((values, err), reader) := csv.Read reader in
      if bool_decide (err = Some EOF) then mret (records, None)
      else match err with
           | Some err => mret ([], Some err)
           | None =>
               m ← record j fields values;
               unprocessedLoop fuel j reader fields
                 (records ++ [ {| UnprocessedRecord.Fields := m |} ])
           end
  end.

Definition UnprocessedRecords (env : Env.t) (j : Job.t) (w : World.t)
    : exec (list UnprocessedRecord.t * option error) * World.t :=
  let url := session.ServiceURL (Job.session j) +:+ bulk2Endpoint
             +:+ "/" +:+ WriteResponse.ID (Job.WriteResponse j)
             +:+ "/unprocessedrecords/" in
  match NewRequest env http.MethodGet url http.NoBody with
  | inr err => (mret ([], Some err), w)
  | inl request =>
      let request := addHeader "Accept" "text/csv" request in
      let request := session.AuthorizationHeader (Job.session j) request in
      match session.Do (Job.session j) request w with
      | (inr err, w) => (mret ([], Some err), w)
      | (inl response, w) =>
          if negb (http.Response.StatusCode response =? http.StatusOK)
          then (mret ([], Some (HandleError response)), w)
          else
            let reader := csv.NewReader (bodyStream response) in
            let reader := setComma (delimiter j) reader in
            let records := [] in
            let '((fields, err), reader) := csv.Read reader in
            match err with
            | Some err => (mret ([], Some err), w)
            | None =>
                (unprocessedLoop (S (String.length (csv.unread reader))) j
                   reader fields records, w)
            end
      end
  end.

End bulk.

(** ** Package bulkquery: Bulk API 2.0 query jobs *)

Module bulkquery.

Definition bulk2Endpoint : string := "/jobs/query".

Abbreviation ColumnDelimiter := string (only parsing).
Definition Backquote : ColumnDelimiter := "BACKQUOTE".
Definition Caret : ColumnDelimiter := "CARET".
Definition Comma : ColumnDelimiter := "COMMA".
Definition Pipe : ColumnDelimiter := "PIPE".
Definition SemiColon : ColumnDelimiter := "SEMICOLON".
Definition Tab : ColumnDelimiter := "TAB".

Abbreviation ContentType := string (only parsing).
Definition CSV : ContentType := "CSV".

Abbreviation LineEnding := string (only parsing).
Definition Linefeed : LineEnding := "LF".
Definition CarriageReturnLinefeed : LineEnding := "CRLF".

Abbreviation QueryOperation := string (only parsing).
Definition Query : QueryOperation := "query".
Definition QueryAll : QueryOperation := "queryAll".

Module QueryOptions.
Record t : Type := {
  ColumnDelimiter : string;
  ContentType : string;
  LineEnding : string;
  Query : string;
  Operation : string
}.

(** Assignments to a field through the pointer. *)
Definition setLineEnding (v : string) (o : t) : t :=
  {| ColumnDelimiter := ColumnDelimiter o; ContentType := ContentType o;
     LineEnding := v; Query := Query o; Operation := Operation o |}.

Definition setContentType (v : string) (o : t) : t :=
  {| ColumnDelimiter := ColumnDelimiter o; ContentType := v;
     LineEnding := LineEnding o; Query := Query o; Operation := Operation o |}.

Definition setColumnDelimiter (v : string) (o : t) : t :=
  {| ColumnDelimiter := v; ContentType := ContentType o;
     LineEnding := LineEnding o; Query := Query o; Operation := Operation o |}.

Definition setOperation (v : string) (o : t) : t :=
  {| ColumnDelimiter := ColumnDelimiter o; ContentType := ContentType o;
     LineEnding := LineEnding o; Query := Query o; Operation := v |}.
End QueryOptions.

Module QueryResponse.
Record t : Type := {
  APIVersion : string;
  ColumnDelimiter : string;
  ConcurrencyMode : string;
  ContentType : string;
  CreatedByID : string;
  CreatedDate : string;
  ID : string;
  JobType : string;
  LineEnding : string;
  Object : string;
  Operation : string;
  State : string;
  SystemModstamp : string
}.

(** [QueryResponse{}] *)
Definition zero : t :=
  {| APIVersion := EmptyString; ColumnDelimiter := EmptyString;
     ConcurrencyMode := EmptyString; ContentType := EmptyString;
     CreatedByID := EmptyString; CreatedDate := EmptyString;
     ID := EmptyString; JobType := EmptyString; LineEnding := EmptyString;
     Object := EmptyString; Operation := EmptyString; State := EmptyString;
     SystemModstamp := EmptyString |}.

Definition ofJSON (m : list (string * string)) : t :=
  {| APIVersion := member "apiVersion" m;
     ColumnDelimiter := member "columnDelimiter" m;
     ConcurrencyMode := member "concurrencyMode" m;
     ContentType := member "contentType" m;
     CreatedByID := member "createdById" m;
     CreatedDate := member "createdDate" m;
     ID := member "id" m;
     JobType := member "jobType" m;
     LineEnding := member "lineEnding" m;
     Object := member "object" m;
     Operation := member "operation" m;
     State := member "state" m;
     SystemModstamp := member "systemModstamp" m |}.
End QueryResponse.

Module QueryJob.
Record t : Type := {
  session : session.ServiceFormatter;
  QueryResponse : QueryResponse.t
}.
End QueryJob.

Definition marshalOptions (options : QueryOptions.t) : http.body :=
  http.JSON
    [("columnDelimiter", QueryOptions.ColumnDelimiter options);
     ("contentType", QueryOptions.ContentType options);
     ("lineEnding", QueryOptions.LineEnding options);
     ("query", QueryOptions.Query options);
     ("operation", QueryOptions.Operation options)].

Definition formatOptions (j : QueryJob.t) (options : QueryOptions.t)
    : QueryOptions.t * option error :=
  if (QueryOptions.Query options =? EmptyString)%string
  then (options, Some (errorString "bulk job: query is required"))
  else
    let options :=
      if (QueryOptions.LineEnding options =? EmptyString)%string
      then QueryOptions.setLineEnding Linefeed options else options in
    let options :=
      if (QueryOptions.ContentType options =? EmptyString)%string
      then QueryOptions.setContentType CSV options else options in
    let options :=
      if (QueryOptions.ColumnDelimiter options =? EmptyString)%string
      then QueryOptions.setColumnDelimiter Comma options else options in
    let options :=
      if (QueryOptions.Operation options =? EmptyString)%string
      then QueryOptions.setOperation Query options else options in
    (options, None).

(** [response] also stores the decoded record in the job: the job as the
    call leaves it is returned with the result. *)
Definition response (env : Env.t) (j : QueryJob.t) (request : http.Request.t)
    (w : World.t) : (QueryJob.t * (QueryResponse.t * option error)) * World.t :=
  match session.Do (QueryJob.session j) request w with
  | (inr err, w') => ((j, (QueryResponse.zero, Some err)), w')
  | (inl resp, w') =>
      if negb (http.Response.StatusCode resp =? http.StatusOK)
      then ((j, (QueryResponse.zero, Some (HandleError resp))), w')
      else match Env.json_Unmarshal env (http.Response.Body resp) with
           | inr err => ((j, (QueryResponse.zero, Some err)), w')
           | inl m =>
               let value := QueryResponse.ofJSON m in
               (({| QueryJob.session := QueryJob.session j;
                    QueryJob.QueryResponse := value |}, (value, None)), w')
           end
  end.

Definition createCallout (env : Env.t) (j : QueryJob.t)
    (options : QueryOptions.t) (w : World.t)
    : (QueryJob.t * (QueryResponse.t * option error)) * World.t :=
  let url := session.ServiceURL (QueryJob.session j) +:+ bulk2Endpoint in
  match NewRequest env http.MethodPost url (marshalOptions options) with
  | inr err => ((j, (QueryResponse.zero, Some err)), w)
  | inl request =>
      let request := addHeader "Accept" "application/json" request in
      let request := addHeader "Content-Type" "application/json" request in
      let request := session.AuthorizationHeader (QueryJob.session j) request in
      response env j request w
  end.

Definition create (env : Env.t) (j : QueryJob.t) (options : QueryOptions.t)
    (w : World.t) : (QueryJob.t * option error) * World.t :=
  match formatOptions j options with
  | (_, Some err) => ((j, Some err), w)
  | (options, None) =>
      let '((j, (qr, err)), w') := createCallout env j options w in
      ({| QueryJob.session := QueryJob.session j;
          QueryJob.QueryResponse := qr |}, err, w')
  end.

(** [os.Create(filepath)] followed by [io.Copy(out, body)]. *)
Definition createFile (filepath : string) (w : World.t) : World.t :=
  {| World.sent := World.sent w;
     World.files := <[filepath := EmptyString]> (World.files w) |}.

Definition writeFile (filepath data : string) (w : World.t) : World.t :=
  {| World.sent := World.sent w;
     World.files := <[filepath := data]> (World.files w) |}.

(** [ExportResults]: the next locator and the error. *)
Definition ExportResults (env : Env.t) (j : QueryJob.t) (filepath : string)
    (maxRecords : Z) (locator : string) (w : World.t)
    : (string * option error) * World.t :=
  let url := session.ServiceURL (QueryJob.session j) +:+ bulk2Endpoint
             +:+ "/" +:+ QueryResponse.ID (QueryJob.QueryResponse j)
             +:+ "/results" in
  match NewRequest env http.MethodGet url http.NoBody with
  | inr err => ((EmptyString, Some err), w)
  | inl request =>
      let q := http.Request.Query request in
      let q := if negb (locator =? EmptyString)%string
               then http.Add "locator" locator q else q in
      let q := if 0 <? maxRecords
               then http.Add "maxRecords" (strconv.Itoa maxRecords) q else q in
      let request := setQuery q request in
      let request := addHeader "Accept" "text/csv" request in
      let request := addHeader "Content-Type" "application/json" request in
      let request := session.AuthorizationHeader (QueryJob.session j) request in
      match session.Do (QueryJob.session j) request w with
      | (inr err, w) => ((EmptyString, Some err), w)
      | (inl response, w) =>
          if negb (http.Response.StatusCode response =? http.StatusOK)
          then ((EmptyString, Some (HandleError response)), w)
          else
            match Env.os_Create env filepath with
            | Some err => ((EmptyString, Some err), w)
            | None =>
                let w := createFile filepath w in
                match Env.io_Copy env (http.Response.Body response) with
                | Some (written, err) =>
                    ((EmptyString, Some err), writeFile filepath written w)
                | None =>
                    let w :=
                      writeFile filepath (http.Response.Body response) w in
                    let newLocator :=
                      http.Get "Sforce-Locator"
                        (http.Response.Header response) in
                    ((newLocator, None), w)
                end
            end
      end
  end.

Definition delimiter (j : QueryJob.t) : ascii :=
  let d := QueryResponse.ColumnDelimiter (QueryJob.QueryResponse j) in
  if (d =? Tab)%string then HT
  else if (d =? SemiColon)%string then ";"%char
  else if (d =? Pipe)%string then "|"%char
  else if (d =? Caret)%string then "^"%char
  else if (d =? Backquote)%string then "`"%char
  else ","%char.

(** *** The other calls of the query job, and the resource *)

(** [QueryInfo]: the job record (embedded in the source) and the
    counters. *)
Module QueryInfo.
Record t : Type := {
  QueryResponse : QueryResponse.t;
  NumberRecordsProcessed : Z;
  Retries : Z;
  TotalProcessingTime : Z
}.

(** [QueryInfo{}] *)
Definition zero : t :=
  {| QueryResponse := QueryResponse.zero; NumberRecordsProcessed := 0;
     Retries := 0; TotalProcessingTime := 0 |}.

Definition ofJSON (m : list (string * string)) : t :=
  {| QueryResponse := QueryResponse.ofJSON m;
     NumberRecordsProcessed := memberInt "numberRecordsProcessed" m;
     Retries := memberInt "retries" m;
     TotalProcessingTime := memberInt "totalProcessingTime" m |}.
End QueryInfo.

(** [infoResponse] stores the job record it decodes in the job. *)
Definition infoResponse (env : Env.t) (j : QueryJob.t)
    (request : http.Request.t) (w : World.t)
    : (QueryJob.t * (QueryInfo.t * option error)) * World.t :=
  match session.Do (QueryJob.session j) request w with
  | (inr err, w') => ((j, (QueryInfo.zero, Some err)), w')
  | (inl resp, w') =>
      if negb (http.Response.StatusCode resp =? http.StatusOK)
      then ((j, (QueryInfo.zero, Some (HandleError resp))), w')
      else match Env.json_Unmarshal env (http.Response.Body resp) with
           | inr err => ((j, (QueryInfo.zero, Some err)), w')
           | inl m =>
               let value := QueryInfo.ofJSON m in
               (({| QueryJob.session := QueryJob.session j;
                    QueryJob.QueryResponse := QueryInfo.QueryResponse value |},
                 (value, None)), w')
           end
  end.

Definition fetchInfo (env : Env.t) (j : QueryJob.t) (id : string)
    (w : World.t) : (QueryJob.t * (QueryInfo.t * option error)) * World.t :=
  let url := session.ServiceURL (QueryJob.session j) +:+ bulk2Endpoint
             +:+ "/" +:+ id in
  match NewRequest env http.MethodGet url http.NoBody with
  | inr err => ((j, (QueryInfo.zero, Some err)), w)
  | inl request =>
      let request := addHeader "Accept" "application/json" request in
      let request := addHeader "Content-Type" "application/json" request in
      let request := session.AuthorizationHeader (QueryJob.session j) request in
      infoResponse env j request w
  end.

Definition Info (env : Env.t) (j : QueryJob.t) (w : World.t)
    : (QueryJob.t * (QueryInfo.t * option error)) * World.t :=
  fetchInfo env j (QueryResponse.ID (QueryJob.QueryResponse j)) w.

Definition Aborted : string := "Aborted".

Definition setState (env : Env.t) (j : QueryJob.t) (state : string)
    (w : World.t)
    : (QueryJob.t * (QueryResponse.t * option error)) * World.t :=
  let url := session.ServiceURL (QueryJob.session j) +:+ bulk2Endpoint
             +:+ "/" +:+ QueryResponse.ID (QueryJob.QueryResponse j) in
  let body := http.JSON [("state", state)] in
  match NewRequest env http.MethodPatch url body with
  | inr err => ((j, (QueryResponse.zero, Some err)), w)
  | inl request =>
      let request := addHeader "Accept" "application/json" request in
      let request := addHeader "Content-Type" "application/json" request in
      let request := session.AuthorizationHeader (QueryJob.session j) request in
      response env j request w
  end.

Definition Abort (env : Env.t) (j : QueryJob.t) (w : World.t)
    : (QueryJob.t * (QueryResponse.t * option error)) * World.t :=
  setState env j Aborted w.

Definition Delete (env : Env.t) (j : QueryJob.t) (w : World.t)
    : option error * World.t :=
  let url := session.ServiceURL (QueryJob.session j) +:+ bulk2Endpoint
             +:+ "/" +:+ QueryResponse.ID (QueryJob.QueryResponse j) in
  match NewRequest env http.MethodDelete url http.NoBody with
  | inr err => (Some err, w)
  | inl request =>
      let request := session.AuthorizationHeader (QueryJob.session j) request in
      match session.Do (QueryJob.session j) request w with
      | (inr err, w) => (Some err, w)
      | (inl response, w) =>
          if negb (http.Response.StatusCode response =? http.StatusNoContent)
          then (Some (errorString "job error: unable to delete job"), w)
          else (None, w)
      end
  end.

Module Resource.
Record t : Type := { session : session.ServiceFormatter }.
End Resource.

(** [CreateJob]: the new job, or [nil] and the error. *)
Definition CreateJob (env : Env.t) (r : Resource.t) (options : QueryOptions.t)
    (w : World.t) : (option QueryJob.t * option error) * World.t :=
  let job := {| QueryJob.session := Resource.session r;
                QueryJob.QueryResponse := QueryResponse.zero |} in
  match create env job options w with
  | ((_, Some err), w) => ((None, Some err), w)
  | ((job, None), w) => ((Some job, None), w)
  end.

(** [GetJob]: the job of that ID, or [nil] and the error. *)
Definition GetJob (env : Env.t) (r : Resource.t) (id : string) (w : World.t)
    : (option QueryJob.t * option error) * World.t :=
  let job := {| QueryJob.session := Resource.session r;
                QueryJob.QueryResponse := QueryResponse.zero |} in
  match fetchInfo env job id w with
  | ((_, (_, Some err)), w) => ((None, Some err), w)
  | ((job, (info, None)), w) =>
      ((Some {| QueryJob.session := QueryJob.session job;
                QueryJob.QueryResponse := QueryInfo.QueryResponse info |},
        None), w)
  end.

End bulkquery.

(** ** Package net/textproto: canonical header names

    [http.Header.Add] stores a value under the canonical form of the name:
    the first letter and every letter after a hyphen in upper case, the
    others in lower case; a name with a byte that no header name can hold is
    left as it is. *)

Definition isLower (c : ascii) : bool :=
  (97 <=? nat_of_ascii c)%nat && (nat_of_ascii c <=? 122)%nat.

Definition isUpper (c : ascii) : bool :=
  (65 <=? nat_of_ascii c)%nat && (nat_of_ascii c <=? 90)%nat.

Definition isDigit (c : ascii) : bool :=
  (48 <=? nat_of_ascii c)%nat && (nat_of_ascii c <=? 57)%nat.

Definition validHeaderFieldByte (c : ascii) : bool :=
  isLower c || isUpper c || isDigit c
  || existsb (Ascii.eqb c)
       (list_ascii_of_string "!#$%&'*+-.^_`|~").

Fixpoint canonicalMIMEHeaderKey (upper : bool) (s : string) : string :=
  match s with
  | EmptyString => EmptyString
  | String c t =>
      let c' :=
        if upper && isLower c then ascii_of_nat (nat_of_ascii c - 32)
        else if negb upper && isUpper c then ascii_of_nat (nat_of_ascii c + 32)
        else c in
      String c' (canonicalMIMEHeaderKey (c' =? "-")%char t)
  end.

Definition CanonicalMIMEHeaderKey (s : string) : string :=
  if forallb validHeaderFieldByte (list_ascii_of_string s)
  then canonicalMIMEHeaderKey true s else s.

(** [request.Header.Add(key, value)], for any name. *)
Definition addCanonicalHeader (key value : string) (request : http.Request.t)
    : http.Request.t :=
  addHeader (CanonicalMIMEHeaderKey key) value request.

(** ** Package bulkv1: Bulk API 1.0 jobs *)

Module bulkv1.

Definition bulkEndpoint : string := "job".

Abbreviation ContentType := string (only parsing).
Definition CSV : ContentType := "CSV".
Definition JSON : ContentType := "JSON".
Definition XML : ContentType := "XML".
Definition ZIP_CSV : ContentType := "ZIP_CSV".
Definition ZIP_JSON : ContentType := "ZIP_JSON".
Definition ZIP_XML : ContentType := "ZIP_XML".

Abbreviation LineEnding := string (only parsing).
Definition Linefeed : LineEnding := "LF".
Definition CarriageReturnLinefeed : LineEnding := "CRLF".

Abbreviation Operation := string (only parsing).
Definition Insert : Operation := "insert".
Definition Delete : Operation := "delete".
Definition HardDelete : Operation := "hardDelete".
Definition Update : Operation := "update".
Definition Upsert : Operation := "upsert".

Abbreviation Header := string (only parsing).
Definition PKChunkingHeader : Header := "Sforce-Enable-PKChunking".
Definition LineEndingHeader : Header := "Sforce-Line-Ending".
Definition ContetTypeHeader : Header := "Content-Type".
Definition SalesforceOpsHeader : Header := "Sforce-Call-Options".

(** [JobInfo]; [APIVersion], a [float32] no modelled function reads, is kept
    as the text of the number. *)
Module JobInfo.
Record t : Type := {
  APIVersion : string;
  ApexProcessingTime : Z;
  ApiActiveProcessingTime : Z;
  AssignmentRuleId : string;
  ConcurrencyMode : string;
  ContentType : string;
  CreatedByID : string;
  CreatedDate : string;
  ExternalIDFieldName : string;
  ID : string;
  NumberBatchesCompleted : Z;
  NumberBatchesQueued : Z;
  NumberBatchesFailed : Z;
  NumberBatchesInProgress : Z;
  NumberBatchesTotal : Z;
  NumberRecordsFailed : Z;
  NumberRecordsProcessed : Z;
  NumberRetries : Z;
  Object : string;
  Operation : string;
  State : string;
  SystemModstamp : string;
  TotalProcessingTime : Z
}.

Definition ofJSON (m : list (string * string)) : t :=
  {| APIVersion := member "apiVersion" m;
     ApexProcessingTime := memberInt "apexProcessingTime" m;
     ApiActiveProcessingTime := memberInt "apiActiveProcessingTime" m;
     AssignmentRuleId := member "assignmentRuleId" m;
     ConcurrencyMode := member "concurrencyMode" m;
     ContentType := member "contentType" m;
     CreatedByID := member "createdById" m;
     CreatedDate := member "createdDate" m;
     ExternalIDFieldName := member "externalIdFieldName" m;
     ID := member "id" m;
     NumberBatchesCompleted := memberInt "numberBatchesCompleted" m;
     NumberBatchesQueued := memberInt "numberBatchesQueued" m;
     NumberBatchesFailed := memberInt "numberBatchesFailed" m;
     NumberBatchesInProgress := memberInt "numberBatchesInProgress" m;
     NumberBatchesTotal := memberInt "numberBatchesTotal" m;
     NumberRecordsFailed := memberInt "numberRecordsFailed" m;
     NumberRecordsProcessed := memberInt "numberRecordsProcessed" m;
     NumberRetries := memberInt "numberRetries" m;
     Object := member "object" m;
     Operation := member "operation" m;
     State := member "state" m;
     SystemModstamp := member "systemModstamp" m;
     TotalProcessingTime := memberInt "totalProcessingTime" m |}.

(** [JobInfo{}] *)
Definition zero : t := ofJSON [].
End JobInfo.

Module HeaderOptions.
Record t : Type := {
  LineEnding : string;
  ContentType : string;
  Client : string;
  PKChunking : string
}.
End HeaderOptions.

Module Options.
Record t : Type := {
  ContentType : string;
  ExternalIDFieldName : string;
  Object : string;
  Operation : string
}.
End Options.

(** Modelled from the spec: the interface [session.AsyncServiceFormatter],
    which the sources use and do not declare (the collaborator of the
    version 1 jobs, whose calls go under [{async-service}/job]): a service
    formatter that also resolves the base URL of the asynchronous API. *)
Module AsyncServiceFormatter.
Record t : Type := {
  formatter : session.ServiceFormatter;
  AsyncServiceURL : string
}.
End AsyncServiceFormatter.

Module Job.
Record t : Type := {
  session : AsyncServiceFormatter.t;
  Response : JobInfo.t
}.
End Job.

(** [json.Marshal(options)] *)
Definition marshalOptions (options : Options.t) : http.body :=
  http.JSON
    [("contentType", Options.ContentType options);
     ("externalIdFieldName", Options.ExternalIDFieldName options);
     ("object", Options.Object options);
     ("operation", Options.Operation options)].

(** [formatOptions] works on [*HeaderOptions]: it returns the header options
    as it leaves them, and the error. *)
Definition formatOptions (j : Job.t) (options : Options.t)
    (header : HeaderOptions.t) : HeaderOptions.t * option error :=
  if (Options.Operation options =? EmptyString)%string
  then (header, Some (errorString "bulk job: operation is required"))
  else if (Options.Operation options =? Upsert)%string
          && (Options.ExternalIDFieldName options =? EmptyString)%string
  then (header,
        Some (errorString
          "bulk job: external id field name is required for upsert operation"))
  else if (Options.Object options =? EmptyString)%string
  then (header, Some (errorString "bulk job: object is required"))
  else
    let header :=
      if (HeaderOptions.LineEnding header =? EmptyString)%string
      then {| HeaderOptions.LineEnding := Linefeed;
              HeaderOptions.ContentType := HeaderOptions.ContentType header;
              HeaderOptions.Client := HeaderOptions.Client header;
              HeaderOptions.PKChunking := HeaderOptions.PKChunking header |}
      else header in
    let header :=
      if (HeaderOptions.ContentType header =? EmptyString)%string
      then {| HeaderOptions.LineEnding := HeaderOptions.LineEnding header;
              HeaderOptions.ContentType := CSV;
              HeaderOptions.Client := HeaderOptions.Client header;
              HeaderOptions.PKChunking := HeaderOptions.PKChunking header |}
      else header in
    let header :=
      if (HeaderOptions.PKChunking header =? EmptyString)%string
      then {| HeaderOptions.LineEnding := HeaderOptions.LineEnding header;
              HeaderOptions.ContentType := HeaderOptions.ContentType header;
              HeaderOptions.Client := HeaderOptions.Client header;
              HeaderOptions.PKChunking := "TRUE" |}
      else header in
    (header, None).

Definition response (env : Env.t) (j : Job.t) (request : http.Request.t)
    (w : World.t) : (JobInfo.t * option error) * World.t :=
  match session.Do (AsyncServiceFormatter.formatter (Job.session j))
          request w with
  | (inr err, w') => ((JobInfo.zero, Some err), w')
  | (inl resp, w') =>
      if negb (http.Response.StatusCode resp =? http.StatusOK)
      then ((JobInfo.zero, Some (HandleError resp)), w')
      else match Env.json_Unmarshal env (http.Response.Body resp) with
           | inr err => ((JobInfo.zero, Some err), w')
           | inl m => ((JobInfo.ofJSON m, None), w')
           end
  end.

Definition createCallout (env : Env.t) (j : Job.t) (options : Options.t)
    (header : HeaderOptions.t) (w : World.t)
    : (JobInfo.t * option error) * World.t :=
  let url := AsyncServiceFormatter.AsyncServiceURL (Job.session j)
             +:+ bulkEndpoint in
  match NewRequest env http.MethodPost url (marshalOptions options) with
  | inr err => ((JobInfo.zero, Some err), w)
  | inl request =>
      let request := addCanonicalHeader "Accept" "application/json" request in
      let request :=
        addCanonicalHeader "Content-Type" "application/json" request in
      let request :=
        addCanonicalHeader PKChunkingHeader
          (HeaderOptions.PKChunking header) request in
      let request :=
        addCanonicalHeader LineEndingHeader
          (HeaderOptions.LineEnding header) request in
      let request :=
        addCanonicalHeader ContetTypeHeader
          (HeaderOptions.ContentType header) request in
      let request :=
        session.AuthorizationHeader
          (AsyncServiceFormatter.formatter (Job.session j)) request in
      response env j request w
  end.

Definition create (env : Env.t) (j : Job.t) (options : Options.t)
    (header : HeaderOptions.t) (w : World.t)
    : (Job.t * option error) * World.t :=
  match formatOptions j options header with
  | (_, Some err) => ((j, Some err), w)
  | (header, None) =>
      let '((info, err), w') := createCallout env j options header w in
      ({| Job.session := Job.session j; Job.Response := info |}, err, w')
  end.

(** *** The other calls of the version 1 job *)

Abbreviation State := string (only parsing).
Definition Open : State := "Open".
Definition Closed : State := "Closed".
Definition Aborted : State := "Aborted".
Definition Failed : State := "Failed".

Module BatchInfo.
Record t : Type := {
  ApexProcessingTime : Z;
  ApiActiveProcessingTime : Z;
  CreatedDate : string;
  ID : string;
  JobID : string;
  NumberRecordsFailed : Z;
  NumberRecordsProcessed : Z;
  State : string;
  StateMessage : string;
  SystemModstamp : string;
  TotalProcessingTime : Z
}.

Definition ofJSON (m : list (string * string)) : t :=
  {| ApexProcessingTime := memberInt "apexProcessingTime" m;
     ApiActiveProcessingTime := memberInt "apiActiveProcessingTime" m;
     CreatedDate := member "createdDate" m;
     ID := member "id" m;
     JobID := member "jobId" m;
     NumberRecordsFailed := memberInt "numberRecordsFailed" m;
     NumberRecordsProcessed := memberInt "numberRecordsProcessed" m;
     State := member "state" m;
     StateMessage := member "stateMessage" m;
     SystemModstamp := member "systemModstamp" m;
     TotalProcessingTime := memberInt "totalProcessingTime" m |}.

(** [BatchInfo{}] *)
Definition zero : t := ofJSON [].
End BatchInfo.

(** [j.session.ServiceURL()], [j.session.AuthorizationHeader] and
    [j.session.Client()]: the methods of the service formatter inside the
    asynchronous one. *)
Definition formatterOf (j : Job.t) : session.ServiceFormatter :=
  AsyncServiceFormatter.formatter (Job.session j).

(** [createBatch]: the reader handed in is the body of the request. *)
Definition createBatch (env : Env.t) (j : Job.t) (body : string) (w : World.t)
    : (BatchInfo.t * option error) * World.t :=
  let url := AsyncServiceFormatter.AsyncServiceURL (Job.session j)
             +:+ bulkEndpoint +:+ "/" +:+ JobInfo.ID (Job.Response j)
             +:+ "/batch" in
  match NewRequest env http.MethodPost url (http.Raw body) with
  | inr err => ((BatchInfo.zero, Some err), w)
  | inl request =>
      let request := addCanonicalHeader "Content-Type" "text/csv" request in
      let request := session.AuthorizationHeader (formatterOf j) request in
      match session.Do (formatterOf j) request w with
      | (inr err, w) => ((BatchInfo.zero, Some err), w)
      | (inl response, w) =>
          if negb (http.Response.StatusCode response =? http.StatusCreated)
          then ((BatchInfo.zero, Some (HandleError response)), w)
          else match Env.json_Unmarshal env (http.Response.Body response) with
               | inr err => ((BatchInfo.zero, Some err), w)
               | inl m => ((BatchInfo.ofJSON m, None), w)
               end
      end
  end.

Definition infoResponse (env : Env.t) (j : Job.t) (request : http.Request.t)
    (w : World.t) : (BatchInfo.t * option error) * World.t :=
  match session.Do (formatterOf j) request w with
  | (inr err, w') => ((BatchInfo.zero, Some err), w')
  | (inl resp, w') =>
      if negb (http.Response.StatusCode resp =? http.StatusOK)
      then ((BatchInfo.zero, Some (HandleError resp)), w')
      else match Env.json_Unmarshal env (http.Response.Body resp) with
           | inr err => ((BatchInfo.zero, Some err), w')
           | inl m => ((BatchInfo.ofJSON m, None), w')
           end
  end.

Definition fetchBatchInfo (env : Env.t) (j : Job.t) (jobId batchId : string)
    (w : World.t) : (BatchInfo.t * option error) * World.t :=
  let url := session.ServiceURL (formatterOf j) +:+ bulkEndpoint
             +:+ "/" +:+ jobId +:+ "/batch/" +:+ batchId in
  match NewRequest env http.MethodGet url http.NoBody with
  | inr err => ((BatchInfo.zero, Some err), w)
  | inl request =>
      let request := addCanonicalHeader "Accept" "application/json" request in
      let request :=
        addCanonicalHeader "Content-Type" "application/json" request in
      let request := session.AuthorizationHeader (formatterOf j) request in
      infoResponse env j request w
  end.

(** [BatchInfo] (the method) *)
Definition BatchInfo (env : Env.t) (j : Job.t) (info : BatchInfo.t)
    (w : World.t) : (BatchInfo.t * option error) * World.t :=
  fetchBatchInfo env j (JobInfo.ID (Job.Response j)) (BatchInfo.ID info) w.

Definition setState (env : Env.t) (j : Job.t) (state : string) (w : World.t)
    : (JobInfo.t * option error) * World.t :=
  let url := session.ServiceURL (formatterOf j) +:+ bulkEndpoint
             +:+ "/" +:+ JobInfo.ID (Job.Response j) in
  let body := http.JSON [("state", state)] in
  match NewRequest env http.MethodPatch url body with
  | inr err => ((JobInfo.zero, Some err), w)
  | inl request =>
      let request := addCanonicalHeader "Accept" "application/json" request in
      let request :=
        addCanonicalHeader "Content-Type" "application/json" request in
      let request := session.AuthorizationHeader (formatterOf j) request in
      response env j request w
  end.

Definition Close (env : Env.t) (j : Job.t) (w : World.t)
    : (JobInfo.t * option error) * World.t :=
  setState env j Closed w.

Definition Abort (env : Env.t) (j : Job.t) (w : World.t)
    : (JobInfo.t * option error) * World.t :=
  setState env j Aborted w.

(** The method [Delete] of the job; the name [Delete] is the operation
    constant. *)
Definition Job_Delete (env : Env.t) (j : Job.t) (w : World.t)
    : option error * World.t :=
  let url := session.ServiceURL (formatterOf j) +:+ bulkEndpoint
             +:+ "/" +:+ JobInfo.ID (Job.Response j) in
  match NewRequest env http.MethodDelete url http.NoBody with
  | inr err => (Some err, w)
  | inl request =>
      let request := session.AuthorizationHeader (formatterOf j) request in
      match session.Do (formatterOf j) request w with
      | (inr err, w) => (Some err, w)
      | (inl response, w) =>
          if negb (http.Response.StatusCode response =? http.StatusNoContent)
          then (Some (errorString "job error: unable to delete job"), w)
          else (None, w)
      end
  end.

Definition getResults (env : Env.t) (j : Job.t) (batchInfo : BatchInfo.t)
    (w : World.t) : (http.Response.t + error) * World.t :=
  let url := session.ServiceURL (formatterOf j) +:+ bulkEndpoint
             +:+ "/" +:+ JobInfo.ID (Job.Response j)
             +:+ "/batch/" +:+ BatchInfo.ID batchInfo +:+ "/result" in
  match NewRequest env http.MethodGet url http.NoBody with
  | inr err => (inr err, w)
  | inl request =>
      let request := addCanonicalHeader "Accept" "text/csv" request in
      let request := session.AuthorizationHeader (formatterOf j) request in
      match session.Do (formatterOf j) request w with
      | (inr err, w) => (inr err, w)
      | (inl response, w) =>
          if negb (http.Response.StatusCode response =? http.StatusOK)
          then (inr (HandleError response), w)
          else (inl response, w)
      end
  end.

Definition ExportResults (env : Env.t) (j : Job.t) (filename : string)
    (batchInfo : BatchInfo.t) (w : World.t) : option error * World.t :=
  match getResults env j batchInfo w with
  | (inr err, w) => (Some err, w)
  | (inl response, w) =>
      copyToFile env filename (http.Response.Body response) w
  end.

End bulkv1.

(** ** Package credentials *)

Module credentials.

Module PasswordCredentials.
Record t : Type := {
  URL : string;
  Username : string;
  Password : string;
  ClientID : string;
  ClientSecret : string
}.
End PasswordCredentials.

Module RefreshTokenCredentials.
Record t : Type := {
  URL : string;
  RefreshToken : string;
  ClientID : string;
  ClientSecret : string
}.
End RefreshTokenCredentials.

(** Modelled from the spec: the [Provider] interface and the [Credentials]
    struct around it, which the sources use and do not declare (a strategy
    that produces the form body of the token request and its target URL).
    The interface is the sum of its two implementations. *)
Inductive Provider : Type :=
| passwordProvider (creds : PasswordCredentials.t)
| refreshTokenProvider (creds : RefreshTokenCredentials.t).

Module Credentials.
Record t : Type := { provider : Provider }.
End Credentials.

Definition passwordGrantType : string := "password".

(** [Retrieve]: the form of the token request, before [Encode]. *)
Definition Retrieve (provider : Provider) : http.Values :=
  match provider with
  | passwordProvider creds =>
      http.Add "client_secret" (PasswordCredentials.ClientSecret creds)
        (http.Add "client_id" (PasswordCredentials.ClientID creds)
          (http.Add "password" (PasswordCredentials.Password creds)
            (http.Add "username" (PasswordCredentials.Username creds)
              (http.Add "grant_type" passwordGrantType ∅))))
  | refreshTokenProvider creds =>
      http.Add "client_secret" (RefreshTokenCredentials.ClientSecret creds)
        (http.Add "client_id" (RefreshTokenCredentials.ClientID creds)
          (http.Add "refresh_token" (RefreshTokenCredentials.RefreshToken creds)
            (http.Add "format" "json"
              (http.Add "grant_type" "refresh_token" ∅))))
  end.

Definition URL (provider : Provider) : string :=
  match provider with
  | passwordProvider creds => PasswordCredentials.URL creds
  | refreshTokenProvider creds => RefreshTokenCredentials.URL creds
  end.

Definition validatePasswordCredentials (cred : PasswordCredentials.t)
    : option error :=
  if (PasswordCredentials.URL cred =? EmptyString)%string
  then Some (errorString
    "credentials: password credential's URL can not be empty")
  else if (PasswordCredentials.Username cred =? EmptyString)%string
  then Some (errorString
    "credentials: password credential's username can not be empty")
  else if (PasswordCredentials.Password cred =? EmptyString)%string
  then Some (errorString
    "credentials: password credential's password can not be empty")
  else if (PasswordCredentials.ClientID cred =? EmptyString)%string
  then Some (errorString
    "credentials: password credential's client ID can not be empty")
  else if (PasswordCredentials.ClientSecret cred =? EmptyString)%string
  then Some (errorString
    "credentials: password credential's client secret can not be empty")
  else None.

Definition NewPasswordCredentials (creds : PasswordCredentials.t)
    : option Credentials.t * option error :=
  match validatePasswordCredentials creds with
  | Some err => (None, Some err)
  | None => (Some {| Credentials.provider := passwordProvider creds |}, None)
  end.

Definition validateRefreshTokenCredentials (cred : RefreshTokenCredentials.t)
    : option error :=
  if (RefreshTokenCredentials.URL cred =? EmptyString)%string
  then Some (errorString
    "credentials: password credential's URL can not be empty")
  else if (RefreshTokenCredentials.RefreshToken cred =? EmptyString)%string
  then Some (errorString
    "credentials: refresh token credential's refreshToken can not be empty")
  else if (RefreshTokenCredentials.ClientID cred =? EmptyString)%string
  then Some (errorString
    "credentials: password credential's client ID can not be empty")
  else if (RefreshTokenCredentials.ClientSecret cred =? EmptyString)%string
  then Some (errorString
    "credentials: password credential's client secret can not be empty")
  else None.

Definition NewRefreshTokenCredentials (creds : RefreshTokenCredentials.t)
    : option Credentials.t * option error :=
  match validateRefreshTokenCredentials creds with
  | Some err => (None, Some err)
  | None =>
      (Some {| Credentials.provider := refreshTokenProvider creds |}, None)
  end.

End credentials.

(** ** The required credential fields, as the specification lists them *)

(** The required fields of each grant, each with the name the error
    messages give it, in the order the validation visits them. *)
Definition requiredPassword (c : credentials.PasswordCredentials.t)
    : list (string * string) :=
  [("URL", credentials.PasswordCredentials.URL c);
   ("username", credentials.PasswordCredentials.Username c);
   ("password", credentials.PasswordCredentials.Password c);
   ("client ID", credentials.PasswordCredentials.ClientID c);
   ("client secret", credentials.PasswordCredentials.ClientSecret c)].

Definition requiredRefreshToken (c : credentials.RefreshTokenCredentials.t)
    : list (string * string) :=
  [("URL", credentials.RefreshTokenCredentials.URL c);
   ("refreshToken", credentials.RefreshTokenCredentials.RefreshToken c);
   ("client ID", credentials.RefreshTokenCredentials.ClientID c);
   ("client secret", credentials.RefreshTokenCredentials.ClientSecret c)].

(** The name of the first field that is empty, if any. *)
Definition firstEmpty (fields : list (string * string)) : option string :=
  fst <$> List.find (fun f => (snd f =? EmptyString)%string) fields.

(** ** Values for the examples *)

(** A session that answers nothing, for the examples. *)
Definition offline : session.ServiceFormatter :=
  {| session.ServiceURL := "https://example.my.salesforce.com/services/data/v52.0";
     session.AuthorizationHeader := fun request => request;
     session.Client := fun _ _ => inr (IOError "offline") |}.

(** A job whose server record names the column delimiter [d]. *)
Definition jobWith (d : string) : bulk.Job.t :=
  {| bulk.Job.session := offline;
     bulk.Job.WriteResponse :=
       bulk.WriteResponse.ofJSON [("id", "750R0000000zlh9IAA");
                                  ("columnDelimiter", d)] |}.

(** Options that name a delimiter and leave the other optional fields
    empty. *)
Definition exampleOptions : bulk.Options.t :=
  {| bulk.Options.ColumnDelimiter := "PIPE";
     bulk.Options.ContentType := EmptyString;
     bulk.Options.ExternalIDFieldName := EmptyString;
     bulk.Options.LineEnding := EmptyString;
     bulk.Options.Object := "Account";
     bulk.Options.Operation := "insert" |}.

(** An upsert that names no external ID field. *)
Definition upsertWithoutField : bulk.Options.t :=
  {| bulk.Options.ColumnDelimiter := EmptyString;
     bulk.Options.ContentType := EmptyString;
     bulk.Options.ExternalIDFieldName := EmptyString;
     bulk.Options.LineEnding := EmptyString;
     bulk.Options.Object := "Account";
     bulk.Options.Operation := "upsert" |}.

Definition exampleQueryJob : bulkquery.QueryJob.t :=
  {| bulkquery.QueryJob.session := offline;
     bulkquery.QueryJob.QueryResponse :=
       bulkquery.QueryResponse.ofJSON [("id", "750R0000000zlh9IAA")] |}.

Definition exampleQueryOptions : bulkquery.QueryOptions.t :=
  {| bulkquery.QueryOptions.ColumnDelimiter := EmptyString;
     bulkquery.QueryOptions.ContentType := EmptyString;
     bulkquery.QueryOptions.LineEnding := "CRLF";
     bulkquery.QueryOptions.Query := "SELECT Id FROM Account";
     bulkquery.QueryOptions.Operation := EmptyString |}.

(** A password grant that lacks its password, and a complete refresh-token
    grant. *)
Definition examplePassword : credentials.PasswordCredentials.t :=
  {| credentials.PasswordCredentials.URL := "https://login.salesforce.com";
     credentials.PasswordCredentials.Username := "user@example.com";
     credentials.PasswordCredentials.Password := EmptyString;
     credentials.PasswordCredentials.ClientID := EmptyString;
     credentials.PasswordCredentials.ClientSecret := "secret" |}.

Definition exampleRefreshToken : credentials.RefreshTokenCredentials.t :=
  {| credentials.RefreshTokenCredentials.URL := "https://login.salesforce.com";
     credentials.RefreshTokenCredentials.RefreshToken := "5Aep861";
     credentials.RefreshTokenCredentials.ClientID := "3MVG9";
     credentials.RefreshTokenCredentials.ClientSecret := "secret" |}.

(** A result set whose second data row lacks a column, and one whose data
    row has a quote inside a bare field. *)
Definition shortRowStream : csv.Stream :=
  {| csv.bytes := "sf__Id,sf__Created,Name" +:+ String LF "001,true,Acme"
                  +:+ String LF "002,false" +:+ String LF EmptyString;
     csv.fail := None |}.

Definition bareQuoteStream : csv.Stream :=
  {| csv.bytes := "sf__Id,sf__Error,Name" +:+ String LF "001,DUPLICATE,Acme"
                  +:+ String LF "002,bad" +:+ String DQUOTE "value,Bolt"
                  +:+ String LF EmptyString;
     csv.fail := None |}.

(** A result set whose second data row has a created flag that is not a
    boolean literal. *)
Definition badFlagStream : csv.Stream :=
  {| csv.bytes := "sf__Id,sf__Created,Name" +:+ String LF "001,true,Acme"
                  +:+ String LF "002,yes,Bolt" +:+ String LF "003,false,Cog"
                  +:+ String LF EmptyString;
     csv.fail := None |}.



(** A server that answers every request with a page of results and the
    locator of the next page, and surroundings in which files can be created
    except under a directory that does not exist. *)
Definition pageResponse : http.Response.t :=
  {| http.Response.StatusCode := 200;
     http.Response.Header :=
       http.Add "Sforce-Locator" "NTAwMA" (http.Add "Content-Type" "text/csv" ∅);
     http.Response.Body := "Id" +:+ String LF "001" +:+ String LF EmptyString |}.

Definition pagingSession : session.ServiceFormatter :=
  {| session.ServiceURL := "https://example.my.salesforce.com/services/data/v52.0";
     session.AuthorizationHeader := addHeader "Authorization" "Bearer 00D";
     session.Client := fun _ _ => inl pageResponse |}.

Definition pagingJob : bulkquery.QueryJob.t :=
  {| bulkquery.QueryJob.session := pagingSession;
     bulkquery.QueryJob.QueryResponse :=
       bulkquery.QueryResponse.ofJSON [("id", "750R0000000zlh9IAA")] |}.

Definition exampleEnv : Env.t :=
  {| Env.url_Parse := fun u => inl (u, ∅);
     Env.os_Create := fun path =>
       if String.prefix "/no/such/dir/" path
       then Some (IOError "no such file or directory") else None;
     Env.io_Copy := fun _ => None;
     Env.json_Unmarshal := fun _ => inl [] |}.

Definition emptyWorld : World.t := {| World.sent := []; World.files := ∅ |}.

(** The request [ExportResults] hands to the session: the query of the URL,
    with the locator and the record limit the call adds to it. *)
Definition exportRequest (u : string) (q : http.Values) (maxRecords : Z)
    (locator : string) : http.Request.t :=
  {| http.Request.Method := "GET";
     http.Request.URL := u;
     http.Request.Query :=
       (if decide (0 < maxRecords)
        then http.Add "maxRecords" (strconv.Itoa maxRecords) else id)
         ((if decide (locator = EmptyString)
           then id else http.Add "locator" locator) q);
     http.Request.Header :=
       http.Add "Content-Type" "application/json"
         (http.Add "Accept" "text/csv" ∅);
     http.Request.Body := http.NoBody |}.

(** ** Predicates of the further properties *)

(** The map [record] builds for a row from the third column on, as the two
    parsers call it: its keys are the header names from the third on, and a
    name is mapped to the value under its last occurrence. *)
Definition fieldsOf (fields values : list string) (m : gmap string string)
    : Prop :=
  dom m = list_to_set (drop 2 fields)
  /\ forall (p : nat) key,
       (2 <= p)%nat -> fields !! p = Some key ->
       (forall p' : nat, (p < p')%nat -> fields !! p' <> Some key) ->
       m !! key = values !! p.

(** Nothing was sent between [w] and [w'], or one request that went through
    the session's [AuthorizationHeader]. *)
Definition oneAuthorizedRequest (s : session.ServiceFormatter)
    (w w' : World.t) : Prop :=
  World.sent w' = World.sent w
  \/ exists request,
       World.sent w' = World.sent w ++ [session.AuthorizationHeader s request].

(** ** Values for the examples of the further properties *)

(** Result sets with both reserved columns. *)
Definition successfulStream : csv.Stream :=
  {| csv.bytes := "sf__Id,sf__Created,Name,Phone"
                  +:+ String LF "001,true,Acme,555"
                  +:+ String LF "002,false,Bolt,556" +:+ String LF EmptyString;
     csv.fail := None |}.

Definition failedStream : csv.Stream :=
  {| csv.bytes := "sf__Id,sf__Error,Name" +:+ String LF "001,DUPLICATE,Acme"
                  +:+ String LF "002,REQUIRED_FIELD_MISSING,Bolt"
                  +:+ String LF EmptyString;
     csv.fail := None |}.

(** A server that answers every request with the records it did not
    process, and a job of it. *)
Definition unprocessedResponse : http.Response.t :=
  {| http.Response.StatusCode := 200;
     http.Response.Header := http.Add "Content-Type" "text/csv" ∅;
     http.Response.Body := "Name,Phone" +:+ String LF "Cog,557"
                           +:+ String LF "Dot,558" +:+ String LF EmptyString |}.

Definition unprocessedSession : session.ServiceFormatter :=
  {| session.ServiceURL := "https://example.my.salesforce.com/services/data/v52.0";
     session.AuthorizationHeader := addHeader "Authorization" "Bearer 00D";
     session.Client := fun _ _ => inl unprocessedResponse |}.

Definition unprocessedJob : bulk.Job.t :=
  {| bulk.Job.session := unprocessedSession;
     bulk.Job.WriteResponse :=
       bulk.WriteResponse.ofJSON [("id", "750R0000000zlh9IAA")] |}.

(** A server that answers every request with a set of successful results,
    and a job of it. *)
Definition resultsResponse : http.Response.t :=
  {| http.Response.StatusCode := 200;
     http.Response.Header := http.Add "Content-Type" "text/csv" ∅;
     http.Response.Body := csv.bytes successfulStream |}.

Definition resultsSession : session.ServiceFormatter :=
  {| session.ServiceURL := "https://example.my.salesforce.com/services/data/v52.0";
     session.AuthorizationHeader := addHeader "Authorization" "Bearer 00D";
     session.Client := fun _ _ => inl resultsResponse |}.

Definition resultsJob : bulk.Job.t :=
  {| bulk.Job.session := resultsSession;
     bulk.Job.WriteResponse :=
       bulk.WriteResponse.ofJSON [("id", "750R0000000zlh9IAA")] |}.

(** A server that answers an upload with 201 and anything else with 200,
    and a job of it. *)
Definition createdResponse : http.Response.t :=
  {| http.Response.StatusCode := 201;
     http.Response.Header := ∅;
     http.Response.Body := EmptyString |}.

Definition okResponse : http.Response.t :=
  {| http.Response.StatusCode := 200;
     http.Response.Header := ∅;
     http.Response.Body := EmptyString |}.

Definition uploadSession : session.ServiceFormatter :=
  {| session.ServiceURL := "https://example.my.salesforce.com/services/data/v52.0";
     session.AuthorizationHeader := addHeader "Authorization" "Bearer 00D";
     session.Client := fun _ request =>
       if (http.Request.Method request =? "PUT")%string
       then inl createdResponse else inl okResponse |}.

Definition uploadJob : bulk.Job.t :=
  {| bulk.Job.session := uploadSession;
     bulk.Job.WriteResponse :=
       bulk.WriteResponse.ofJSON [("id", "750R0000000zlh9IAA")] |}.

(** A version 1 job, options that leave the content type empty, and header
    options that name a content type only. *)
Definition exampleAsyncSession : bulkv1.AsyncServiceFormatter.t :=
  {| bulkv1.AsyncServiceFormatter.formatter := uploadSession;
     bulkv1.AsyncServiceFormatter.AsyncServiceURL :=
       "https://example.my.salesforce.com/services/async/52.0/" |}.

Definition exampleV1Job : bulkv1.Job.t :=
  {| bulkv1.Job.session := exampleAsyncSession;
     bulkv1.Job.Response := bulkv1.JobInfo.zero |}.

Definition exampleV1Options : bulkv1.Options.t :=
  {| bulkv1.Options.ContentType := EmptyString;
     bulkv1.Options.ExternalIDFieldName := EmptyString;
     bulkv1.Options.Object := "Account";
     bulkv1.Options.Operation := "insert" |}.

Definition exampleV1Header : bulkv1.HeaderOptions.t :=
  {| bulkv1.HeaderOptions.LineEnding := EmptyString;
     bulkv1.HeaderOptions.ContentType := "JSON";
     bulkv1.HeaderOptions.Client := EmptyString;
     bulkv1.HeaderOptions.PKChunking := EmptyString |}.

(** * Auxiliary facts *)

(** Deciding a closed decidable proposition by computation. *)
Ltac decide_it :=
  match goal with
  | |- ?P => apply (@bool_decide_unpack P _); vm_compute; exact I
  end.

(** Reading a concrete stream to its end. *)
Ltac read_all :=
  repeat (eapply csv.yields_row; [vm_compute; reflexivity|]);
  eapply csv.yields_end; vm_compute; reflexivity.

(** ** The CSV reader consumes its input *)

Section csv_facts.
Import csv.

Lemma skipLine_length s : (String.length (skipLine s) <= String.length s)%nat.
Proof.
  induction s as [|c t IH]; simpl; [lia|].
  destruct (c =? LF)%char; lia.
Qed.

Lemma skipEmptyLines_length s :
  (String.length (skipEmptyLines s) <= String.length s)%nat.
Proof.
  induction s as [|c t IH]; simpl; [lia|].
  destruct (c =? LF)%char; simpl; lia.
Qed.

(** Case analysis on the tests of [parseRecord]. *)
Ltac split_tests H :=
  repeat match type of H with
         | (if ?b then _ else _) = _ => destruct b
         end.

Lemma parseRecord_length comma fin s : forall pos fields field dst err s',
  parseRecord comma fin pos fields field s = ((dst, err), s') ->
  (String.length s' <= String.length s)%nat.
Proof.
  induction s as [|c t IH]; intros pos fields field dst err s' H.
  - destruct pos, fin; simpl in H; inversion H; simpl; lia.
  - pose proof (skipLine_length t) as Hs.
    destruct pos; simpl in H; split_tests H;
      try (apply IH in H; simpl; lia);
      inversion H; subst; simpl; lia.
Qed.

(** A record read without error has at least one field. *)
Lemma parseRecord_nonempty comma fin s : forall pos fields field dst s',
  parseRecord comma fin pos fields field s = ((dst, None), s') ->
  dst <> [].
Proof.
  induction s as [|c t IH]; intros pos fields field dst s' H.
  - destruct pos, fin; simpl in H; inversion H; subst; try discriminate;
      by destruct fields.
  - destruct pos; simpl in H; split_tests H;
      try (by apply IH in H);
      inversion H; subst; by destruct fields.
Qed.

(** A [Read] that returns a row has consumed input, keeps the delimiter, and
    enforces the field count the first row has set. *)
Lemma Read_row r v r' :
  Read r = ((v, None), r') ->
  (String.length (unread r') < String.length (unread r))%nat
  /\ Comma r' = Comma r /\ readErr r' = readErr r /\ v <> []
  /\ (FieldsPerRecord r = 0 -> FieldsPerRecord r' = Z.of_nat (length v))
  /\ (0 < FieldsPerRecord r ->
      FieldsPerRecord r' = FieldsPerRecord r
      /\ Z.of_nat (length v) = FieldsPerRecord r).
Proof.
  unfold Read. intros H.
  destruct (validDelim (Comma r)); simpl in H; [|discriminate].
  pose proof (skipEmptyLines_length (unread r)) as Hskip.
  destruct (atEOF r (skipEmptyLines (unread r))) eqn:Eeof; [discriminate|].
  unfold readFields in H.
  destruct (parseRecord _ _ _ _ _ _) as [[dst err] s'] eqn:Hp.
  destruct ((0 <? FieldsPerRecord r)
            && negb (Z.of_nat (length dst) =? FieldsPerRecord r)
            && bool_decide (err = None)) eqn:Eb; [discriminate|].
  inversion H; subst; clear H. simpl.
  assert (Hlen : (String.length s' < String.length (unread r))%nat).
  { destruct (skipEmptyLines (unread r)) as [|c t] eqn:Es.
    - unfold atEOF in Eeof. destruct (readErr r); [|discriminate].
      simpl in Hp. inversion Hp.
    - simpl in Hp, Hskip. split_tests Hp;
        try (apply parseRecord_length in Hp; lia);
        inversion Hp; subst; lia. }
  split; [lia|]. split; [done|]. split; [done|].
  split; [by eapply parseRecord_nonempty|].
  split.
  - intros ->. done.
  - intros Hpos. destruct (FieldsPerRecord r =? 0) eqn:E0; [lia|].
    split; [done|].
    apply andb_false_iff in Eb as [Eb|Eb].
    + apply andb_false_iff in Eb as [Eb|Eb]; [lia|].
      apply negb_false_iff in Eb. lia.
    + by rewrite bool_decide_eq_false in Eb.
Qed.

Lemma yields_functional r rows e :
  yields r rows e ->
  forall rows' e', yields r rows' e' -> rows = rows' /\ e = e'.
Proof.
  induction 1 as [r v e r' H|r v r' rows e H Hy IH]; intros rows' e' Hy'.
  - inversion Hy'; subst; [split; congruence|congruence].
  - inversion Hy' as [|r0 v0 r0' rows0 e0 H0 Hy0]; subst; [congruence|].
    assert (v0 = v /\ r0' = r') as [-> ->] by (split; congruence).
    destruct (IH _ _ Hy0) as [-> ->]. done.
Qed.

Lemma yields_length r rows e :
  yields r rows e -> (length rows <= String.length (unread r))%nat.
Proof.
  induction 1 as [r v e r' H|r v r' rows e H Hy IH]; simpl; [lia|].
  apply Read_row in H as (Hlt & _). lia.
Qed.

(** Every reader comes to an end: reading is total. *)
Lemma yields_total r : exists rows e, yields r rows e.
Proof.
  remember (String.length (unread r)) as n eqn:En.
  revert r En. induction (lt_wf n) as [n _ IH]. intros r ->.
  destruct (Read r) as [[v [e|]] r'] eqn:H.
  - exists [], e. by eapply yields_end.
  - pose proof (Read_row _ _ _ H) as (Hlt & _).
    destruct (IH _ Hlt r' eq_refl) as (rows & e & Hy).
    exists (v :: rows), e. by eapply yields_row.
Qed.

Lemma normalize_plain clean s : plain s = true ->
  forall t, normalize clean (s +:+ t) = s +:+ normalize clean t.
Proof.
  induction s as [|c s IH]; intros Hp t; [done|].
  simpl in Hp. apply andb_true_iff in Hp as [Hc Hp].
  apply negb_true_iff, orb_false_iff in Hc as [Hc _].
  apply orb_false_iff in Hc as [_ Hc].
  change (String c s +:+ t) with (String c (s +:+ t)).
  change (String c s +:+ normalize clean t)
    with (String c (s +:+ normalize clean t)).
  rewrite <- (IH Hp t). simpl. rewrite Hc.
  destruct (s +:+ t); simpl; rewrite ?andb_false_r; done.
Qed.

Lemma parseRecord_FieldStart comma fin fields field c t :
  parseRecord comma fin FieldStart fields field (String c t) =
    if (c =? DQUOTE)%char then parseRecord comma fin InQuoted fields field t
    else if (c =? comma)%char
    then parseRecord comma fin FieldStart (fields ++ [field]) EmptyString t
    else if (c =? LF)%char then ((fields ++ [field], None), t)
    else parseRecord comma fin InField fields (push field c) t.
Proof. reflexivity. Qed.

Lemma parseRecord_InField comma fin fields field c t :
  parseRecord comma fin InField fields field (String c t) =
    if (c =? comma)%char
    then parseRecord comma fin FieldStart (fields ++ [field]) EmptyString t
    else if (c =? LF)%char then ((fields ++ [field], None), t)
    else if (c =? DQUOTE)%char
    then ((fields, Some (ParseError ErrBareQuote)), skipLine t)
    else parseRecord comma fin InField fields (push field c) t.
Proof. reflexivity. Qed.

(** A line without quotes is one record, whatever the delimiter. *)
Lemma parseRecord_plain comma h : validDelim comma = true -> plain h = true ->
  forall pos fields field,
  pos = FieldStart \/ pos = InField ->
  (forall rest, exists dst,
      parseRecord comma None pos fields field (h +:+ String LF rest)
      = ((dst, None), rest))
  /\ (exists dst,
      parseRecord comma None pos fields field h = ((dst, None), EmptyString)).
Proof.
  intros Hv. unfold validDelim in Hv.
  apply negb_true_iff in Hv. rewrite !orb_false_iff in Hv.
  destruct Hv as (((_ & _) & _) & Hlf). rewrite Ascii.eqb_sym in Hlf.
  induction h as [|c h IH]; intros Hp pos fields field Hpos.
  - change (EmptyString +:+ ?t) with t.
    split; [intros rest|]; destruct Hpos as [-> | ->];
      rewrite ?parseRecord_FieldStart, ?parseRecord_InField, ?Hlf;
      by eexists.
  - simpl in Hp. apply andb_true_iff in Hp as [Hc Hp].
    apply negb_true_iff in Hc. rewrite !orb_false_iff in Hc.
    destruct Hc as ((Hq & _) & Hl).
    change (String c h +:+ ?t) with (String c (h +:+ t)).
    split; [intros rest|]; destruct Hpos as [-> | ->];
      rewrite ?parseRecord_FieldStart, ?parseRecord_InField, ?Hq, ?Hl;
      destruct (c =? comma)%char;
      first [ apply (proj1 (IH Hp _ _ _ (or_introl eq_refl)))
            | apply (proj1 (IH Hp _ _ _ (or_intror eq_refl)))
            | apply (proj2 (IH Hp _ _ _ (or_introl eq_refl)))
            | apply (proj2 (IH Hp _ _ _ (or_intror eq_refl))) ].
Qed.

End csv_facts.

(** ** The parsers, in terms of what the reader delivers *)

Section parser_facts.
Import bulk.

Lemma successfulLoop_yields j fields r rows e :
  csv.yields r rows e ->
  forall fuel records, (length rows < fuel)%nat ->
  successfulLoop fuel j r fields records
  = successfulRows j fields rows e records.
Proof.
  induction 1 as [r v e r' H|r v r' rows e H Hy IH]; intros fuel records Hf.
  - destruct fuel as [|fuel]; [simpl in Hf; lia|].
    simpl. rewrite H. repeat case_bool_decide; congruence.
  - destruct fuel as [|fuel]; [simpl in Hf; lia|].
    simpl. rewrite H. rewrite bool_decide_eq_false_2 by done.
    destruct (successfulRow j fields v) as [[rec [err|]]| |]; simpl; try done.
    apply IH. simpl in Hf. lia.
Qed.

Lemma failedLoop_yields j fields r rows e :
  csv.yields r rows e ->
  forall fuel records, (length rows < fuel)%nat ->
  failedLoop fuel j r fields records = failedRows j fields rows e records.
Proof.
  induction 1 as [r v e r' H|r v r' rows e H Hy IH]; intros fuel records Hf.
  - destruct fuel as [|fuel]; [simpl in Hf; lia|].
    simpl. rewrite H. repeat case_bool_decide; congruence.
  - destruct fuel as [|fuel]; [simpl in Hf; lia|].
    simpl. rewrite H. rewrite bool_decide_eq_false_2 by done.
    destruct (failedRow j fields v) as [rec| |]; simpl; try done.
    apply IH. simpl in Hf. lia.
Qed.

(** The fuel [ParseSuccessfulResults] gives its loop is enough: the call is
    decided by what the reader delivers. *)
Lemma ParseSuccessfulResults_yields j stream rows e :
  csv.yields (readerOf j stream) rows e ->
  ParseSuccessfulResults j stream =
    match rows with
    | [] => Done ([], Some e)
    | fields :: rows => successfulRows j fields rows e []
    end.
Proof.
  intros Hy. unfold ParseSuccessfulResults. fold (readerOf j stream).
  inversion Hy as [r v e0 r' H|r v r' rows0 e0 H Hy']; subst; rewrite H;
    [done|].
  apply successfulLoop_yields with (1 := Hy').
  apply yields_length in Hy'. lia.
Qed.

Lemma ParseFailedResults_yields j stream rows e :
  csv.yields (readerOf j stream) rows e ->
  ParseFailedResults j stream =
    match rows with
    | [] => Done ([], Some e)
    | fields :: rows => failedRows j fields rows e []
    end.
Proof.
  intros Hy. unfold ParseFailedResults. fold (readerOf j stream).
  inversion Hy as [r v e0 r' H|r v r' rows0 e0 H Hy']; subst; rewrite H;
    [done|].
  apply failedLoop_yields with (1 := Hy').
  apply yields_length in Hy'. lia.
Qed.

End parser_facts.

(** ** Reserved columns and row decoding *)

Section row_facts.
Import bulk.

Lemma delimiter_valid j : csv.validDelim (delimiter j) = true.
Proof. unfold delimiter. repeat case_match; reflexivity. Qed.

Lemma headerPosition_range_absent column header : forall idx,
  column ∉ header -> headerPosition_range column idx header = -1.
Proof.
  induction header as [|col rest IH]; intros idx Hn; simpl; [done|].
  apply not_elem_of_cons in Hn as [Hne Hn].
  destruct (String.eqb_spec col column) as [->|_]; [done|]. by apply IH.
Qed.

Lemma headerPosition_range_present column header : forall idx,
  column ∈ header ->
  exists n : nat,
    headerPosition_range column idx header = idx + Z.of_nat n
    /\ header !! n = Some column.
Proof.
  induction header as [|col rest IH]; intros idx Hin; [by inversion Hin|].
  simpl. destruct (String.eqb_spec col column) as [->|Hne].
  - exists 0%nat. split; [lia|done].
  - apply elem_of_cons in Hin as [->|Hin]; [done|].
    destruct (IH (idx + 1) Hin) as (n & Hn & Hl).
    exists (S n). split; [lia|done].
Qed.

Lemma headerPosition_absent j column header :
  column ∉ header -> headerPosition j column header = -1.
Proof. apply headerPosition_range_absent. Qed.

Lemma headerPosition_present j column header :
  column ∈ header ->
  exists n : nat,
    headerPosition j column header = Z.of_nat n /\ header !! n = Some column.
Proof.
  intros Hin.
  destruct (headerPosition_range_present column header 0 Hin) as (n & Hn & Hl).
  exists n. split; [exact Hn|done].
Qed.

Lemma index_minus_one {A} (s : list A) :
  index s (-1) = Panicked (IndexOutOfRange (-1) (Z.of_nat (length s))).
Proof. reflexivity. Qed.

Lemma index_lookup {A} (s : list A) (n : nat) x :
  s !! n = Some x -> index s (Z.of_nat n) = Done x.
Proof.
  intros Hl. unfold index. pose proof (lookup_lt_Some _ _ _ Hl) as Hlt.
  destruct (Z.ltb_spec (Z.of_nat n) 0); [lia|].
  destruct (Z.leb_spec (Z.of_nat (length s)) (Z.of_nat n)); [lia|].
  simpl. by rewrite Nat2Z.id, Hl.
Qed.

(** With at least as many values as fields, [record] runs to its end. *)
Lemma record_range_done values : forall fields idx m,
  0 <= idx -> idx + Z.of_nat (length fields) <= Z.of_nat (length values) ->
  exists m', record_range values idx fields m = Done m'.
Proof.
  induction fields as [|field rest IH]; intros idx m H0 Hle; simpl.
  - by eexists.
  - simpl in Hle.
    destruct (lookup_lt_is_Some_2 values (Z.to_nat idx)) as [v Hv]; [lia|].
    assert (Hi : index values idx = Done v).
    { rewrite <- (Z2Nat.id idx) by lia. by apply index_lookup. }
    rewrite Hi. simpl. apply IH; lia.
Qed.

End row_facts.

(** ** A header row and nothing else *)

Section header_only.
Import bulk csv.

Lemma append_empty s : s +:+ EmptyString = s.
Proof.
  induction s as [|c s IH]; [done|].
  change (String c (s +:+ EmptyString) = String c s). by rewrite IH.
Qed.

(** A non-empty line without quotes, ended by nothing, LF or CRLF: the
    reader delivers one row and then [io.EOF]. *)
Lemma Read_plain_header j header tail :
  header <> EmptyString -> plain header = true ->
  tail ∈ [EmptyString; String LF EmptyString;
          String CR (String LF EmptyString)] ->
  exists fields,
    yields (readerOf j {| bytes := header +:+ tail; fail := None |})
      [fields] EOF.
Proof.
  intros Hne Hp Htail.
  pose proof (delimiter_valid j) as Hv.
  destruct (parseRecord_plain (delimiter j) header Hv Hp FieldStart []
              EmptyString (or_introl eq_refl)) as [Hnl [dst0 Hend]].
  destruct (Hnl EmptyString) as [dst1 Hline].
  assert (Hn : exists tail',
             normalize true (header +:+ tail) = header +:+ tail'
             /\ (tail' = EmptyString \/ tail' = String LF EmptyString)).
  { rewrite (normalize_plain _ _ Hp).
    rewrite !elem_of_cons in Htail.
    destruct Htail as [-> | [-> | [-> | Hf]]]; [| | |by inversion Hf];
      eexists; (split; [reflexivity|]); auto. }
  destruct Hn as (tail' & Hn & Htail').
  assert (Hs : skipEmptyLines (header +:+ tail') = header +:+ tail').
  { destruct header as [|c h]; [done|]. simpl in Hp |- *.
    apply andb_true_iff in Hp as [Hc _].
    apply negb_true_iff in Hc. rewrite !orb_false_iff in Hc.
    destruct Hc as (_ & ->). done. }
  assert (Hx : exists dst, parseRecord (delimiter j) None FieldStart []
             EmptyString (header +:+ tail') = ((dst, None), EmptyString)).
  { destruct Htail' as [-> | ->]; [|by eexists].
    exists dst0. by rewrite append_empty. }
  destruct Hx as [dst Hx]. exists dst.
  eapply yields_row.
  - unfold Read, readerOf, setComma, NewReader, ending.
    cbn [Comma unread readErr fail bytes FieldsPerRecord].
    rewrite Hv. cbn [negb]. rewrite bool_decide_eq_true_2 by done.
    rewrite Hn, Hs. unfold atEOF. cbn [readErr].
    destruct (header +:+ tail') eqn:E; [by destruct header|].
    unfold readFields. cbn [Comma unread readErr FieldsPerRecord].
    rewrite Hx. reflexivity.
  - eapply yields_end. unfold Read. cbn [Comma unread readErr FieldsPerRecord].
    rewrite Hv. reflexivity.
Qed.

(** Nothing to read: the first [Read] is [io.EOF]. *)
Lemma Read_empty j :
  yields (readerOf j {| bytes := EmptyString; fail := None |}) [] EOF.
Proof.
  eapply yields_end. unfold Read, readerOf, setComma, NewReader, ending.
  cbn [Comma unread readErr fail bytes FieldsPerRecord].
  rewrite delimiter_valid. reflexivity.
Qed.

End header_only.

(** ** Rows, records and the end of the input *)

Section rows_facts.
Import bulk.

(** After the first row, [Read] only returns rows of its length. *)
Lemma yields_FieldsPerRecord r rows e :
  csv.yields r rows e -> 0 < csv.FieldsPerRecord r ->
  Forall (fun v => Z.of_nat (length v) = csv.FieldsPerRecord r) rows.
Proof.
  induction 1 as [r v e r' H|r v r' rows e H Hy IH]; intros Hpos;
    [constructor|].
  apply Read_row in H as (_ & _ & _ & _ & _ & Hfpr).
  destruct (Hfpr Hpos) as [Hsame Hlen].
  constructor; [done|]. rewrite <- Hsame. apply IH. lia.
Qed.

Lemma yields_header r fields rows e :
  csv.FieldsPerRecord r = 0 -> csv.yields r (fields :: rows) e ->
  Forall (fun v => length v = length fields) rows.
Proof.
  intros H0 Hy.
  inversion Hy as [|r0 v r' rows0 e0 H Hy']; subst.
  apply Read_row in H as (_ & _ & _ & Hne & Hset & _).
  specialize (Hset H0).
  assert (Hpos : 0 < csv.FieldsPerRecord r').
  { rewrite Hset. destruct fields; [done|simpl; lia]. }
  pose proof (yields_FieldsPerRecord _ _ _ Hy' Hpos) as Hall.
  eapply Forall_impl; [exact Hall|]. simpl. intros v Hv. lia.
Qed.

Lemma readerOf_header j stream fields rows e :
  csv.yields (readerOf j stream) (fields :: rows) e ->
  Forall (fun v => length v = length fields) rows.
Proof. by apply yields_header. Qed.

(** All rows decoded: the records are returned at [io.EOF], and dropped at
    any other error. *)
Lemma successfulRows_decoded j fields last : forall rows records acc,
  Forall2 (fun values record =>
             successfulRow j fields values = Done (record, None))
          rows records ->
  successfulRows j fields rows last acc
  = if bool_decide (last = EOF) then Done (acc ++ records, None)
    else Done ([], Some last).
Proof.
  induction rows as [|values rows IH]; intros records acc Hall.
  - apply Forall2_nil_inv_l in Hall as ->. simpl. by rewrite app_nil_r.
  - apply Forall2_cons_inv_l in Hall as (record & records' & Hrow & Hall & ->).
    simpl. rewrite Hrow. simpl. rewrite (IH _ _ Hall).
    by rewrite <- app_assoc.
Qed.

Lemma failedRows_decoded j fields last : forall rows records acc,
  Forall2 (fun values record => failedRow j fields values = Done record)
          rows records ->
  failedRows j fields rows last acc
  = if bool_decide (last = EOF) then Done (acc ++ records, None)
    else Done ([], Some last).
Proof.
  induction rows as [|values rows IH]; intros records acc Hall.
  - apply Forall2_nil_inv_l in Hall as ->. simpl. by rewrite app_nil_r.
  - apply Forall2_cons_inv_l in Hall as (record & records' & Hrow & Hall & ->).
    simpl. rewrite Hrow. simpl. rewrite (IH _ _ Hall).
    by rewrite <- app_assoc.
Qed.

(** Decoding a row returns or panics; it has no loop to run out of fuel. *)
Lemma index_ends {A} (s : list A) i : index s i <> OutOfFuel.
Proof. unfold index. repeat case_match; done. Qed.

Lemma record_range_ends values : forall fields idx m,
  record_range values idx fields m <> OutOfFuel.
Proof.
  induction fields as [|field rest IH]; intros idx m; simpl; [done|].
  pose proof (index_ends values idx) as Hi.
  destruct (index values idx); simpl; [apply IH|done|done].
Qed.

Lemma successfulRow_ends j fields values :
  successfulRow j fields values <> OutOfFuel.
Proof.
  unfold successfulRow, record, slice_from.
  pose proof (index_ends values (headerPosition j sfCreated fields)) as H1.
  pose proof (index_ends values (headerPosition j sfID fields)) as H2.
  destruct (index values (headerPosition j sfCreated fields)); simpl;
    [|done|done].
  destruct (strconv.ParseBool _) as [created [err|]]; [done|].
  destruct (index values (headerPosition j sfID fields)); simpl; [|done|done].
  destruct (Z.of_nat (length fields) <? 2); simpl; [done|].
  destruct (Z.of_nat (length values) <? 2); simpl; [done|].
  pose proof (record_range_ends (drop (Z.to_nat 2) values)
                (drop (Z.to_nat 2) fields) 0 ∅) as H3.
  by destruct (record_range _ _ _ _).
Qed.

Lemma failedRow_ends j fields values : failedRow j fields values <> OutOfFuel.
Proof.
  unfold failedRow, record, slice_from.
  pose proof (index_ends values (headerPosition j sfError fields)) as H1.
  pose proof (index_ends values (headerPosition j sfID fields)) as H2.
  destruct (index values (headerPosition j sfError fields)); simpl;
    [|done|done].
  destruct (index values (headerPosition j sfID fields)); simpl; [|done|done].
  destruct (Z.of_nat (length fields) <? 2); simpl; [done|].
  destruct (Z.of_nat (length values) <? 2); simpl; [done|].
  pose proof (record_range_ends (drop (Z.to_nat 2) values)
                (drop (Z.to_nat 2) fields) 0 ∅) as H3.
  by destruct (record_range _ _ _ _).
Qed.

Lemma successfulRows_ends j fields last : forall rows acc,
  successfulRows j fields rows last acc <> OutOfFuel.
Proof.
  induction rows as [|values rows IH]; intros acc; simpl;
    [by case_bool_decide|].
  pose proof (successfulRow_ends j fields values) as Hrow.
  destruct (successfulRow j fields values) as [[rec [e|]]| |]; simpl;
    [done|apply IH|done|done].
Qed.

Lemma failedRows_ends j fields last : forall rows acc,
  failedRows j fields rows last acc <> OutOfFuel.
Proof.
  induction rows as [|values rows IH]; intros acc; simpl;
    [by case_bool_decide|].
  pose proof (failedRow_ends j fields values) as Hrow.
  destruct (failedRow j fields values) as [rec| |]; simpl;
    [apply IH|done|done].
Qed.

(** An error never comes with records. *)
Lemma successfulRows_error j fields last : forall rows acc records err,
  successfulRows j fields rows last acc = Done (records, Some err) ->
  records = [].
Proof.
  induction rows as [|values rows IH]; intros acc records err; simpl.
  - case_bool_decide; intros [= ]; by subst.
  - destruct (successfulRow j fields values) as [[rec [e|]]| |]; simpl;
      try discriminate.
    + intros [= ]; by subst.
    + apply IH.
Qed.

Lemma failedRows_error j fields last : forall rows acc records err,
  failedRows j fields rows last acc = Done (records, Some err) ->
  records = [].
Proof.
  induction rows as [|values rows IH]; intros acc records err; simpl.
  - case_bool_decide; intros [= ]; by subst.
  - destruct (failedRow j fields values) as [rec| |]; simpl;
      try discriminate.
    apply IH.
Qed.

End rows_facts.

(** ** A reserved column the header lacks *)

Section absent_column.
Import bulk.

Lemma ParseBool_literal str :
  str ∈ strconv.boolLiterals -> snd (strconv.ParseBool str) = None.
Proof.
  unfold strconv.boolLiterals. rewrite !elem_of_cons.
  intros H. repeat (destruct H as [-> | H]; [reflexivity|]).
  by inversion H.
Qed.

Lemma ParseBool_not_literal str :
  str ∉ strconv.boolLiterals ->
  strconv.ParseBool str = (false, Some (NumError "ParseBool" str)).
Proof.
  unfold strconv.boolLiterals. rewrite !not_elem_of_cons.
  intros H. unfold strconv.ParseBool.
  repeat match goal with
         | |- context [String.eqb str ?l] =>
             destruct (String.eqb_spec str l); [exfalso; tauto|]
         end.
  reflexivity.
Qed.

Lemma index_header_column j column fields (values : list string) :
  column ∈ fields -> length values = length fields ->
  exists cell, index values (headerPosition j column fields) = Done cell.
Proof.
  intros Hin Hlen.
  destruct (headerPosition_present j column fields Hin) as (n & -> & Hl).
  destruct (lookup_lt_is_Some_2 values n) as [cell Hc].
  { rewrite Hlen. by eapply lookup_lt_Some. }
  exists cell. by apply index_lookup.
Qed.

Lemma successfulRow_no_created j fields values :
  sfCreated ∉ fields ->
  successfulRow j fields values
  = Panicked (IndexOutOfRange (-1) (Z.of_nat (length values))).
Proof.
  intros Hn. unfold successfulRow.
  by rewrite (headerPosition_absent _ _ _ Hn), index_minus_one.
Qed.

Lemma successfulRow_no_id j fields values cell :
  sfID ∉ fields ->
  index values (headerPosition j sfCreated fields) = Done cell ->
  successfulRow j fields values
  = if bool_decide (cell ∈ strconv.boolLiterals)
    then Panicked (IndexOutOfRange (-1) (Z.of_nat (length values)))
    else Done ({| SuccessfulRecord.Created := false;
                  SuccessfulRecord.ID := EmptyString;
                  SuccessfulRecord.Fields := ∅ |},
               Some (NumError "ParseBool" cell)).
Proof.
  intros Hn Hc. unfold successfulRow. rewrite Hc. simpl.
  case_bool_decide as Hb.
  - pose proof (ParseBool_literal _ Hb) as Hp.
    destruct (strconv.ParseBool cell) as [created err]. simpl in Hp. subst err.
    by rewrite (headerPosition_absent _ _ _ Hn), index_minus_one.
  - by rewrite (ParseBool_not_literal _ Hb).
Qed.

Lemma failedRow_absent j fields values :
  sfError ∉ fields \/ sfID ∉ fields -> length values = length fields ->
  failedRow j fields values
  = Panicked (IndexOutOfRange (-1) (Z.of_nat (length values))).
Proof.
  intros Hn Hlen. unfold failedRow.
  destruct (decide (sfError ∈ fields)) as [Hin|Hout].
  - destruct Hn as [Hn|Hn]; [done|].
    destruct (index_header_column j _ _ _ Hin Hlen) as [cell ->]. simpl.
    by rewrite (headerPosition_absent _ _ _ Hn), index_minus_one.
  - by rewrite (headerPosition_absent _ _ _ Hout), index_minus_one.
Qed.

End absent_column.

(** ** The created flag *)

Section created_flag.
Import bulk.

(** A row whose sf__Created value is not a boolean literal ends the call
    with the error of [ParseBool], whatever was decoded before. *)
Lemma successfulRow_bad_flag j fields values cell :
  index values (headerPosition j sfCreated fields) = Done cell ->
  cell ∉ strconv.boolLiterals ->
  successfulRow j fields values
  = Done ({| SuccessfulRecord.Created := false;
             SuccessfulRecord.ID := EmptyString;
             SuccessfulRecord.Fields := ∅ |},
          Some (NumError "ParseBool" cell)).
Proof.
  intros Hc Hb. unfold successfulRow. rewrite Hc. simpl.
  by rewrite (ParseBool_not_literal _ Hb).
Qed.

Lemma successfulRows_first_error j fields values after last rec err :
  successfulRow j fields values = Done (rec, Some err) ->
  forall before acc,
  Forall (fun v => exists record,
            successfulRow j fields v = Done (record, None)) before ->
  successfulRows j fields (before ++ values :: after) last acc
  = Done ([], Some err).
Proof.
  intros Hrow. induction before as [|v before IH]; intros acc Hall; simpl.
  - by rewrite Hrow.
  - apply Forall_cons in Hall as [[record Hv] Hall].
    rewrite Hv. simpl. by apply IH.
Qed.

(** With both reserved columns in the header, a row of the header's length
    is decoded, or refused for its sf__Created value; it cannot panic. *)
Lemma successfulRow_reserved j fields values :
  sfID ∈ fields -> sfCreated ∈ fields -> length values = length fields ->
  exists cell,
    index values (headerPosition j sfCreated fields) = Done cell
    /\ (cell ∈ strconv.boolLiterals ->
        exists record, successfulRow j fields values = Done (record, None)).
Proof.
  intros Hid Hcr Hlen.
  destruct (index_header_column j _ _ _ Hcr Hlen) as [cell Hc].
  exists cell. split; [done|]. intros Hb.
  destruct (index_header_column j _ _ _ Hid Hlen) as [id Hi].
  pose proof (ParseBool_literal _ Hb) as Hp.
  unfold successfulRow. rewrite Hc. simpl.
  destruct (strconv.ParseBool cell) as [created err]. simpl in Hp. subst err.
  rewrite Hi. simpl.
  assert (H2 : (2 <= length fields)%nat).
  { destruct fields as [|a [|b rest]]; simpl; [by inversion Hid| |lia].
    apply list_elem_of_singleton in Hid, Hcr. subst a. discriminate. }
  unfold slice_from.
  destruct (Z.ltb_spec (Z.of_nat (length fields)) 2); [lia|].
  destruct (Z.ltb_spec (Z.of_nat (length values)) 2); [lia|].
  simpl. unfold record.
  destruct (record_range_done (drop (Z.to_nat 2) values)
              (drop (Z.to_nat 2) fields) 0 ∅) as [m Hm]; [lia| |].
  { rewrite !length_drop. lia. }
  rewrite Hm. simpl. by eexists.
Qed.

Lemma successfulRows_reserved_bad_flag j fields last : forall rows acc,
  sfID ∈ fields -> sfCreated ∈ fields ->
  Forall (fun v => length v = length fields) rows ->
  Exists (fun v => exists cell,
            index v (headerPosition j sfCreated fields) = Done cell
            /\ cell ∉ strconv.boolLiterals) rows ->
  exists cell,
    (cell ∉ strconv.boolLiterals)
    /\ successfulRows j fields rows last acc
       = Done ([], Some (NumError "ParseBool" cell)).
Proof.
  induction rows as [|v rows IH]; intros acc Hid Hcr Hlen Hbad;
    [by inversion Hbad|].
  apply Forall_cons in Hlen as [Hv Hlen].
  destruct (successfulRow_reserved j fields v Hid Hcr Hv) as (cell & Hc & Hok).
  destruct (decide (cell ∈ strconv.boolLiterals)) as [Hb|Hb].
  - destruct (Hok Hb) as [record Hrow]. simpl. rewrite Hrow. simpl.
    apply IH; try done.
    apply Exists_cons in Hbad as [(cell' & Hc' & Hb')|Hbad]; [|done].
    congruence.
  - exists cell. split; [done|]. simpl.
    by rewrite (successfulRow_bad_flag _ _ _ _ Hc Hb).
Qed.

End created_flag.

(** ** Exporting a page of query results *)

Section export_facts.

Lemma Add_lookup key value (v : http.Values) :
  http.Add key value v !! key = Some (default [] (v !! key) ++ [value]).
Proof. unfold http.Add. by rewrite lookup_insert_eq. Qed.

Lemma Add_lookup_ne key key' value (v : http.Values) :
  key <> key' -> http.Add key value v !! key' = v !! key'.
Proof. intros Hne. unfold http.Add. by rewrite lookup_insert_ne. Qed.

(** What [ExportResults] does up to the answer of the server. *)
Lemma ExportResults_sent env j filepath maxRecords locator w u q :
  Env.url_Parse env
    (session.ServiceURL (bulkquery.QueryJob.session j) +:+ "/jobs/query"
     +:+ "/" +:+ bulkquery.QueryResponse.ID (bulkquery.QueryJob.QueryResponse j)
     +:+ "/results") = inl (u, q) ->
  forall response,
  session.Client (bulkquery.QueryJob.session j) (World.sent w)
    (session.AuthorizationHeader (bulkquery.QueryJob.session j)
       (exportRequest u q maxRecords locator)) = inl response ->
  http.Response.StatusCode response = 200 ->
  bulkquery.ExportResults env j filepath maxRecords locator w =
    let w' := {| World.sent := World.sent w ++
                   [session.AuthorizationHeader (bulkquery.QueryJob.session j)
                      (exportRequest u q maxRecords locator)];
                 World.files := World.files w |} in
    match Env.os_Create env filepath with
    | Some err => ((EmptyString, Some err), w')
    | None =>
        match Env.io_Copy env (http.Response.Body response) with
        | Some (written, err) =>
            ((EmptyString, Some err),
             bulkquery.writeFile filepath written
               (bulkquery.createFile filepath w'))
        | None =>
            ((http.Get "Sforce-Locator" (http.Response.Header response), None),
             bulkquery.writeFile filepath (http.Response.Body response)
               (bulkquery.createFile filepath w'))
        end
    end.
Proof.
  intros Hu response Hdo Hok.
  unfold bulkquery.ExportResults, NewRequest, bulkquery.bulk2Endpoint.
  rewrite Hu. cbn [http.Request.Query].
  assert (Hreq :
    session.AuthorizationHeader (bulkquery.QueryJob.session j)
      (addHeader "Content-Type" "application/json"
         (addHeader "Accept" "text/csv"
            (setQuery
               (if 0 <? maxRecords
                then http.Add "maxRecords" (strconv.Itoa maxRecords)
                       (if negb (locator =? EmptyString)%string
                        then http.Add "locator" locator q else q)
                else if negb (locator =? EmptyString)%string
                     then http.Add "locator" locator q else q)
               {| http.Request.Method := http.MethodGet;
                  http.Request.URL := u; http.Request.Query := q;
                  http.Request.Header := ∅;
                  http.Request.Body := http.NoBody |})))
    = session.AuthorizationHeader (bulkquery.QueryJob.session j)
        (exportRequest u q maxRecords locator)).
  { f_equal. unfold exportRequest, addHeader, setQuery. simpl. f_equal.
    destruct (Z.ltb_spec 0 maxRecords), (String.eqb_spec locator EmptyString);
      repeat case_decide; try lia; try done. }
  rewrite Hreq. unfold session.Do. rewrite Hdo.
  rewrite Hok. change (negb (200 =? http.StatusOK)) with false.
  cbn match. destruct (Env.os_Create env filepath); [done|].
  destruct (Env.io_Copy env (http.Response.Body response)) as [[? ?]|]; done.
Qed.

End export_facts.

(** * The documented properties *)

(** C1: with a delimiter that resolves to comma, ParseSuccessfulResults on
    the header row [sf__Id,sf__Created,Name] followed by the one data row
    [001,true,Acme] returns no error and exactly one record, with ID "001",
    Created true and Fields exactly {"Name": "Acme"}.  The lines may end in
    LF or CRLF, and the last one need not be terminated. *)
Theorem C1_successful_results_example (j : bulk.Job.t) :
  bulk.delimiter j = ","%char ->
  let expected :=
    Done ([ {| bulk.SuccessfulRecord.Created := true;
               bulk.SuccessfulRecord.ID := "001";
               bulk.SuccessfulRecord.Fields := {[ "Name" := "Acme" ]} |} ],
          None) in
  bulk.ParseSuccessfulResults j
    {| csv.bytes := "sf__Id,sf__Created,Name" +:+ String LF "001,true,Acme"
                    +:+ String LF EmptyString;
       csv.fail := None |} = expected
  /\ bulk.ParseSuccessfulResults j
    {| csv.bytes := "sf__Id,sf__Created,Name" +:+ String LF "001,true,Acme";
       csv.fail := None |} = expected
  /\ bulk.ParseSuccessfulResults j
    {| csv.bytes := "sf__Id,sf__Created,Name" +:+ String CR (String LF
                      "001,true,Acme") +:+ String CR (String LF EmptyString);
       csv.fail := None |} = expected.
Proof.
  intros Hd expected. unfold bulk.ParseSuccessfulResults. rewrite Hd.
  repeat split; vm_compute; reflexivity.
Qed.

Lemma C1_successful_results_example_witness :
  bulk.ParseSuccessfulResults (jobWith "COMMA")
    {| csv.bytes := "sf__Id,sf__Created,Name" +:+ String LF "001,true,Acme"
                    +:+ String LF EmptyString;
       csv.fail := None |}
  = Done ([ {| bulk.SuccessfulRecord.Created := true;
               bulk.SuccessfulRecord.ID := "001";
               bulk.SuccessfulRecord.Fields := {[ "Name" := "Acme" ]} |} ],
          None).
Proof.
  exact (proj1 (C1_successful_results_example (jobWith "COMMA") eq_refl)).
Defined.



(** C3: for every input stream, ParseSuccessfulResults and
    ParseFailedResults end normally when the input ends after the last data
    row (the records are returned with no error), and on any other failure
    to read a row (a malformed row, a row whose field count is not the
    header's, a failure of the stream) return that error and no records: the
    rows decoded before it are dropped, and no call returns records together
    with an error. *)
Theorem C3_read_failure_discards_rows (j : bulk.Job.t) (stream : csv.Stream) :
  bulk.ParseSuccessfulResults j stream <> OutOfFuel
  /\ bulk.ParseFailedResults j stream <> OutOfFuel
  /\ (forall records err,
     bulk.ParseSuccessfulResults j stream = Done (records, Some err) ->
     records = [])
  /\ (forall records err,
     bulk.ParseFailedResults j stream = Done (records, Some err) ->
     records = [])
  /\ (forall fields rows last,
     csv.yields (bulk.readerOf j stream) (fields :: rows) last ->
     Forall (fun values => length values = length fields) rows
     /\ (forall records,
         Forall2 (fun values record =>
                    bulk.successfulRow j fields values = Done (record, None))
                 rows records ->
         (last = EOF ->
          bulk.ParseSuccessfulResults j stream = Done (records, None))
         /\ (last <> EOF ->
             bulk.ParseSuccessfulResults j stream = Done ([], Some last)))
     /\ (forall records,
         Forall2 (fun values record =>
                    bulk.failedRow j fields values = Done record)
                 rows records ->
         (last = EOF ->
          bulk.ParseFailedResults j stream = Done (records, None))
         /\ (last <> EOF ->
             bulk.ParseFailedResults j stream = Done ([], Some last)))).
Proof.
  destruct (yields_total (bulk.readerOf j stream)) as (rows0 & e0 & Hy0).
  split; [|split; [|split; [|split]]].
  - rewrite (ParseSuccessfulResults_yields _ _ _ _ Hy0).
    destruct rows0; [done|apply successfulRows_ends].
  - rewrite (ParseFailedResults_yields _ _ _ _ Hy0).
    destruct rows0; [done|apply failedRows_ends].
  - intros records err.
    rewrite (ParseSuccessfulResults_yields _ _ _ _ Hy0).
    destruct rows0 as [|fields rows0]; [intros [= ]; by subst|].
    apply successfulRows_error.
  - intros records err.
    rewrite (ParseFailedResults_yields _ _ _ _ Hy0).
    destruct rows0 as [|fields rows0]; [intros [= ]; by subst|].
    apply failedRows_error.
  - intros fields rows last Hy.
    split; [by eapply readerOf_header|]. split.
    + intros records Hall.
      rewrite (ParseSuccessfulResults_yields _ _ _ _ Hy),
        (successfulRows_decoded _ _ _ _ _ _ Hall).
      split; intros Hl; [rewrite bool_decide_eq_true_2 by done
                        |rewrite bool_decide_eq_false_2 by done]; done.
    + intros records Hall.
      rewrite (ParseFailedResults_yields _ _ _ _ Hy),
        (failedRows_decoded _ _ _ _ _ _ Hall).
      split; intros Hl; [rewrite bool_decide_eq_true_2 by done
                        |rewrite bool_decide_eq_false_2 by done]; done.
Qed.

Lemma C3_read_failure_discards_rows_witness :
  bulk.ParseSuccessfulResults (jobWith "COMMA") shortRowStream
  = Done ([], Some (ParseError ErrFieldCount))
  /\ bulk.ParseFailedResults (jobWith "COMMA") bareQuoteStream
     = Done ([], Some (ParseError ErrBareQuote)).
Proof.
  split.
  - pose proof (C3_read_failure_discards_rows (jobWith "COMMA") shortRowStream)
      as (_ & _ & _ & _ & H).
    destruct (H ["sf__Id"; "sf__Created"; "Name"] [["001"; "true"; "Acme"]]
                (ParseError ErrFieldCount)) as (_ & Hs & _); [read_all|].
    apply (Hs [ {| bulk.SuccessfulRecord.Created := true;
                   bulk.SuccessfulRecord.ID := "001";
                   bulk.SuccessfulRecord.Fields := {[ "Name" := "Acme" ]} |} ]);
      [|discriminate].
    constructor; [vm_compute; reflexivity|constructor].
  - pose proof (C3_read_failure_discards_rows (jobWith "COMMA") bareQuoteStream)
      as (_ & _ & _ & _ & H).
    destruct (H ["sf__Id"; "sf__Error"; "Name"] [["001"; "DUPLICATE"; "Acme"]]
                (ParseError ErrBareQuote)) as (_ & _ & Hf); [read_all|].
    apply (Hf [ {| bulk.FailedRecord.Error := "DUPLICATE";
                   bulk.FailedRecord.ID := "001";
                   bulk.FailedRecord.Fields := {[ "Name" := "Acme" ]} |} ]);
      [|discriminate].
    constructor; [vm_compute; reflexivity|constructor].
Defined.

(** C4: the delimiter resolution of the ingest job and of the query job maps
    BACKQUOTE to the backquote, CARET to the caret, COMMA to the comma, PIPE
    to the bar, SEMICOLON to the semicolon and TAB to the tab byte, and every
    other name, the empty one included, to the comma. *)
Theorem C4_delimiter_resolution (j : bulk.Job.t) (q : bulkquery.QueryJob.t) :
  let d := bulk.WriteResponse.ColumnDelimiter (bulk.Job.WriteResponse j) in
  let d' :=
    bulkquery.QueryResponse.ColumnDelimiter (bulkquery.QueryJob.QueryResponse q) in
  ((d = "BACKQUOTE" -> bulk.delimiter j = "`"%char)
   /\ (d = "CARET" -> bulk.delimiter j = "^"%char)
   /\ (d = "COMMA" -> bulk.delimiter j = ","%char)
   /\ (d = "PIPE" -> bulk.delimiter j = "|"%char)
   /\ (d = "SEMICOLON" -> bulk.delimiter j = ";"%char)
   /\ (d = "TAB" -> bulk.delimiter j = "009"%char)
   /\ (d = EmptyString -> bulk.delimiter j = ","%char)
   /\ (d ∉ ["BACKQUOTE"; "CARET"; "COMMA"; "PIPE"; "SEMICOLON"; "TAB"] ->
       bulk.delimiter j = ","%char))
  /\ ((d' = "BACKQUOTE" -> bulkquery.delimiter q = "`"%char)
   /\ (d' = "CARET" -> bulkquery.delimiter q = "^"%char)
   /\ (d' = "COMMA" -> bulkquery.delimiter q = ","%char)
   /\ (d' = "PIPE" -> bulkquery.delimiter q = "|"%char)
   /\ (d' = "SEMICOLON" -> bulkquery.delimiter q = ";"%char)
   /\ (d' = "TAB" -> bulkquery.delimiter q = "009"%char)
   /\ (d' = EmptyString -> bulkquery.delimiter q = ","%char)
   /\ (d' ∉ ["BACKQUOTE"; "CARET"; "COMMA"; "PIPE"; "SEMICOLON"; "TAB"] ->
       bulkquery.delimiter q = ","%char)).
Proof.
  intros d d'. unfold bulk.delimiter, bulkquery.delimiter. fold d d'.
  split.
  - repeat split; try (intros ->; reflexivity).
    intros Hn. rewrite !not_elem_of_cons in Hn.
    destruct Hn as (Hb & Hc & _ & Hp & Hs & Ht & _).
    apply String.eqb_neq in Hb, Hc, Hp, Hs, Ht.
    unfold bulk.Tab, bulk.SemiColon, bulk.Pipe, bulk.Caret, bulk.Backquote.
    by rewrite Hb, Hc, Hp, Hs, Ht.
  - repeat split; try (intros ->; reflexivity).
    intros Hn. rewrite !not_elem_of_cons in Hn.
    destruct Hn as (Hb & Hc & _ & Hp & Hs & Ht & _).
    apply String.eqb_neq in Hb, Hc, Hp, Hs, Ht.
    unfold bulkquery.Tab, bulkquery.SemiColon, bulkquery.Pipe, bulkquery.Caret,
      bulkquery.Backquote.
    by rewrite Hb, Hc, Hp, Hs, Ht.
Qed.

(** C5: creating an ingest job fails with a validation error, and sends no
    request, when the operation is empty, when the object is empty, or when
    the operation is upsert and the external ID field name is empty; these
    are the only options that fail validation, so the external ID field name
    is required exactly for upsert. *)
Theorem C5_create_validates_first (env : Env.t) (j : bulk.Job.t)
    (options : bulk.Options.t) (w : World.t) :
  let missing :=
    bulk.Options.Operation options = EmptyString
    \/ bulk.Options.Object options = EmptyString
    \/ (bulk.Options.Operation options = "upsert"
        /\ bulk.Options.ExternalIDFieldName options = EmptyString) in
  (missing ->
     exists msg,
       bulk.formatOptions j options = (options, Some (errorString msg))
       /\ bulk.create env j options w = ((j, Some (errorString msg)), w))
  /\ (~ missing -> snd (bulk.formatOptions j options) = None)
  /\ (bulk.Options.Operation options <> EmptyString ->
      bulk.Options.Operation options <> "upsert" ->
      bulk.Options.Object options <> EmptyString ->
      bulk.Options.ExternalIDFieldName options = EmptyString ->
      snd (bulk.formatOptions j options) = None)
  /\ (~ missing ->
      forall u q,
        Env.url_Parse env
          (session.ServiceURL (bulk.Job.session j) +:+ "/jobs/ingest")
        = inl (u, q) ->
        exists request,
          World.sent (snd (bulk.create env j options w))
          = World.sent w ++ [request]).
Proof.
  intros missing.
  assert (Hsent : ~ missing ->
      forall u q,
        Env.url_Parse env
          (session.ServiceURL (bulk.Job.session j) +:+ "/jobs/ingest")
        = inl (u, q) ->
        exists request,
          World.sent (snd (bulk.create env j options w))
          = World.sent w ++ [request]).
  { intros Hm u q Hu. unfold bulk.create.
    destruct (bulk.formatOptions j options) as [o [e|]] eqn:Ef.
    - exfalso. apply Hm. unfold missing. revert Ef.
      unfold bulk.formatOptions, bulk.Upsert.
      destruct (String.eqb_spec (bulk.Options.Operation options) EmptyString);
        [tauto|].
      destruct (String.eqb_spec (bulk.Options.Operation options) "upsert");
        destruct (String.eqb_spec (bulk.Options.ExternalIDFieldName options)
                    EmptyString);
        destruct (String.eqb_spec (bulk.Options.Object options) EmptyString);
        simpl; try tauto; discriminate.
    - unfold bulk.createCallout, NewRequest, bulk.bulk2Endpoint. rewrite Hu.
      unfold bulk.response, session.Do.
      repeat case_match; simplify_eq; simpl; by eexists. }
  split; [|split; [|split; [|exact Hsent]]]; clear Hsent;
  unfold bulk.create, bulk.formatOptions, bulk.Upsert;
  destruct (String.eqb_spec (bulk.Options.Operation options) EmptyString)
    as [Hop|Hop];
  destruct (String.eqb_spec (bulk.Options.Operation options) "upsert")
    as [Hup|Hup];
  destruct (String.eqb_spec (bulk.Options.ExternalIDFieldName options)
              EmptyString) as [Hext|Hext];
  destruct (String.eqb_spec (bulk.Options.Object options) EmptyString)
    as [Hob|Hob];
  simpl; unfold missing;
  intros; try (eexists; split; reflexivity); try reflexivity;
  try congruence; exfalso; tauto.
Qed.

Lemma C5_create_validates_first_witness :
  exists msg,
    bulk.formatOptions (jobWith EmptyString) upsertWithoutField
    = (upsertWithoutField, Some (errorString msg))
    /\ bulk.create exampleEnv (jobWith EmptyString) upsertWithoutField
         emptyWorld
       = ((jobWith EmptyString, Some (errorString msg)), emptyWorld).
Proof.
  apply (proj1 (C5_create_validates_first exampleEnv (jobWith EmptyString)
                  upsertWithoutField emptyWorld)).
  right. right. split; reflexivity.
Defined.

(** C6: for options that pass validation, formatOptions of the ingest job
    and of the query job sets the line ending to LF, the content type to CSV
    and the column delimiter to COMMA (and, for the query job, the operation
    to query) where the field is the empty string, and leaves a field that
    holds a value, and every other field, as it was. *)
Theorem C6_defaults_only_for_empty_fields (j : bulk.Job.t)
    (q : bulkquery.QueryJob.t) (o : bulk.Options.t)
    (qo : bulkquery.QueryOptions.t) :
  (snd (bulk.formatOptions j o) = None ->
   let o' := fst (bulk.formatOptions j o) in
   (bulk.Options.LineEnding o = EmptyString ->
    bulk.Options.LineEnding o' = "LF")
   /\ (bulk.Options.LineEnding o <> EmptyString ->
       bulk.Options.LineEnding o' = bulk.Options.LineEnding o)
   /\ (bulk.Options.ContentType o = EmptyString ->
       bulk.Options.ContentType o' = "CSV")
   /\ (bulk.Options.ContentType o <> EmptyString ->
       bulk.Options.ContentType o' = bulk.Options.ContentType o)
   /\ (bulk.Options.ColumnDelimiter o = EmptyString ->
       bulk.Options.ColumnDelimiter o' = "COMMA")
   /\ (bulk.Options.ColumnDelimiter o <> EmptyString ->
       bulk.Options.ColumnDelimiter o' = bulk.Options.ColumnDelimiter o)
   /\ bulk.Options.ExternalIDFieldName o' = bulk.Options.ExternalIDFieldName o
   /\ bulk.Options.Object o' = bulk.Options.Object o
   /\ bulk.Options.Operation o' = bulk.Options.Operation o)
  /\ (snd (bulkquery.formatOptions q qo) = None ->
   let qo' := fst (bulkquery.formatOptions q qo) in
   (bulkquery.QueryOptions.LineEnding qo = EmptyString ->
    bulkquery.QueryOptions.LineEnding qo' = "LF")
   /\ (bulkquery.QueryOptions.LineEnding qo <> EmptyString ->
       bulkquery.QueryOptions.LineEnding qo'
       = bulkquery.QueryOptions.LineEnding qo)
   /\ (bulkquery.QueryOptions.ContentType qo = EmptyString ->
       bulkquery.QueryOptions.ContentType qo' = "CSV")
   /\ (bulkquery.QueryOptions.ContentType qo <> EmptyString ->
       bulkquery.QueryOptions.ContentType qo'
       = bulkquery.QueryOptions.ContentType qo)
   /\ (bulkquery.QueryOptions.ColumnDelimiter qo = EmptyString ->
       bulkquery.QueryOptions.ColumnDelimiter qo' = "COMMA")
   /\ (bulkquery.QueryOptions.ColumnDelimiter qo <> EmptyString ->
       bulkquery.QueryOptions.ColumnDelimiter qo'
       = bulkquery.QueryOptions.ColumnDelimiter qo)
   /\ (bulkquery.QueryOptions.Operation qo = EmptyString ->
       bulkquery.QueryOptions.Operation qo' = "query")
   /\ (bulkquery.QueryOptions.Operation qo <> EmptyString ->
       bulkquery.QueryOptions.Operation qo'
       = bulkquery.QueryOptions.Operation qo)
   /\ bulkquery.QueryOptions.Query qo' = bulkquery.QueryOptions.Query qo).
Proof.
  split.
  - unfold bulk.formatOptions.
    destruct ((bulk.Options.Operation o =? EmptyString)%string);
      [discriminate|].
    destruct ((bulk.Options.Operation o =? bulk.Upsert)%string
              && (bulk.Options.ExternalIDFieldName o =? EmptyString)%string);
      [discriminate|].
    destruct ((bulk.Options.Object o =? EmptyString)%string); [discriminate|].
    intros _. destruct o as [cd ct ext le ob op].
    destruct le, ct, cd; cbn; repeat split; intros;
      try reflexivity; congruence.
  - unfold bulkquery.formatOptions.
    destruct ((bulkquery.QueryOptions.Query qo =? EmptyString)%string);
      [discriminate|].
    intros _. destruct qo as [cd ct le qy op].
    destruct le, ct, cd, op; cbn; repeat split; intros;
      try reflexivity; congruence.
Qed.

Lemma C6_defaults_only_for_empty_fields_witness :
  fst (bulk.formatOptions (jobWith EmptyString) exampleOptions)
  = {| bulk.Options.ColumnDelimiter := "PIPE";
       bulk.Options.ContentType := "CSV";
       bulk.Options.ExternalIDFieldName := EmptyString;
       bulk.Options.LineEnding := "LF";
       bulk.Options.Object := "Account";
       bulk.Options.Operation := "insert" |}
  /\ bulk.Options.ColumnDelimiter
       (fst (bulk.formatOptions (jobWith EmptyString) exampleOptions))
     = bulk.Options.ColumnDelimiter exampleOptions
  /\ bulkquery.QueryOptions.Operation
       (fst (bulkquery.formatOptions exampleQueryJob exampleQueryOptions))
     = "query".
Proof.
  split; [reflexivity|].
  pose proof (C6_defaults_only_for_empty_fields (jobWith EmptyString)
                exampleQueryJob exampleOptions exampleQueryOptions)
    as [Hi Hq].
  split.
  - apply (Hi eq_refl). discriminate.
  - apply (Hq eq_refl). reflexivity.
Defined.

(** C7, as the code has it: a call to QueryJob.ExportResults that receives
    an HTTP 200 response, creates the named file and copies the response
    body to it in full, leaves that body in the file and returns the value
    of the Sforce-Locator response header (the empty string when the
    response has none) with no error; a call that cannot create or cannot
    fill the file returns the empty string and that error.  The request
    carries the locator argument as the locator query parameter when it is
    not empty, and maxRecords only when it is positive. *)
Theorem C7_export_results_page (env : Env.t) (j : bulkquery.QueryJob.t)
    (filepath : string) (maxRecords : Z) (locator : string) (w : World.t)
    (u : string) (q : http.Values) (response : http.Response.t) :
  let s := bulkquery.QueryJob.session j in
  let request := exportRequest u q maxRecords locator in
  let sent := World.sent w ++ [session.AuthorizationHeader s request] in
  Env.url_Parse env
    (session.ServiceURL s +:+ "/jobs/query/"
     +:+ bulkquery.QueryResponse.ID (bulkquery.QueryJob.QueryResponse j)
     +:+ "/results") = inl (u, q) ->
  session.Client s (World.sent w) (session.AuthorizationHeader s request)
  = inl response ->
  http.Response.StatusCode response = 200 ->
  (Env.os_Create env filepath = None ->
   Env.io_Copy env (http.Response.Body response) = None ->
   bulkquery.ExportResults env j filepath maxRecords locator w
   = ((http.Get "Sforce-Locator" (http.Response.Header response), None),
      {| World.sent := sent;
         World.files :=
           <[filepath := http.Response.Body response]> (World.files w) |}))
  /\ (http.Response.Header response !! "Sforce-Locator" = None ->
      http.Get "Sforce-Locator" (http.Response.Header response) = EmptyString)
  /\ (forall err,
      Env.os_Create env filepath = Some err ->
      bulkquery.ExportResults env j filepath maxRecords locator w
      = ((EmptyString, Some err),
         {| World.sent := sent; World.files := World.files w |}))
  /\ (forall written err,
      Env.os_Create env filepath = None ->
      Env.io_Copy env (http.Response.Body response) = Some (written, err) ->
      bulkquery.ExportResults env j filepath maxRecords locator w
      = ((EmptyString, Some err),
         {| World.sent := sent;
            World.files := <[filepath := written]> (World.files w) |}))
  /\ (locator <> EmptyString ->
      http.Request.Query request !! "locator"
      = Some (default [] (q !! "locator") ++ [locator]))
  /\ (locator = EmptyString ->
      http.Request.Query request !! "locator" = q !! "locator")
  /\ (0 < maxRecords ->
      http.Request.Query request !! "maxRecords"
      = Some (default [] (q !! "maxRecords") ++ [strconv.Itoa maxRecords]))
  /\ (maxRecords <= 0 ->
      http.Request.Query request !! "maxRecords" = q !! "maxRecords").
Proof.
  intros s request sent Hu Hdo Hok.
  assert (Hu' : Env.url_Parse env
    (session.ServiceURL (bulkquery.QueryJob.session j) +:+ "/jobs/query"
     +:+ "/" +:+ bulkquery.QueryResponse.ID (bulkquery.QueryJob.QueryResponse j)
     +:+ "/results") = inl (u, q)).
  { exact Hu. }
  pose proof (ExportResults_sent env j filepath maxRecords locator w u q Hu'
                response Hdo Hok) as Hrun.
  cbv zeta in Hrun.
  repeat split.
  - intros Hc Hw. rewrite Hrun, Hc, Hw.
    unfold bulkquery.writeFile, bulkquery.createFile. simpl.
    by rewrite insert_insert_eq.
  - intros Hnone. unfold http.Get. by rewrite Hnone.
  - intros err Hc. by rewrite Hrun, Hc.
  - intros written err Hc Hw. rewrite Hrun, Hc, Hw.
    unfold bulkquery.writeFile, bulkquery.createFile. simpl.
    by rewrite insert_insert_eq.
  - intros Hl. unfold request, exportRequest. cbn [http.Request.Query].
    rewrite (decide_False (P := locator = EmptyString)) by done.
    case_decide; [rewrite Add_lookup_ne by done|]; apply Add_lookup.
  - intros ->. unfold request, exportRequest. cbn [http.Request.Query].
    rewrite (decide_True (P := EmptyString = EmptyString)) by done.
    case_decide; [rewrite Add_lookup_ne by done|]; done.
  - intros Hm. unfold request, exportRequest. cbn [http.Request.Query].
    rewrite (decide_True (P := 0 < maxRecords)) by done.
    rewrite Add_lookup. do 3 f_equal.
    case_decide; [done|]. by rewrite Add_lookup_ne.
  - intros Hm. unfold request, exportRequest. cbn [http.Request.Query].
    rewrite (decide_False (P := 0 < maxRecords)) by lia.
    case_decide; [done|]. unfold id. by rewrite Add_lookup_ne.
Qed.

Lemma C7_export_results_page_witness :
  bulkquery.ExportResults exampleEnv pagingJob "page1.csv" 500 EmptyString
    emptyWorld
  = (("NTAwMA", None),
     {| World.sent :=
          [addHeader "Authorization" "Bearer 00D"
             (exportRequest
                ("https://example.my.salesforce.com/services/data/v52.0"
                 +:+ "/jobs/query/750R0000000zlh9IAA/results")
                ∅ 500 EmptyString)];
        World.files :=
          {[ "page1.csv" := "Id" +:+ String LF "001" +:+ String LF EmptyString ]}
     |}).
Proof.
  exact (proj1 (C7_export_results_page exampleEnv pagingJob "page1.csv" 500
                  EmptyString emptyWorld
                  ("https://example.my.salesforce.com/services/data/v52.0"
                   +:+ "/jobs/query/750R0000000zlh9IAA/results")
                  ∅ pageResponse eq_refl eq_refl eq_refl) eq_refl eq_refl).
Defined.

(** C7 as stated fails when the file cannot be created: the server answers
    200 with the locator of the next page, and the call returns the empty
    string and the error of os.Create, having written nothing. *)
Lemma C7_export_results_counterexample :
  session.Client pagingSession []
    (session.AuthorizationHeader pagingSession
       (exportRequest
          ("https://example.my.salesforce.com/services/data/v52.0"
           +:+ "/jobs/query/750R0000000zlh9IAA/results")
          ∅ 0 EmptyString)) = inl pageResponse
  /\ http.Response.StatusCode pageResponse = 200
  /\ http.Get "Sforce-Locator" (http.Response.Header pageResponse) = "NTAwMA"
  /\ bulkquery.ExportResults exampleEnv pagingJob "/no/such/dir/page1.csv" 0
       EmptyString emptyWorld
     = ((EmptyString, Some (IOError "no such file or directory")),
        {| World.sent :=
             [addHeader "Authorization" "Bearer 00D"
                (exportRequest
                   ("https://example.my.salesforce.com/services/data/v52.0"
                    +:+ "/jobs/query/750R0000000zlh9IAA/results")
                   ∅ 0 EmptyString)];
           World.files := ∅ |}).
Proof. repeat split; vm_compute; reflexivity. Qed.

(** C8: a data row whose sf__Created value is not a boolean literal makes
    ParseSuccessfulResults fail: it returns the format error of ParseBool
    for that value and no records, once the rows before it have been
    decoded; and with both reserved columns in the header, an input that
    holds such a row anywhere among the rows read always ends in the format
    error of ParseBool with no records. *)
Theorem C8_created_flag_must_be_boolean (j : bulk.Job.t) (stream : csv.Stream)
    (fields : list string) (before : list (list string))
    (values : list string) (after : list (list string)) (last : error)
    (cell : string) :
  csv.yields (bulk.readerOf j stream) (fields :: before ++ values :: after)
    last ->
  index values (bulk.headerPosition j bulk.sfCreated fields) = Done cell ->
  cell ∉ strconv.boolLiterals ->
  (Forall (fun v => exists record,
             bulk.successfulRow j fields v = Done (record, None)) before ->
   bulk.ParseSuccessfulResults j stream
   = Done ([], Some (NumError "ParseBool" cell)))
  /\ (bulk.sfID ∈ fields ->
      exists cell',
        (cell' ∉ strconv.boolLiterals)
        /\ bulk.ParseSuccessfulResults j stream
           = Done ([], Some (NumError "ParseBool" cell'))).
Proof.
  intros Hy Hc Hb.
  rewrite (ParseSuccessfulResults_yields _ _ _ _ Hy). split.
  - intros Hall.
    apply successfulRows_first_error with (2 := Hall)
      (rec := {| bulk.SuccessfulRecord.Created := false;
                 bulk.SuccessfulRecord.ID := EmptyString;
                 bulk.SuccessfulRecord.Fields := ∅ |}).
    by apply successfulRow_bad_flag.
  - intros Hid.
    assert (Hcr : bulk.sfCreated ∈ fields).
    { destruct (decide (bulk.sfCreated ∈ fields)) as [|Hout]; [done|].
      rewrite (headerPosition_absent _ _ _ Hout), index_minus_one in Hc.
      discriminate. }
    apply successfulRows_reserved_bad_flag; try done.
    + by eapply readerOf_header.
    + apply Exists_app. right. apply Exists_cons_hd. eauto.
Qed.

Lemma C8_created_flag_must_be_boolean_witness :
  bulk.ParseSuccessfulResults (jobWith "COMMA") badFlagStream
  = Done ([], Some (NumError "ParseBool" "yes")).
Proof.
  apply (proj1 (C8_created_flag_must_be_boolean (jobWith "COMMA") badFlagStream
           ["sf__Id"; "sf__Created"; "Name"] [["001"; "true"; "Acme"]]
           ["002"; "yes"; "Bolt"] [["003"; "false"; "Cog"]] EOF "yes"
           ltac:(read_all) eq_refl ltac:(decide_it))).
  constructor; [|constructor]. eexists. vm_compute. reflexivity.
Defined.

(** C9: NewPasswordCredentials and NewRefreshTokenCredentials check the
    required fields (URL, username, password, client ID and client secret;
    URL, refresh token, client ID and client secret) before they build a
    provider: at the first empty one they return no credentials and an error
    whose message ends in the name of that field and "can not be empty";
    with every field filled they return the credentials around a provider
    that holds them. *)
Theorem C9_credentials_validated_first (pc : credentials.PasswordCredentials.t)
    (rc : credentials.RefreshTokenCredentials.t) :
  (forall name, firstEmpty (requiredPassword pc) = Some name ->
     exists prefix,
       credentials.NewPasswordCredentials pc
       = (None, Some (errorString (prefix +:+ name +:+ " can not be empty"))))
  /\ (Forall (fun f => snd f <> EmptyString) (requiredPassword pc) ->
      credentials.NewPasswordCredentials pc
      = (Some {| credentials.Credentials.provider :=
                   credentials.passwordProvider pc |}, None))
  /\ (forall name, firstEmpty (requiredRefreshToken rc) = Some name ->
     exists prefix,
       credentials.NewRefreshTokenCredentials rc
       = (None, Some (errorString (prefix +:+ name +:+ " can not be empty"))))
  /\ (Forall (fun f => snd f <> EmptyString) (requiredRefreshToken rc) ->
      credentials.NewRefreshTokenCredentials rc
      = (Some {| credentials.Credentials.provider :=
                   credentials.refreshTokenProvider rc |}, None)).
Proof.
  destruct pc as [url user pass cid secret].
  destruct rc as [rurl token rcid rsecret].
  unfold credentials.NewPasswordCredentials,
    credentials.validatePasswordCredentials,
    credentials.NewRefreshTokenCredentials,
    credentials.validateRefreshTokenCredentials,
    firstEmpty, requiredPassword, requiredRefreshToken.
  simpl. repeat split.
  - intros name.
    destruct url; [intros [= <-];
      by exists "credentials: password credential's "|].
    destruct user; [intros [= <-];
      by exists "credentials: password credential's "|].
    destruct pass; [intros [= <-];
      by exists "credentials: password credential's "|].
    destruct cid; [intros [= <-];
      by exists "credentials: password credential's "|].
    destruct secret; [intros [= <-];
      by exists "credentials: password credential's "|].
    discriminate.
  - rewrite !Forall_cons. simpl. intros (? & ? & ? & ? & ? & _).
    destruct url, user, pass, cid, secret; done.
  - intros name.
    destruct rurl; [intros [= <-];
      by exists "credentials: password credential's "|].
    destruct token; [intros [= <-];
      by exists "credentials: refresh token credential's "|].
    destruct rcid; [intros [= <-];
      by exists "credentials: password credential's "|].
    destruct rsecret; [intros [= <-];
      by exists "credentials: password credential's "|].
    discriminate.
  - rewrite !Forall_cons. simpl. intros (? & ? & ? & ? & _).
    destruct rurl, token, rcid, rsecret; done.
Qed.

Lemma C9_credentials_validated_first_witness :
  (exists prefix,
     credentials.NewPasswordCredentials examplePassword
     = (None,
        Some (errorString (prefix +:+ "password" +:+ " can not be empty"))))
  /\ credentials.NewRefreshTokenCredentials exampleRefreshToken
     = (Some {| credentials.Credentials.provider :=
                  credentials.refreshTokenProvider exampleRefreshToken |},
        None).
Proof.
  pose proof (C9_credentials_validated_first examplePassword
                exampleRefreshToken) as (Hp & _ & _ & Hr).
  split.
  - apply Hp. reflexivity.
  - apply Hr. repeat constructor; discriminate.
Defined.

(** C10: whatever the delimiter, ParseSuccessfulResults and
    ParseFailedResults return an empty list of records and no error on an
    input that is one header row and no data row, and return an error
    (io.EOF) and no records on an input that is empty. *)
Theorem C10_header_only_and_empty_input (j : bulk.Job.t) :
  (forall stream fields,
     csv.yields (bulk.readerOf j stream) [fields] EOF ->
     bulk.ParseSuccessfulResults j stream = Done ([], None)
     /\ bulk.ParseFailedResults j stream = Done ([], None))
  /\ (forall header tail,
     header <> EmptyString -> csv.plain header = true ->
     tail ∈ [EmptyString; String LF EmptyString;
             String CR (String LF EmptyString)] ->
     bulk.ParseSuccessfulResults j
       {| csv.bytes := header +:+ tail; csv.fail := None |} = Done ([], None)
     /\ bulk.ParseFailedResults j
       {| csv.bytes := header +:+ tail; csv.fail := None |} = Done ([], None))
  /\ bulk.ParseSuccessfulResults j
       {| csv.bytes := EmptyString; csv.fail := None |} = Done ([], Some EOF)
  /\ bulk.ParseFailedResults j
       {| csv.bytes := EmptyString; csv.fail := None |} = Done ([], Some EOF).
Proof.
  assert (Hone : forall stream fields,
     csv.yields (bulk.readerOf j stream) [fields] EOF ->
     bulk.ParseSuccessfulResults j stream = Done ([], None)
     /\ bulk.ParseFailedResults j stream = Done ([], None)).
  { intros stream fields Hy.
    rewrite (ParseSuccessfulResults_yields _ _ _ _ Hy),
      (ParseFailedResults_yields _ _ _ _ Hy). done. }
  split; [exact Hone|]. split.
  - intros header tail Hne Hp Htail.
    destruct (Read_plain_header j header tail Hne Hp Htail) as [fields Hy].
    by apply Hone with fields.
  - pose proof (Read_empty j) as Hy.
    rewrite (ParseSuccessfulResults_yields _ _ _ _ Hy),
      (ParseFailedResults_yields _ _ _ _ Hy). done.
Qed.

Lemma C10_header_only_and_empty_input_witness :
  bulk.ParseSuccessfulResults (jobWith "TAB")
    {| csv.bytes := "sf__Id" +:+ String HT "sf__Created" +:+ String HT "Name"
                    +:+ String LF EmptyString;
       csv.fail := None |} = Done ([], None)
  /\ bulk.ParseFailedResults (jobWith "SEMICOLON")
    {| csv.bytes := "sf__Id;sf__Error;Name" +:+ String CR (String LF EmptyString);
       csv.fail := None |} = Done ([], None).
Proof.
  split.
  - apply (proj1 (proj2 (C10_header_only_and_empty_input (jobWith "TAB")))
             ("sf__Id" +:+ String HT "sf__Created" +:+ String HT "Name")
             (String LF EmptyString));
      [discriminate | reflexivity | decide_it].
  - apply (proj1 (proj2 (C10_header_only_and_empty_input (jobWith "SEMICOLON")))
             "sf__Id;sf__Error;Name" (String CR (String LF EmptyString)));
      [discriminate | reflexivity | decide_it].
Defined.

(** * Further properties of the code *)

(** ** Looking up a column, and the fields of a row *)

Section lookup_facts.
Import bulk.

Lemma headerPosition_range_first column header : forall idx,
  column ∈ header ->
  exists n : nat,
    headerPosition_range column idx header = idx + Z.of_nat n
    /\ header !! n = Some column
    /\ forall m : nat, (m < n)%nat -> header !! m <> Some column.
Proof.
  induction header as [|col rest IH]; intros idx Hin; [by inversion Hin|].
  simpl. destruct (String.eqb_spec col column) as [->|Hne].
  - exists 0%nat. split; [lia|]. split; [done|]. intros m Hm. lia.
  - apply elem_of_cons in Hin as [->|Hin]; [done|].
    destruct (IH (idx + 1) Hin) as (n & Hn & Hl & Hfirst).
    exists (S n). split; [lia|]. split; [done|].
    intros [|m] Hm; simpl; [congruence|]. apply Hfirst. lia.
Qed.

(** X1: headerPosition returns -1 exactly when the column is not in the
    header; when it is, the result is the index of its first occurrence, so
    of a name the header holds twice the later column is never found. *)
Theorem X1_headerPosition_first_occurrence (j : Job.t) (column : string)
    (header : list string) :
  (column ∉ header <-> headerPosition j column header = -1)
  /\ (column ∈ header ->
      exists n : nat,
        headerPosition j column header = Z.of_nat n
        /\ header !! n = Some column
        /\ forall m : nat, (m < n)%nat -> header !! m <> Some column).
Proof.
  assert (Hin : column ∈ header ->
      exists n : nat,
        headerPosition j column header = Z.of_nat n
        /\ header !! n = Some column
        /\ forall m : nat, (m < n)%nat -> header !! m <> Some column).
  { intros H.
    destruct (headerPosition_range_first column header 0 H) as (n & Hn & Hr).
    exists n. split; [exact Hn|exact Hr]. }
  split; [|exact Hin]. split.
  - apply headerPosition_absent.
  - intros Hm Hel. destruct (Hin Hel) as (n & Hn & _). lia.
Qed.

Lemma index_at_length {A} (s : list A) :
  index s (Z.of_nat (length s))
  = Panicked (IndexOutOfRange (Z.of_nat (length s)) (Z.of_nat (length s))).
Proof.
  unfold index. destruct (Z.ltb_spec (Z.of_nat (length s)) 0); [lia|].
  destruct (Z.leb_spec (Z.of_nat (length s)) (Z.of_nat (length s))); [done|lia].
Qed.

(** What the loop of [record] has stored when it is done. *)
Lemma record_range_lookup values : forall fields (k : nat) m m',
  record_range values (Z.of_nat k) fields m = Done m' ->
  (forall key, key ∉ fields -> m' !! key = m !! key)
  /\ (forall (i : nat) key,
        fields !! i = Some key ->
        (forall i' : nat, (i < i')%nat -> fields !! i' <> Some key) ->
        m' !! key = values !! (k + i)%nat)
  /\ dom m' = dom m ∪ list_to_set fields.
Proof.
  induction fields as [|field rest IH]; intros k m m' Hrun.
  - simpl in Hrun. injection Hrun as <-.
    split; [done|]. split; [intros i key Hi; by inversion Hi|].
    by rewrite list_to_set_nil, (right_id_L ∅ (∪)).
  - simpl in Hrun.
    destruct (index values (Z.of_nat k)) as [v| |] eqn:Hv; simpl in Hrun;
      try discriminate.
    assert (Hk : values !! k = Some v).
    { unfold index in Hv. repeat case_match; simplify_eq.
      by rewrite Nat2Z.id in *. }
    replace (Z.of_nat k + 1) with (Z.of_nat (S k)) in Hrun by lia.
    destruct (IH _ _ _ Hrun) as (Hout & Hlast & Hdom).
    split; [|split].
    + intros key Hn. apply not_elem_of_cons in Hn as [Hne Hn].
      rewrite (Hout _ Hn). by rewrite lookup_insert_ne.
    + intros [|i] key Hi Hlater.
      * injection Hi as ->. rewrite Hout.
        -- rewrite lookup_insert_eq. by rewrite Nat.add_0_r.
        -- intros Hin. apply list_elem_of_lookup in Hin as [i' Hi'].
           by apply (Hlater (S i')); [lia|].
      * rewrite (Hlast i key Hi).
        -- f_equal. lia.
        -- intros i' Hlt. apply (Hlater (S i')). lia.
    + rewrite Hdom, dom_insert_L, list_to_set_cons.
      by rewrite (comm_L (∪) {[field]} (dom m)), (assoc_L (∪)).
Qed.

Lemma record_range_short values : forall fields (k : nat) m,
  (k <= length values)%nat -> (length values < k + length fields)%nat ->
  record_range values (Z.of_nat k) fields m
  = Panicked (IndexOutOfRange (Z.of_nat (length values))
                (Z.of_nat (length values))).
Proof.
  induction fields as [|field rest IH]; intros k m Hk Hlen; simpl in *;
    [lia|].
  destruct (decide (k = length values)) as [->|Hne].
  - by rewrite index_at_length.
  - destruct (lookup_lt_is_Some_2 values k) as [v Hv]; [lia|].
    rewrite (index_lookup _ _ _ Hv). simpl.
    replace (Z.of_nat k + 1) with (Z.of_nat (S k)) by lia.
    apply IH; lia.
Qed.

(** X2: record pairs each field with the value at the same index.  With
    at least as many values as fields it returns a map whose keys are exactly
    the fields, and a field is mapped to the value under its last occurrence
    (of a name given twice the later value stays); values beyond the fields
    are ignored.  With fewer values than fields it panics, on the index of
    the first field without a value. *)
Theorem X2_record_pairs_fields_with_values (j : Job.t)
    (fields values : list string) :
  ((length fields <= length values)%nat ->
   exists m,
     record j fields values = Done m
     /\ dom m = list_to_set fields
     /\ forall (i : nat) key,
          fields !! i = Some key ->
          (forall i' : nat, (i < i')%nat -> fields !! i' <> Some key) ->
          m !! key = values !! i)
  /\ ((length values < length fields)%nat ->
      record j fields values
      = Panicked (IndexOutOfRange (Z.of_nat (length values))
                    (Z.of_nat (length values)))).
Proof.
  unfold record. split.
  - intros Hlen.
    destruct (record_range_done values fields 0 ∅) as [m Hm]; [lia|lia|].
    exists m. split; [done|].
    destruct (record_range_lookup values fields 0 ∅ m Hm) as (_ & Hlast & Hdom).
    split; [by rewrite Hdom, dom_empty_L, (left_id_L ∅ (∪))|].
    intros i key Hi Hlater. by rewrite (Hlast i key Hi Hlater).
  - intros Hlen. apply (record_range_short values fields 0 ∅); lia.
Qed.

End lookup_facts.

(** ** Decoded rows *)

Section decoded_rows.
Import bulk.

Lemma slice_from_done {A} (s : list A) (r : list A) :
  slice_from s 2 = Done r -> r = drop 2 s.
Proof.
  unfold slice_from. case_match; [done|]. by intros [= <-].
Qed.

Lemma record_fieldsOf j fields values m :
  record j (drop 2 fields) (drop 2 values) = Done m ->
  fieldsOf fields values m.
Proof.
  unfold record. intros Hm.
  destruct (record_range_lookup _ _ 0 ∅ m Hm) as (_ & Hlast & Hdom).
  split; [by rewrite Hdom, dom_empty_L, (left_id_L ∅ (∪))|].
  intros p key Hp Hkey Hlater.
  rewrite (Hlast (p - 2)%nat key).
  - rewrite lookup_drop. f_equal. lia.
  - rewrite lookup_drop. rewrite <- Hkey. f_equal. lia.
  - intros i' Hi'. rewrite lookup_drop. apply Hlater. lia.
Qed.

Lemma successfulRow_inv j fields values rec :
  successfulRow j fields values = Done (rec, None) ->
  index values (headerPosition j sfID fields)
    = Done (SuccessfulRecord.ID rec)
  /\ (exists cell,
        index values (headerPosition j sfCreated fields) = Done cell
        /\ strconv.ParseBool cell = (SuccessfulRecord.Created rec, None))
  /\ fieldsOf fields values (SuccessfulRecord.Fields rec).
Proof.
  unfold successfulRow.
  destruct (index values (headerPosition j sfCreated fields)) as [cell| |];
    simpl; try discriminate.
  destruct (strconv.ParseBool cell) as [created [err|]] eqn:Hb;
    [discriminate|].
  destruct (index values (headerPosition j sfID fields)) as [id| |];
    simpl; try discriminate.
  destruct (slice_from fields 2) as [fs| |] eqn:Hfs; simpl; try discriminate.
  destruct (slice_from values 2) as [vs| |] eqn:Hvs; simpl; try discriminate.
  apply slice_from_done in Hfs, Hvs. subst fs vs.
  destruct (record j _ _) as [m| |] eqn:Hm; simpl; try discriminate.
  intros [= <-]. simpl. split; [done|]. split; [by exists cell|].
  by apply (record_fieldsOf j).
Qed.

Lemma failedRow_inv j fields values rec :
  failedRow j fields values = Done rec ->
  index values (headerPosition j sfError fields)
    = Done (FailedRecord.Error rec)
  /\ index values (headerPosition j sfID fields)
     = Done (FailedRecord.ID rec)
  /\ fieldsOf fields values (FailedRecord.Fields rec).
Proof.
  unfold failedRow.
  destruct (index values (headerPosition j sfError fields)) as [e| |];
    simpl; try discriminate.
  destruct (index values (headerPosition j sfID fields)) as [id| |];
    simpl; try discriminate.
  destruct (slice_from fields 2) as [fs| |] eqn:Hfs; simpl; try discriminate.
  destruct (slice_from values 2) as [vs| |] eqn:Hvs; simpl; try discriminate.
  apply slice_from_done in Hfs, Hvs. subst fs vs.
  destruct (record j _ _) as [m| |] eqn:Hm; simpl; try discriminate.
  intros [= <-]. simpl. split; [done|]. split; [done|].
  by apply (record_fieldsOf j).
Qed.

Lemma successfulRows_inv j fields last : forall rows acc records,
  successfulRows j fields rows last acc = Done (records, None) ->
  last = EOF
  /\ exists decoded,
       records = acc ++ decoded
       /\ Forall2 (fun values record =>
                     successfulRow j fields values = Done (record, None))
            rows decoded.
Proof.
  induction rows as [|values rows IH]; intros acc records; simpl.
  - case_bool_decide; intros [= <-]. split; [done|].
    exists []. by rewrite app_nil_r.
  - destruct (successfulRow j fields values) as [[rec [e|]]| |] eqn:Hrow;
      simpl; try discriminate.
    intros Hrest. destruct (IH _ _ Hrest) as (-> & decoded & -> & Hall).
    split; [done|]. exists (rec :: decoded).
    split; [by rewrite <- app_assoc|]. by constructor.
Qed.

Lemma failedRow_reserved j fields values :
  sfError ∈ fields -> sfID ∈ fields -> length values = length fields ->
  exists record, failedRow j fields values = Done record.
Proof.
  intros Her Hid Hlen.
  destruct (index_header_column j _ _ _ Her Hlen) as [e He].
  destruct (index_header_column j _ _ _ Hid Hlen) as [id Hi].
  unfold failedRow. rewrite He. simpl. rewrite Hi. simpl.
  assert (H2 : (2 <= length fields)%nat).
  { destruct fields as [|a [|b rest]]; simpl; [by inversion Hid| |lia].
    apply list_elem_of_singleton in Hid, Her. subst a. discriminate. }
  unfold slice_from.
  destruct (Z.ltb_spec (Z.of_nat (length fields)) 2); [lia|].
  destruct (Z.ltb_spec (Z.of_nat (length values)) 2); [lia|].
  simpl. unfold record.
  destruct (record_range_done (drop (Z.to_nat 2) values)
              (drop (Z.to_nat 2) fields) 0 ∅) as [m Hm]; [lia| |].
  { rewrite !length_drop. lia. }
  rewrite Hm. simpl. by eexists.
Qed.

Lemma failedRows_reserved j fields : forall rows,
  sfError ∈ fields -> sfID ∈ fields ->
  Forall (fun v => length v = length fields) rows ->
  exists records,
    Forall2 (fun values record => failedRow j fields values = Done record)
      rows records.
Proof.
  induction rows as [|values rows IH]; intros Her Hid Hlen.
  - exists []. constructor.
  - apply Forall_cons in Hlen as [Hv Hlen].
    destruct (failedRow_reserved j fields values Her Hid Hv) as [rec Hrec].
    destruct (IH Her Hid Hlen) as [records Hall].
    exists (rec :: records). by constructor.
Qed.

Lemma successfulRows_reserved j fields last : forall rows acc,
  sfID ∈ fields -> sfCreated ∈ fields ->
  Forall (fun v => length v = length fields) rows ->
  exists records err,
    successfulRows j fields rows last acc = Done (records, err)
    /\ (err = None <->
        last = EOF
        /\ Forall (fun values =>
                       exists cell,
                         index values (headerPosition j sfCreated fields)
                           = Done cell
                         /\ cell ∈ strconv.boolLiterals) rows)
    /\ (err = None -> length records = (length acc + length rows)%nat).
Proof.
  induction rows as [|values rows IH]; intros acc Hid Hcr Hlen; simpl.
  - case_bool_decide as Hl.
    + exists acc, None. split; [done|]. split; [|intros _; lia].
      split; [by intros _|done].
    + exists [], (Some last). split; [done|]. split; [|done].
      split; [done|]. by intros [? _].
  - apply Forall_cons in Hlen as [Hv Hlen].
    destruct (successfulRow_reserved j fields values Hid Hcr Hv)
      as (cell & Hc & Hok).
    destruct (decide (cell ∈ strconv.boolLiterals)) as [Hb|Hb].
    + destruct (Hok Hb) as [record Hrow]. rewrite Hrow. simpl.
      destruct (IH (acc ++ [record]) Hid Hcr Hlen)
        as (records & err & Hrun & Herr & Hcount).
      exists records, err. split; [done|]. split.
      * rewrite Herr. split.
        -- intros [? ?]. split; [done|]. constructor; [|done].
           by exists cell.
        -- intros [? Hall]. apply Forall_cons in Hall as [_ Hall]. done.
      * intros He. rewrite (Hcount He), length_app. simpl. lia.
    + rewrite (successfulRow_bad_flag _ _ _ _ Hc Hb). simpl.
      exists [], (Some (NumError "ParseBool" cell)).
      split; [done|]. split; [|done]. split; [done|].
      intros [_ Hall]. apply Forall_cons in Hall as [(cell' & Hc' & Hb') _].
      congruence.
Qed.

End decoded_rows.

(** ** The parsers when the reserved columns are present *)

Section parser_extras.
Import bulk.

(** X3: when the header holds both sf__Id and sf__Created,
    ParseSuccessfulResults returns and does not panic, whatever the data rows
    hold.  Its error is nil exactly when the reader ended in io.EOF and the
    sf__Created value of every data row is one of the literals ParseBool
    accepts; then there is one record for each data row, and with an error
    there is none. *)
Theorem X3_successful_results_with_reserved_columns (j : Job.t)
    (stream : csv.Stream) (fields : list string) (rows : list (list string))
    (last : error) :
  csv.yields (readerOf j stream) (fields :: rows) last ->
  sfID ∈ fields -> sfCreated ∈ fields ->
  exists records err,
    ParseSuccessfulResults j stream = Done (records, err)
    /\ (err = None <->
        last = EOF
        /\ Forall (fun values =>
                     exists cell,
                       index values (headerPosition j sfCreated fields)
                         = Done cell
                       /\ cell ∈ strconv.boolLiterals) rows)
    /\ (err = None -> length records = length rows)
    /\ (err <> None -> records = []).
Proof.
  intros Hy Hid Hcr.
  rewrite (ParseSuccessfulResults_yields _ _ _ _ Hy).
  pose proof (readerOf_header _ _ _ _ _ Hy) as Hlen.
  destruct (successfulRows_reserved j fields last rows [] Hid Hcr Hlen)
    as (records & err & Hrun & Herr & Hcount).
  exists records, err. split; [done|]. split; [exact Herr|].
  split; [exact Hcount|].
  destruct err as [e|]; [|done]. intros _.
  by apply (successfulRows_error _ _ _ _ _ _ _ Hrun).
Qed.

Lemma X3_successful_results_with_reserved_columns_witness :
  exists records err,
    ParseSuccessfulResults (jobWith "COMMA") badFlagStream
    = Done (records, err)
    /\ (err = None <->
        EOF = EOF
        /\ Forall (fun values =>
                     exists cell,
                       index values
                         (headerPosition (jobWith "COMMA") sfCreated
                            ["sf__Id"; "sf__Created"; "Name"])
                         = Done cell
                       /\ cell ∈ strconv.boolLiterals)
             [["001"; "true"; "Acme"]; ["002"; "yes"; "Bolt"];
              ["003"; "false"; "Cog"]])
    /\ (err = None -> length records = 3%nat)
    /\ (err <> None -> records = []).
Proof.
  apply (X3_successful_results_with_reserved_columns (jobWith "COMMA")
           badFlagStream).
  - read_all.
  - decide_it.
  - decide_it.
Defined.


(** X4: when the header holds both sf__Error and sf__Id,
    ParseFailedResults returns and does not panic.  If the reader ends in
    io.EOF it returns one record for each data row, in the order of the rows,
    each with the row's values under the sf__Error and sf__Id columns and
    with the columns from the third on as its fields; if the reader ends in
    any other error it returns that error and no record. *)
Theorem X4_failed_results_with_reserved_columns (j : Job.t)
    (stream : csv.Stream) (fields : list string) (rows : list (list string))
    (last : error) :
  csv.yields (readerOf j stream) (fields :: rows) last ->
  sfError ∈ fields -> sfID ∈ fields ->
  exists records,
    Forall2 (fun values rec =>
               index values (headerPosition j sfError fields)
                 = Done (FailedRecord.Error rec)
               /\ index values (headerPosition j sfID fields)
                  = Done (FailedRecord.ID rec)
               /\ fieldsOf fields values (FailedRecord.Fields rec))
      rows records
    /\ ParseFailedResults j stream
       = if bool_decide (last = EOF) then Done (records, None)
         else Done ([], Some last).
Proof.
  intros Hy Her Hid.
  rewrite (ParseFailedResults_yields _ _ _ _ Hy).
  pose proof (readerOf_header _ _ _ _ _ Hy) as Hlen.
  destruct (failedRows_reserved j fields rows Her Hid Hlen)
    as [records Hall].
  exists records. split.
  - eapply Forall2_impl; [exact Hall|]. intros values rec Hrow.
    by apply failedRow_inv.
  - by rewrite (failedRows_decoded _ _ _ _ _ [] Hall).
Qed.

Lemma X4_failed_results_with_reserved_columns_witness :
  exists records,
    Forall2 (fun values rec =>
               index values
                 (headerPosition (jobWith "COMMA") sfError
                    ["sf__Id"; "sf__Error"; "Name"])
                 = Done (FailedRecord.Error rec)
               /\ index values
                    (headerPosition (jobWith "COMMA") sfID
                       ["sf__Id"; "sf__Error"; "Name"])
                  = Done (FailedRecord.ID rec)
               /\ fieldsOf ["sf__Id"; "sf__Error"; "Name"] values
                    (FailedRecord.Fields rec))
      [["001"; "DUPLICATE"; "Acme"]; ["002"; "REQUIRED_FIELD_MISSING"; "Bolt"]]
      records
    /\ ParseFailedResults (jobWith "COMMA") failedStream
       = if bool_decide (EOF = EOF) then Done (records, None)
         else Done ([], Some EOF).
Proof.
  apply (X4_failed_results_with_reserved_columns (jobWith "COMMA")
           failedStream).
  - read_all.
  - decide_it.
  - decide_it.
Defined.

(** X5: whenever ParseSuccessfulResults returns a nil error, the reader has
    ended in io.EOF and the records are the data rows in order: the ID of a
    record is the row's value under sf__Id, Created is what ParseBool makes
    of the row's value under sf__Created, and Fields holds the columns from
    the third on, wherever the two reserved columns stand. *)
Theorem X5_successful_records_follow_the_rows (j : Job.t)
    (stream : csv.Stream) (fields : list string) (rows : list (list string))
    (last : error) (records : list SuccessfulRecord.t) :
  csv.yields (readerOf j stream) (fields :: rows) last ->
  ParseSuccessfulResults j stream = Done (records, None) ->
  last = EOF
  /\ Forall2 (fun values rec =>
                index values (headerPosition j sfID fields)
                  = Done (SuccessfulRecord.ID rec)
                /\ (exists cell,
                      index values (headerPosition j sfCreated fields)
                        = Done cell
                      /\ strconv.ParseBool cell
                         = (SuccessfulRecord.Created rec, None))
                /\ fieldsOf fields values (SuccessfulRecord.Fields rec))
       rows records.
Proof.
  intros Hy. rewrite (ParseSuccessfulResults_yields _ _ _ _ Hy).
  intros Hrun.
  destruct (successfulRows_inv _ _ _ _ _ _ Hrun)
    as (Hlast & decoded & -> & Hall).
  split; [done|]. simpl.
  eapply Forall2_impl; [exact Hall|]. intros values rec Hrow.
  by apply successfulRow_inv.
Qed.


Lemma X5_successful_records_follow_the_rows_witness :
  EOF = EOF
  /\ Forall2 (fun values rec =>
                index values
                  (headerPosition (jobWith "COMMA") sfID
                     ["sf__Id"; "sf__Created"; "Name"; "Phone"])
                  = Done (SuccessfulRecord.ID rec)
                /\ (exists cell,
                      index values
                        (headerPosition (jobWith "COMMA") sfCreated
                           ["sf__Id"; "sf__Created"; "Name"; "Phone"])
                        = Done cell
                      /\ strconv.ParseBool cell
                         = (SuccessfulRecord.Created rec, None))
                /\ fieldsOf ["sf__Id"; "sf__Created"; "Name"; "Phone"] values
                     (SuccessfulRecord.Fields rec))
       [["001"; "true"; "Acme"; "555"]; ["002"; "false"; "Bolt"; "556"]]
       [ {| SuccessfulRecord.Created := true; SuccessfulRecord.ID := "001";
            SuccessfulRecord.Fields :=
              <["Phone" := "555"]> {[ "Name" := "Acme" ]} |};
         {| SuccessfulRecord.Created := false; SuccessfulRecord.ID := "002";
            SuccessfulRecord.Fields :=
              <["Phone" := "556"]> {[ "Name" := "Bolt" ]} |} ].
Proof.
  apply (X5_successful_records_follow_the_rows (jobWith "COMMA")
           successfulStream).
  - read_all.
  - vm_compute. reflexivity.
Defined.

End parser_extras.

(** ** Unprocessed records *)

Section unprocessed.
Import bulk.

Lemma unprocessedLoop_yields j fields r rows e :
  csv.yields r rows e ->
  Forall (fun v => length v = length fields) rows ->
  forall fuel acc, (length rows < fuel)%nat ->
  exists records,
    Forall2 (fun values rec =>
               record j fields values = Done (UnprocessedRecord.Fields rec))
      rows records
    /\ unprocessedLoop fuel j r fields acc
       = if bool_decide (e = EOF) then Done (acc ++ records, None)
         else Done ([], Some e).
Proof.
  induction 1 as [r v e r' H|r v r' rows e H Hy IH]; intros Hlen fuel acc Hf.
  - destruct fuel as [|fuel]; [simpl in Hf; lia|].
    exists []. split; [constructor|]. simpl. rewrite H, app_nil_r.
    repeat case_bool_decide; try done; congruence.
  - destruct fuel as [|fuel]; [simpl in Hf; lia|].
    apply Forall_cons in Hlen as [Hv Hlen].
    destruct (record_range_done v fields 0 ∅) as [m Hm]; [lia|lia|].
    destruct (IH Hlen fuel (acc ++ [ {| UnprocessedRecord.Fields := m |} ]))
      as (records & Hall & Hrun); [simpl in Hf; lia|].
    exists ({| UnprocessedRecord.Fields := m |} :: records). split.
    + by constructor.
    + simpl. rewrite H. rewrite bool_decide_eq_false_2 by done.
      unfold record. rewrite Hm. simpl. rewrite Hrun.
      by rewrite <- app_assoc.
Qed.

(** The CSV part of [UnprocessedRecords], on what the reader delivers. *)
Lemma unprocessed_body j stream rows e :
  csv.yields (readerOf j stream) rows e ->
  exists records,
    match rows with
    | [] => records = []
    | fields :: rows =>
        Forall2 (fun values rec =>
                   record j fields values
                   = Done (UnprocessedRecord.Fields rec)) rows records
    end
    /\ (let '((fields, err), reader) := csv.Read (readerOf j stream) in
        match err with
        | Some err => Done ([], Some err)
        | None =>
            unprocessedLoop (S (String.length (csv.unread reader))) j reader
              fields []
        end)
       = match rows with
         | [] => Done ([], Some e)
         | _ :: _ =>
             if bool_decide (e = EOF) then Done (records, None)
             else Done ([], Some e)
         end.
Proof.
  intros Hy.
  pose proof Hy as Hy0.
  inversion Hy as [r v e0 r' H|r v r' rows0 e0 H Hy']; subst.
  - exists []. split; [done|]. by rewrite H.
  - pose proof (readerOf_header _ _ _ _ _ Hy0) as Hlen.
    destruct (unprocessedLoop_yields j v r' rows0 e Hy' Hlen
                (S (String.length (csv.unread r'))) [])
      as (records & Hall & Hrun).
    { apply yields_length in Hy'. lia. }
    exists records. split; [done|]. by rewrite H.
Qed.

(** X6: UnprocessedRecords returns for every server answer: it never
    panics, since it reads no reserved column and every row the reader
    delivers has the header's length; and an error never comes with
    records. *)
Theorem X6_unprocessed_records_never_panic (env : Env.t) (j : Job.t)
    (w : World.t) :
  exists records err,
    fst (UnprocessedRecords env j w) = Done (records, err)
    /\ (err <> None -> records = []).
Proof.
  unfold UnprocessedRecords.
  destruct (NewRequest _ _ _ _) as [request|err]; [|by exists [], (Some err)].
  destruct (session.Do _ _ _) as [[response|err] w'];
    [|by exists [], (Some err)].
  destruct (negb _); [by eexists [], (Some _)|].
  fold (readerOf j (bodyStream response)).
  destruct (yields_total (readerOf j (bodyStream response)))
    as (rows & e & Hy).
  destruct (unprocessed_body _ _ _ _ Hy) as (records & _ & Hrun).
  destruct (csv.Read (readerOf j (bodyStream response)))
    as [[fields [err|]] reader]; simpl in *.
  - by exists [], (Some err).
  - rewrite Hrun. destruct rows; [by exists [], (Some e)|].
    case_bool_decide; [by exists records, None|by exists [], (Some e)].
Qed.


(** X7: when the server answers the request of UnprocessedRecords with
    status 200, the call returns one record for each data row of the body,
    in order, whose Fields holds every column of the header (none is
    skipped, unlike in the successful and failed results), each name mapped
    to the row's value under its last occurrence; if the reader ends in an
    error other than io.EOF, that error is returned and no record. *)
Theorem X7_unprocessed_records_hold_every_column (env : Env.t) (j : Job.t)
    (w : World.t) (request : http.Request.t) (response : http.Response.t)
    (fields : list string) (rows : list (list string)) (last : error) :
  NewRequest env http.MethodGet
    (session.ServiceURL (Job.session j) +:+ bulk2Endpoint +:+ "/"
     +:+ WriteResponse.ID (Job.WriteResponse j) +:+ "/unprocessedrecords/")
    http.NoBody = inl request ->
  session.Client (Job.session j) (World.sent w)
    (session.AuthorizationHeader (Job.session j)
       (addHeader "Accept" "text/csv" request)) = inl response ->
  http.Response.StatusCode response = http.StatusOK ->
  csv.yields (readerOf j (bodyStream response)) (fields :: rows) last ->
  exists records,
    Forall2 (fun values rec =>
               dom (UnprocessedRecord.Fields rec) = list_to_set fields
               /\ forall (p : nat) key,
                    fields !! p = Some key ->
                    (forall p' : nat, (p < p')%nat -> fields !! p' <> Some key) ->
                    UnprocessedRecord.Fields rec !! key = values !! p)
      rows records
    /\ fst (UnprocessedRecords env j w)
       = if bool_decide (last = EOF) then Done (records, None)
         else Done ([], Some last).
Proof.
  intros Hrequest Hclient Hstatus Hy.
  destruct (unprocessed_body _ _ _ _ Hy) as (records & Hall & Hrun).
  exists records. split.
  - eapply Forall2_impl; [exact Hall|]. intros values rec Hm.
    destruct (record_range_lookup values fields 0 ∅ _ Hm)
      as (_ & Hlast & Hdom).
    split; [by rewrite Hdom, dom_empty_L, (left_id_L ∅ (∪))|].
    intros p key Hp Hlater. by rewrite (Hlast p key Hp Hlater).
  - unfold UnprocessedRecords. rewrite Hrequest. unfold session.Do.
    rewrite Hclient, Hstatus. simpl negb. cbv iota.
    fold (readerOf j (bodyStream response)).
    destruct (csv.Read (readerOf j (bodyStream response)))
      as [[fields' [err|]] reader]; simpl in *; [|exact Hrun].
    rewrite <- Hrun. done.
Qed.

Lemma X7_unprocessed_records_hold_every_column_witness :
  exists records,
    Forall2 (fun values rec =>
               dom (UnprocessedRecord.Fields rec)
               = list_to_set ["Name"; "Phone"]
               /\ forall (p : nat) key,
                    ["Name"; "Phone"] !! p = Some key ->
                    (forall p' : nat,
                       (p < p')%nat -> ["Name"; "Phone"] !! p' <> Some key) ->
                    UnprocessedRecord.Fields rec !! key = values !! p)
      [["Cog"; "557"]; ["Dot"; "558"]] records
    /\ fst (UnprocessedRecords exampleEnv unprocessedJob emptyWorld)
       = if bool_decide (EOF = EOF) then Done (records, None)
         else Done ([], Some EOF).
Proof.
  eapply (X7_unprocessed_records_hold_every_column exampleEnv unprocessedJob
            emptyWorld).
  - reflexivity.
  - reflexivity.
  - reflexivity.
  - read_all.
Defined.

End unprocessed.

(** ** Exporting and reading back the results of an ingest job *)

Section export_ingest.
Import bulk.

Lemma getResults_inl env j segment w response w' :
  getResults env j segment w = (inl response, w') ->
  http.Response.StatusCode response = http.StatusOK
  /\ World.files w' = World.files w
  /\ exists request,
       World.sent w' = World.sent w ++ [request]
       /\ session.Client (Job.session j) (World.sent w) request = inl response.
Proof.
  unfold getResults, session.Do.
  destruct (NewRequest _ _ _ _) as [request|err]; [|discriminate].
  destruct (session.Client _ _ _) as [resp|err] eqn:Hc; [|discriminate].
  destruct (Z.eqb_spec (http.Response.StatusCode resp) http.StatusOK);
    simpl; [|discriminate].
  intros [= <- <-]. split; [done|]. split; [done|]. by eexists.
Qed.

Lemma getResults_inr env j segment w err w' :
  getResults env j segment w = (inr err, w') ->
  World.files w' = World.files w.
Proof.
  unfold getResults, session.Do.
  destruct (NewRequest _ _ _ _) as [request|e]; [|by intros [= <- <-]].
  destruct (session.Client _ _ _) as [resp|e]; [|by intros [= <- <-]].
  destruct (negb _); [by intros [= <- <-]|discriminate].
Qed.

Lemma copyToFile_files env filename body w :
  (forall name, name <> filename ->
     World.files (snd (copyToFile env filename body w)) !! name
     = World.files w !! name)
  /\ (World.files (snd (copyToFile env filename body w)) <> World.files w ->
      Env.os_Create env filename = None)
  /\ (fst (copyToFile env filename body w) = None ->
      World.files (snd (copyToFile env filename body w))
      = <[filename := body]> (World.files w))
  /\ World.sent (snd (copyToFile env filename body w)) = World.sent w.
Proof.
  unfold copyToFile.
  destruct (Env.os_Create env filename) as [err|]; simpl; [done|].
  destruct (Env.io_Copy env body) as [[written err]|]; simpl.
  - split; [|done]. intros name Hne. by rewrite lookup_insert_ne.
  - split; [|done]. intros name Hne. by rewrite lookup_insert_ne.
Qed.

(** X8: a result set that ExportSuccessfulResults (ExportFailedResults) has
    written without error reads back with ReadSuccessfulResults
    (ReadFailedResults) as exactly what SuccessfulRecords (FailedRecords)
    returns for the same server answer: the file holds the body byte for
    byte. *)
Theorem X8_exported_results_read_back (env : Env.t) (j : Job.t)
    (filename : string) (w : World.t) :
  (fst (ExportSuccessfulResults env j filename w) = None ->
   ReadSuccessfulResults j filename
     (snd (ExportSuccessfulResults env j filename w))
   = fst (SuccessfulRecords env j w))
  /\ (fst (ExportFailedResults env j filename w) = None ->
      ReadFailedResults j filename
        (snd (ExportFailedResults env j filename w))
      = fst (FailedRecords env j w)).
Proof.
  split.
  - unfold ExportSuccessfulResults, ReadSuccessfulResults, SuccessfulRecords,
      openFile.
    destruct (getSuccessfulResults env j w) as [[response|err] w'];
      [|discriminate].
    intros Hok. simpl.
    destruct (copyToFile_files env filename (http.Response.Body response) w')
      as (_ & _ & Hfile & _).
    by rewrite (Hfile Hok), lookup_insert_eq.
  - unfold ExportFailedResults, ReadFailedResults, FailedRecords, openFile.
    destruct (getFailedResults env j w) as [[response|err] w'];
      [|discriminate].
    intros Hok. simpl.
    destruct (copyToFile_files env filename (http.Response.Body response) w')
      as (_ & _ & Hfile & _).
    by rewrite (Hfile Hok), lookup_insert_eq.
Qed.

Lemma X8_exported_results_read_back_witness :
  ReadSuccessfulResults resultsJob "/tmp/successful.csv"
    (snd (ExportSuccessfulResults exampleEnv resultsJob "/tmp/successful.csv"
            emptyWorld))
  = Done ([ {| SuccessfulRecord.Created := true; SuccessfulRecord.ID := "001";
               SuccessfulRecord.Fields :=
                 <["Phone" := "555"]> {[ "Name" := "Acme" ]} |};
            {| SuccessfulRecord.Created := false; SuccessfulRecord.ID := "002";
               SuccessfulRecord.Fields :=
                 <["Phone" := "556"]> {[ "Name" := "Bolt" ]} |} ], None).
Proof.
  rewrite (proj1 (X8_exported_results_read_back exampleEnv resultsJob
                    "/tmp/successful.csv" emptyWorld) eq_refl).
  vm_compute. reflexivity.
Defined.

(** X9: ExportSuccessfulResults and ExportFailedResults leave every file
    but the named one as it was; the named file is changed, or the call
    returns nil, only after one request was sent, the server answered it
    with status 200 and os.Create succeeded; and when the call returns nil
    the file holds exactly the body of that answer. *)
Theorem X9_export_writes_one_file_after_200 (env : Env.t) (j : Job.t)
    (filename : string) (w : World.t) :
  let effects (export : Env.t -> Job.t -> string -> World.t
                        -> option error * World.t) :=
    let w' := snd (export env j filename w) in
    (forall name, name <> filename ->
       World.files w' !! name = World.files w !! name)
    /\ (World.files w' <> World.files w \/ fst (export env j filename w) = None ->
        Env.os_Create env filename = None
        /\ exists request response,
             World.sent w' = World.sent w ++ [request]
             /\ session.Client (Job.session j) (World.sent w) request
                = inl response
             /\ http.Response.StatusCode response = http.StatusOK
             /\ (fst (export env j filename w) = None ->
                 World.files w' !! filename
                 = Some (http.Response.Body response))) in
  effects ExportSuccessfulResults /\ effects ExportFailedResults.
Proof.
  intros effects.
  assert (Hboth : forall segment,
    let export := fun env j filename w =>
      match getResults env j segment w with
      | (inr err, w) => (Some err, w)
      | (inl response, w) =>
          copyToFile env filename (http.Response.Body response) w
      end in
    let w' := snd (export env j filename w) in
    (forall name, name <> filename ->
       World.files w' !! name = World.files w !! name)
    /\ (World.files w' <> World.files w \/ fst (export env j filename w) = None ->
        Env.os_Create env filename = None
        /\ exists request response,
             World.sent w' = World.sent w ++ [request]
             /\ session.Client (Job.session j) (World.sent w) request
                = inl response
             /\ http.Response.StatusCode response = http.StatusOK
             /\ (fst (export env j filename w) = None ->
                 World.files w' !! filename
                 = Some (http.Response.Body response)))).
  { intros segment. simpl.
    destruct (getResults env j segment w) as [[response|err] w1] eqn:Hget.
    - destruct (getResults_inl _ _ _ _ _ _ Hget)
        as (Hstatus & Hfiles & request & Hsent & Hclient).
      destruct (copyToFile_files env filename (http.Response.Body response) w1)
        as (Hframe & Hcreate & Hfile & Hs).
      split.
      + intros name Hne. by rewrite (Hframe name Hne), Hfiles.
      + intros Hch. split.
        * destruct Hch as [Hch|Hok]; [apply Hcreate; by rewrite Hfiles|].
          unfold copyToFile in Hok.
          by destruct (Env.os_Create env filename).
        * exists request, response. rewrite Hs.
          split; [done|]. split; [done|]. split; [done|].
          intros Hok. by rewrite (Hfile Hok), lookup_insert_eq.
    - simpl. pose proof (getResults_inr _ _ _ _ _ _ Hget) as Hfiles.
      split; [intros name _; by rewrite Hfiles|].
      intros [Hch|Hok]; [by rewrite Hfiles in Hch|discriminate]. }
  split.
  - exact (Hboth "/successfulResults/").
  - exact (Hboth "/failedResults/").
Qed.

End export_ingest.

(** ** The requests of the ingest job *)

Section ingest_calls.
Import bulk.

Ltac one_request :=
  unfold oneAuthorizedRequest, session.Do;
  repeat case_match; simplify_eq; simpl;
  try (split; [|done]); eauto.

Lemma response_sends env j request w :
  World.sent (snd (response env j request w)) = World.sent w ++ [request]
  /\ World.files (snd (response env j request w)) = World.files w.
Proof. unfold response, session.Do. by repeat case_match. Qed.

Lemma infoResponse_sends env j request w :
  World.sent (snd (infoResponse env j request w)) = World.sent w ++ [request]
  /\ World.files (snd (infoResponse env j request w)) = World.files w.
Proof. unfold infoResponse, session.Do. by repeat case_match. Qed.

Lemma getResults_sends env j segment w :
  oneAuthorizedRequest (Job.session j) w (snd (getResults env j segment w))
  /\ World.files (snd (getResults env j segment w)) = World.files w.
Proof. unfold getResults. one_request. Qed.

Lemma createCallout_sends env j options w :
  oneAuthorizedRequest (Job.session j) w (snd (createCallout env j options w))
  /\ World.files (snd (createCallout env j options w)) = World.files w.
Proof.
  unfold createCallout.
  destruct (NewRequest _ _ _ _) as [request|err]; [|by split; [left|]].
  split; [right; eexists|]; apply response_sends.
Qed.

Lemma fetchInfo_sends env j id w :
  oneAuthorizedRequest (Job.session j) w (snd (fetchInfo env j id w))
  /\ World.files (snd (fetchInfo env j id w)) = World.files w.
Proof.
  unfold fetchInfo.
  destruct (NewRequest _ _ _ _) as [request|err]; [|by split; [left|]].
  split; [right; eexists|]; apply infoResponse_sends.
Qed.

Lemma setState_sends env j state w :
  oneAuthorizedRequest (Job.session j) w (snd (setState env j state w))
  /\ World.files (snd (setState env j state w)) = World.files w.
Proof.
  unfold setState.
  destruct (NewRequest _ _ _ _) as [request|err]; [|by split; [left|]].
  split; [right; eexists|]; apply response_sends.
Qed.

(** X10: every call of the ingest job (create, Info, Close, Abort,
    Delete, Upload, SuccessfulRecords, FailedRecords, UnprocessedRecords and
    the two exports) sends at most one request, and a request it sends is
    what the session's AuthorizationHeader made of it: none goes out
    unsigned; apart from the exports, no call changes a file. *)
Theorem X10_ingest_calls_send_one_authorized_request (env : Env.t)
    (j : Job.t) (options : Options.t) (body filename : string)
    (w : World.t) :
  let quiet (w' : World.t) :=
    oneAuthorizedRequest (Job.session j) w w'
    /\ World.files w' = World.files w in
  quiet (snd (create env j options w))
  /\ quiet (snd (Info env j w))
  /\ quiet (snd (Close env j w))
  /\ quiet (snd (Abort env j w))
  /\ quiet (snd (Job_Delete env j w))
  /\ quiet (snd (Upload env j body w))
  /\ quiet (snd (SuccessfulRecords env j w))
  /\ quiet (snd (FailedRecords env j w))
  /\ quiet (snd (UnprocessedRecords env j w))
  /\ oneAuthorizedRequest (Job.session j) w
       (snd (ExportSuccessfulResults env j filename w))
  /\ oneAuthorizedRequest (Job.session j) w
       (snd (ExportFailedResults env j filename w)).
Proof.
  intros quiet. unfold quiet.
  assert (Hget : forall segment,
            oneAuthorizedRequest (Job.session j) w
              (snd (getResults env j segment w))
            /\ World.files (snd (getResults env j segment w)) = World.files w)
    by (intros; apply getResults_sends).
  assert (Hexport : forall segment,
            oneAuthorizedRequest (Job.session j) w
              (snd (match getResults env j segment w with
                    | (inr err, w) => (Some err, w)
                    | (inl response, w) =>
                        copyToFile env filename
                          (http.Response.Body response) w
                    end))).
  { intros segment. destruct (Hget segment) as [Hone _].
    destruct (getResults env j segment w) as [[response|err] w1]; [|done].
    destruct (copyToFile_files env filename (http.Response.Body response) w1)
      as (_ & _ & _ & Hs).
    unfold oneAuthorizedRequest in *. by rewrite Hs. }
  repeat apply conj.
  - unfold create.
    destruct (formatOptions j options) as [o [e|]]; [by left|].
    destruct (createCallout_sends env j o w) as [Hone _].
    by destruct (createCallout env j o w) as [[wr err] w'].
  - unfold create.
    destruct (formatOptions j options) as [o [e|]]; [done|].
    destruct (createCallout_sends env j o w) as [_ Hf].
    by destruct (createCallout env j o w) as [[wr err] w'].
  - apply fetchInfo_sends.
  - apply fetchInfo_sends.
  - apply setState_sends.
  - apply setState_sends.
  - apply setState_sends.
  - apply setState_sends.
  - unfold Job_Delete. one_request.
  - unfold Job_Delete, session.Do. by repeat case_match.
  - unfold Upload. one_request.
  - unfold Upload, session.Do. by repeat case_match.
  - unfold SuccessfulRecords, getSuccessfulResults.
    destruct (Hget "/successfulResults/") as [Hone _].
    by destruct (getResults _ _ _ _) as [[?|?] ?].
  - unfold SuccessfulRecords, getSuccessfulResults.
    destruct (Hget "/successfulResults/") as [_ Hf].
    by destruct (getResults _ _ _ _) as [[?|?] ?].
  - unfold FailedRecords, getFailedResults.
    destruct (Hget "/failedResults/") as [Hone _].
    by destruct (getResults _ _ _ _) as [[?|?] ?].
  - unfold FailedRecords, getFailedResults.
    destruct (Hget "/failedResults/") as [_ Hf].
    by destruct (getResults _ _ _ _) as [[?|?] ?].
  - unfold UnprocessedRecords. one_request.
  - unfold UnprocessedRecords, session.Do. by repeat case_match.
  - exact (Hexport "/successfulResults/").
  - exact (Hexport "/failedResults/").
Qed.

End ingest_calls.

(** ** The statuses Delete and Upload accept *)

Section status_facts.

Lemma sent_one (l : list http.Request.t) a b : l ++ [a] = l ++ [b] -> a = b.
Proof. intros H. apply app_inv_head in H. by injection H. Qed.

(** X11: Delete, of the ingest job and of the query job, returns nil
    exactly when a request was sent and answered with status 204.  Any other
    status, 200 included, gives the fixed error "job error: unable to delete
    job": the answer of the server is not in it. *)
Theorem X11_delete_succeeds_on_204_only (env : Env.t) (j : bulk.Job.t)
    (qj : bulkquery.QueryJob.t) (w : World.t) :
  let deleted (s : session.ServiceFormatter)
      (result : option error * World.t) :=
    (fst result = None <->
     exists request response,
       World.sent (snd result) = World.sent w ++ [request]
       /\ session.Client s (World.sent w) request = inl response
       /\ http.Response.StatusCode response = http.StatusNoContent)
    /\ (forall request response,
          World.sent (snd result) = World.sent w ++ [request] ->
          session.Client s (World.sent w) request = inl response ->
          http.Response.StatusCode response <> http.StatusNoContent ->
          fst result = Some (errorString "job error: unable to delete job")) in
  deleted (bulk.Job.session j) (bulk.Job_Delete env j w)
  /\ deleted (bulkquery.QueryJob.session qj) (bulkquery.Delete env qj w).
Proof.
  intros deleted. unfold deleted. split.
  - unfold bulk.Job_Delete, session.Do.
    destruct (NewRequest _ _ _ _) as [request|err]; simpl.
    + destruct (session.Client _ _ _) as [response|err] eqn:Hc; simpl.
      * destruct (Z.eqb_spec (http.Response.StatusCode response)
                    http.StatusNoContent) as [Hs|Hs]; simpl.
        -- split; [split; [intros _; by eexists _, _|done]|].
           intros r resp Hr. apply sent_one in Hr as <-. congruence.
        -- split; [split; [done|]|done].
           intros (r & resp & Hr & Hcl & Hst).
           apply sent_one in Hr as <-. congruence.
      * split; [split; [done|]|].
        -- intros (r & resp & Hr & Hcl & Hst).
           apply sent_one in Hr as <-. congruence.
        -- intros r resp Hr. apply sent_one in Hr as <-. congruence.
    + split; [split; [done|]|].
      * intros (r & resp & Hr & _).
        apply (f_equal length) in Hr. rewrite length_app in Hr. simpl in Hr.
        lia.
      * intros r resp Hr.
        apply (f_equal length) in Hr. rewrite length_app in Hr. simpl in Hr.
        lia.
  - unfold bulkquery.Delete, session.Do.
    destruct (NewRequest _ _ _ _) as [request|err]; simpl.
    + destruct (session.Client _ _ _) as [response|err] eqn:Hc; simpl.
      * destruct (Z.eqb_spec (http.Response.StatusCode response)
                    http.StatusNoContent) as [Hs|Hs]; simpl.
        -- split; [split; [intros _; by eexists _, _|done]|].
           intros r resp Hr. apply sent_one in Hr as <-. congruence.
        -- split; [split; [done|]|done].
           intros (r & resp & Hr & Hcl & Hst).
           apply sent_one in Hr as <-. congruence.
      * split; [split; [done|]|].
        -- intros (r & resp & Hr & Hcl & Hst).
           apply sent_one in Hr as <-. congruence.
        -- intros r resp Hr. apply sent_one in Hr as <-. congruence.
    + split; [split; [done|]|].
      * intros (r & resp & Hr & _).
        apply (f_equal length) in Hr. rewrite length_app in Hr. simpl in Hr.
        lia.
      * intros r resp Hr.
        apply (f_equal length) in Hr. rewrite length_app in Hr. simpl in Hr.
        lia.
Qed.

(** X12: Upload returns nil exactly when its request was answered with
    status 201.  The request is a PUT whose body is the data handed in,
    unchanged, with the single header Content-Type: text/csv set before the
    session adds the authorization; an answer with another status gives the
    error HandleError makes of it. *)
Theorem X12_upload_sends_the_data_as_given (env : Env.t) (j : bulk.Job.t)
    (body : string) (w : World.t) :
  let result := bulk.Upload env j body w in
  (fst result = None <->
   exists request response,
     World.sent (snd result) = World.sent w ++ [request]
     /\ session.Client (bulk.Job.session j) (World.sent w) request
        = inl response
     /\ http.Response.StatusCode response = http.StatusCreated)
  /\ (forall request,
        World.sent (snd result) = World.sent w ++ [request] ->
        (exists unsigned,
           request = session.AuthorizationHeader (bulk.Job.session j) unsigned
           /\ http.Request.Method unsigned = "PUT"
           /\ http.Request.Header unsigned = {[ "Content-Type" := ["text/csv"] ]}
           /\ http.Request.Body unsigned = http.Raw body)
        /\ forall response,
             session.Client (bulk.Job.session j) (World.sent w) request
             = inl response ->
             http.Response.StatusCode response <> http.StatusCreated ->
             fst result = Some (HandleError response)).
Proof.
  intros result. unfold result, bulk.Upload, session.Do, NewRequest.
  destruct (Env.url_Parse env _) as [[u q]|err]; simpl.
  - destruct (session.Client _ _ _) as [response|err] eqn:Hc; simpl.
    + destruct (Z.eqb_spec (http.Response.StatusCode response)
                  http.StatusCreated) as [Hs|Hs]; simpl.
      * split; [split; [intros _; by eexists _, _|done]|].
        intros r Hr. apply sent_one in Hr as <-.
        split; [by eexists|]. congruence.
      * split; [split; [done|]|].
        -- intros (r & resp & Hr & Hcl & Hst).
           apply sent_one in Hr as <-. congruence.
        -- intros r Hr. apply sent_one in Hr as <-.
           split; [by eexists|]. congruence.
    + split; [split; [done|]|].
      * intros (r & resp & Hr & Hcl & Hst).
        apply sent_one in Hr as <-. congruence.
      * intros r Hr. apply sent_one in Hr as <-.
        split; [by eexists|]. congruence.
  - split; [split; [done|]|].
    + intros (r & resp & Hr & _).
      apply (f_equal length) in Hr. rewrite length_app in Hr. simpl in Hr.
      lia.
    + intros r Hr.
      apply (f_equal length) in Hr. rewrite length_app in Hr. simpl in Hr.
      lia.
Qed.

End status_facts.

(** ** Creating a job *)

Section create_facts.

Lemma bulk_formatOptions_defaults j options :
  snd (bulk.formatOptions j options) = None ->
  let orDefault (value d : string) :=
    if decide (value = EmptyString) then d else value in
  bulk.marshalOptions (fst (bulk.formatOptions j options))
  = http.JSON
      [("columnDelimiter",
        orDefault (bulk.Options.ColumnDelimiter options) "COMMA");
       ("contentType", orDefault (bulk.Options.ContentType options) "CSV");
       ("externalIdFieldName", bulk.Options.ExternalIDFieldName options);
       ("lineEnding", orDefault (bulk.Options.LineEnding options) "LF");
       ("object", bulk.Options.Object options);
       ("operation", bulk.Options.Operation options)].
Proof.
  destruct options as [cd ct ext le obj op].
  unfold bulk.formatOptions. simpl.
  destruct (op =? EmptyString)%string; [discriminate|].
  destruct ((op =? bulk.Upsert)%string && (ext =? EmptyString)%string);
    [discriminate|].
  destruct (obj =? EmptyString)%string; [discriminate|].
  intros _. by destruct le, ct, cd.
Qed.

(** X13: when the options pass validation and the URL parses, create of
    the ingest job posts one request to {service}/jobs/ingest whose JSON body
    carries the options with LF, CSV and COMMA in place of an empty line
    ending, content type and column delimiter, and the other fields as
    given.  If the call then fails, the job's record is left at its zero
    value (the record it held before is lost); if it succeeds, the record is
    the one decoded from the body of a 200 answer. *)
Theorem X13_create_posts_the_defaulted_options (env : Env.t) (j : bulk.Job.t)
    (options : bulk.Options.t) (w : World.t) (u : string) (q : http.Values) :
  snd (bulk.formatOptions j options) = None ->
  Env.url_Parse env
    (session.ServiceURL (bulk.Job.session j) +:+ "/jobs/ingest") = inl (u, q) ->
  let orDefault (value d : string) :=
    if decide (value = EmptyString) then d else value in
  let posted :=
    {| http.Request.Method := "POST";
       http.Request.URL := u;
       http.Request.Query := q;
       http.Request.Header :=
         http.Add "Content-Type" "application/json"
           (http.Add "Accept" "application/json" ∅);
       http.Request.Body :=
         http.JSON
           [("columnDelimiter",
             orDefault (bulk.Options.ColumnDelimiter options) "COMMA");
            ("contentType",
             orDefault (bulk.Options.ContentType options) "CSV");
            ("externalIdFieldName", bulk.Options.ExternalIDFieldName options);
            ("lineEnding", orDefault (bulk.Options.LineEnding options) "LF");
            ("object", bulk.Options.Object options);
            ("operation", bulk.Options.Operation options)] |} in
  let result := bulk.create env j options w in
  World.sent (snd result)
  = World.sent w ++ [session.AuthorizationHeader (bulk.Job.session j) posted]
  /\ (snd (fst result) <> None ->
      bulk.Job.WriteResponse (fst (fst result)) = bulk.WriteResponse.zero)
  /\ (snd (fst result) = None ->
      exists response members,
        session.Client (bulk.Job.session j) (World.sent w)
          (session.AuthorizationHeader (bulk.Job.session j) posted)
        = inl response
        /\ http.Response.StatusCode response = http.StatusOK
        /\ Env.json_Unmarshal env (http.Response.Body response) = inl members
        /\ bulk.Job.WriteResponse (fst (fst result))
           = bulk.WriteResponse.ofJSON members).
Proof.
  intros Hvalid Hurl orDefault posted result.
  pose proof (bulk_formatOptions_defaults j options Hvalid) as Hbody.
  unfold result, bulk.create.
  destruct (bulk.formatOptions j options) as [o [e|]]; [discriminate|].
  simpl in Hbody.
  unfold bulk.createCallout, NewRequest, bulk.bulk2Endpoint.
  rewrite Hurl, Hbody.
  unfold bulk.response, session.Do. fold orDefault. fold posted.
  change (addHeader "Content-Type" "application/json"
            (addHeader "Accept" "application/json" _)) with posted.
  destruct (session.Client _ _ _) as [response|err]; simpl; [|done].
  destruct (Z.eqb_spec (http.Response.StatusCode response) http.StatusOK);
    simpl; [|done].
  destruct (Env.json_Unmarshal env _) as [members|err] eqn:Hm; simpl; [|done].
  split; [done|]. split; [done|]. intros _. by exists response, members.
Qed.


Lemma X13_create_posts_the_defaulted_options_witness :
  World.sent (snd (bulk.create exampleEnv uploadJob exampleOptions emptyWorld))
  = [ addHeader "Authorization" "Bearer 00D"
        {| http.Request.Method := "POST";
           http.Request.URL :=
             "https://example.my.salesforce.com/services/data/v52.0/jobs/ingest";
           http.Request.Query := ∅;
           http.Request.Header :=
             http.Add "Content-Type" "application/json"
               (http.Add "Accept" "application/json" ∅);
           http.Request.Body :=
             http.JSON
               [("columnDelimiter", "PIPE"); ("contentType", "CSV");
                ("externalIdFieldName", EmptyString); ("lineEnding", "LF");
                ("object", "Account"); ("operation", "insert")] |} ].
Proof.
  exact (proj1 (X13_create_posts_the_defaulted_options exampleEnv uploadJob
                  exampleOptions emptyWorld _ _ eq_refl eq_refl)).
Defined.

(** X14: the query job keeps the last record the server sent: after Info
    and after Abort without error the job's QueryResponse is the decoded
    record, and after an error the job is as before.  create differs: with
    an empty query the job is untouched, and when the request fails the
    job's QueryResponse is reset to its zero value. *)
Theorem X14_query_job_keeps_the_last_record (env : Env.t)
    (j : bulkquery.QueryJob.t) (options : bulkquery.QueryOptions.t)
    (w : World.t) :
  (let '((j', (info, err)), _) := bulkquery.Info env j w in
   bulkquery.QueryJob.session j' = bulkquery.QueryJob.session j
   /\ (err = None ->
       bulkquery.QueryJob.QueryResponse j'
       = bulkquery.QueryInfo.QueryResponse info)
   /\ (err <> None -> j' = j /\ info = bulkquery.QueryInfo.zero))
  /\ (let '((j', (value, err)), _) := bulkquery.Abort env j w in
      bulkquery.QueryJob.session j' = bulkquery.QueryJob.session j
      /\ (err = None -> bulkquery.QueryJob.QueryResponse j' = value)
      /\ (err <> None -> j' = j /\ value = bulkquery.QueryResponse.zero))
  /\ (let '((j', err), _) := bulkquery.create env j options w in
      bulkquery.QueryJob.session j' = bulkquery.QueryJob.session j
      /\ (err <> None ->
          (bulkquery.QueryOptions.Query options = EmptyString /\ j' = j)
          \/ (bulkquery.QueryOptions.Query options <> EmptyString
              /\ bulkquery.QueryJob.QueryResponse j'
                 = bulkquery.QueryResponse.zero))).
Proof.
  assert (Hresp : forall request,
    let '((j', (value, err)), _) := bulkquery.response env j request w in
    bulkquery.QueryJob.session j' = bulkquery.QueryJob.session j
    /\ (err = None -> bulkquery.QueryJob.QueryResponse j' = value)
    /\ (err <> None -> j' = j /\ value = bulkquery.QueryResponse.zero)).
  { intros request. unfold bulkquery.response, session.Do.
    repeat case_match; simplify_eq; simpl; done. }
  split; [|split].
  - unfold bulkquery.Info, bulkquery.fetchInfo, bulkquery.infoResponse,
      session.Do.
    repeat case_match; simplify_eq; simpl; done.
  - unfold bulkquery.Abort, bulkquery.setState.
    destruct (NewRequest _ _ _ _) as [request|e]; [apply Hresp|done].
  - unfold bulkquery.create, bulkquery.formatOptions.
    destruct (String.eqb_spec (bulkquery.QueryOptions.Query options)
                EmptyString) as [Hq|Hq].
    + split; [done|]. intros _. by left.
    + unfold bulkquery.createCallout.
      destruct (NewRequest _ _ _ _) as [request|e].
      * match goal with
        | |- context [bulkquery.response env j ?r w] =>
            pose proof (Hresp r) as H;
            destruct (bulkquery.response env j r w)
              as [[j' [value err]] w']
        end.
        destruct H as (Hs & _ & Hz). split; [done|].
        intros He. right. split; [done|]. simpl. by apply Hz.
      * split; [done|]. intros _. by right.
Qed.

End create_facts.

(** ** The query resource *)

Section resource_facts.
Import bulkquery.

Lemma createCallout_session env j options w :
  QueryJob.session (fst (fst (createCallout env j options w)))
  = QueryJob.session j.
Proof.
  unfold createCallout, response, session.Do. by repeat case_match.
Qed.

(** X15: CreateJob and GetJob of the query resource return either a job
    and a nil error or no job and an error, never both and never neither.  A
    job returned carries the session of the resource; CreateJob returns one
    only for a query that is not empty, and fails on an empty one before
    anything is sent; the job GetJob returns holds the record decoded from
    the answer to its GET of {service}/jobs/query/{id}. *)
Theorem X15_resource_returns_a_job_or_an_error (env : Env.t) (r : Resource.t)
    (options : QueryOptions.t) (id : string) (w : World.t) :
  match fst (CreateJob env r options w) with
  | (Some job, None) =>
      QueryJob.session job = Resource.session r
      /\ QueryOptions.Query options <> EmptyString
  | (None, Some err) =>
      QueryOptions.Query options = EmptyString ->
      err = errorString "bulk job: query is required"
      /\ snd (CreateJob env r options w) = w
  | _ => False
  end
  /\ match fst (GetJob env r id w) with
     | (Some job, None) =>
         QueryJob.session job = Resource.session r
         /\ exists request response members,
              World.sent (snd (GetJob env r id w)) = World.sent w ++ [request]
              /\ session.Client (Resource.session r) (World.sent w) request
                 = inl response
              /\ Env.json_Unmarshal env (http.Response.Body response)
                 = inl members
              /\ QueryJob.QueryResponse job = QueryResponse.ofJSON members
     | (None, Some _) => True
     | _ => False
     end
  /\ (forall u q,
        Env.url_Parse env
          (session.ServiceURL (Resource.session r) +:+ "/jobs/query" +:+ "/"
           +:+ id) = inl (u, q) ->
        World.sent (snd (GetJob env r id w))
        = World.sent w
          ++ [session.AuthorizationHeader (Resource.session r)
                {| http.Request.Method := "GET";
                   http.Request.URL := u;
                   http.Request.Query := q;
                   http.Request.Header :=
                     http.Add "Content-Type" "application/json"
                       (http.Add "Accept" "application/json" ∅);
                   http.Request.Body := http.NoBody |}]).
Proof.
  split; [|split].
  - unfold CreateJob, create.
    destruct (formatOptions _ options) as [o [e|]] eqn:Hf; simpl.
    + intros Hq. unfold formatOptions in Hf. rewrite Hq in Hf. simpl in Hf.
      by injection Hf as _ <-.
    + assert (Hq : QueryOptions.Query options <> EmptyString).
      { intros Hq. unfold formatOptions in Hf. rewrite Hq in Hf.
        discriminate. }
      match goal with
      | |- context [createCallout env ?j o w] =>
          pose proof (createCallout_session env j o w) as Hs;
          destruct (createCallout env j o w) as [[j' [value err]] w']
      end.
      simpl in Hs. by destruct err.
  - unfold GetJob, fetchInfo, infoResponse, session.Do.
    destruct (NewRequest _ _ _ _) as [request|e]; simpl; [|done].
    destruct (session.Client _ _ _) as [response|e] eqn:Hc; simpl; [|done].
    destruct (negb _); simpl; [done|].
    destruct (Env.json_Unmarshal env _) as [members|e] eqn:Hm; simpl; [|done].
    split; [done|]. by eexists _, response, members.
  - intros u q Hurl.
    unfold GetJob, fetchInfo, NewRequest, bulk2Endpoint. simpl.
    rewrite Hurl. unfold infoResponse, session.Do.
    repeat case_match; simplify_eq; simpl in *; done.
Qed.

End resource_facts.

(** ** Version 1 jobs and the token request *)

Section v1_facts.
Import bulkv1.

Lemma v1_formatOptions_defaults j options header :
  snd (formatOptions j options header) = None ->
  let orDefault (value d : string) :=
    if decide (value = EmptyString) then d else value in
  fst (formatOptions j options header)
  = {| HeaderOptions.LineEnding :=
         orDefault (HeaderOptions.LineEnding header) "LF";
       HeaderOptions.ContentType :=
         orDefault (HeaderOptions.ContentType header) "CSV";
       HeaderOptions.Client := HeaderOptions.Client header;
       HeaderOptions.PKChunking :=
         orDefault (HeaderOptions.PKChunking header) "TRUE" |}.
Proof.
  destruct header as [le ct cl pk], options as [oct ext obj op].
  unfold formatOptions. simpl.
  destruct (op =? EmptyString)%string; [discriminate|].
  destruct ((op =? Upsert)%string && (ext =? EmptyString)%string);
    [discriminate|].
  destruct (obj =? EmptyString)%string; [discriminate|].
  intros _. by destruct le, ct, pk.
Qed.

Lemma v1_response_sends env j request w :
  World.sent (snd (response env j request w)) = World.sent w ++ [request].
Proof. unfold response, session.Do. by repeat case_match. Qed.

(** X16: when the options pass validation and the URL parses, create of
    the version 1 job posts to {async-service}job a request whose
    Content-Type header has two values, application/json and then the
    content type of the header options (CSV when empty), so that Get returns
    application/json; the PK chunking value (TRUE when empty) is stored under
    the canonical name Sforce-Enable-Pkchunking, not under the name the
    constant spells; and the line ending header is LF when empty.  The body
    carries the options as given: their content type is not defaulted. *)
Theorem X16_v1_create_request_headers (env : Env.t) (j : Job.t)
    (options : Options.t) (header : HeaderOptions.t) (w : World.t)
    (u : string) (q : http.Values) :
  snd (formatOptions j options header) = None ->
  Env.url_Parse env
    (AsyncServiceFormatter.AsyncServiceURL (Job.session j) +:+ "job")
  = inl (u, q) ->
  let orDefault (value d : string) :=
    if decide (value = EmptyString) then d else value in
  exists unsigned,
    World.sent (snd (create env j options header w))
    = World.sent w
      ++ [session.AuthorizationHeader
            (AsyncServiceFormatter.formatter (Job.session j)) unsigned]
    /\ http.Request.Method unsigned = "POST"
    /\ http.Request.URL unsigned = u
    /\ http.Request.Header unsigned
       = {[ "Accept" := ["application/json"];
            "Content-Type" :=
              ["application/json";
               orDefault (HeaderOptions.ContentType header) "CSV"];
            "Sforce-Enable-Pkchunking" :=
              [orDefault (HeaderOptions.PKChunking header) "TRUE"];
            "Sforce-Line-Ending" :=
              [orDefault (HeaderOptions.LineEnding header) "LF"] ]}
    /\ http.Get "Content-Type" (http.Request.Header unsigned)
       = "application/json"
    /\ http.Request.Header unsigned !! "Sforce-Enable-PKChunking" = None
    /\ http.Request.Body unsigned
       = http.JSON
           [("contentType", Options.ContentType options);
            ("externalIdFieldName", Options.ExternalIDFieldName options);
            ("object", Options.Object options);
            ("operation", Options.Operation options)].
Proof.
  intros Hvalid Hurl orDefault.
  pose proof (v1_formatOptions_defaults j options header Hvalid) as Hh.
  unfold create.
  destruct (formatOptions j options header) as [h [e|]]; [discriminate|].
  simpl in Hh. subst h. fold orDefault.
  unfold createCallout, NewRequest, bulkEndpoint. rewrite Hurl.
  match goal with
  | |- context [response env j (session.AuthorizationHeader ?s ?r) w] =>
      exists r;
      pose proof (v1_response_sends env j (session.AuthorizationHeader s r) w)
        as Hs;
      destruct (response env j (session.AuthorizationHeader s r) w)
        as [[info err] w']
  end.
  split; [exact Hs|].
  split; [done|]. split; [done|].
  split; [|split; [|split]].
  all: done.
Qed.

Lemma X16_v1_create_request_headers_witness :
  exists unsigned,
    World.sent (snd (create exampleEnv exampleV1Job exampleV1Options
                       exampleV1Header emptyWorld))
    = [addHeader "Authorization" "Bearer 00D" unsigned]
    /\ http.Request.Method unsigned = "POST"
    /\ http.Request.URL unsigned
       = "https://example.my.salesforce.com/services/async/52.0/job"
    /\ http.Request.Header unsigned
       = {[ "Accept" := ["application/json"];
            "Content-Type" := ["application/json"; "JSON"];
            "Sforce-Enable-Pkchunking" := ["TRUE"];
            "Sforce-Line-Ending" := ["LF"] ]}
    /\ http.Get "Content-Type" (http.Request.Header unsigned)
       = "application/json"
    /\ http.Request.Header unsigned !! "Sforce-Enable-PKChunking" = None
    /\ http.Request.Body unsigned
       = http.JSON
           [("contentType", EmptyString);
            ("externalIdFieldName", EmptyString);
            ("object", "Account");
            ("operation", "insert")].
Proof.
  exact (X16_v1_create_request_headers exampleEnv exampleV1Job
           exampleV1Options exampleV1Header emptyWorld _ _ eq_refl eq_refl).
Defined.

End v1_facts.

Section credentials_facts.
Import credentials.

(** X17: the credentials NewPasswordCredentials and
    NewRefreshTokenCredentials return produce, with Retrieve, a form of
    exactly five fields with one value each (the grant type, and the fields
    of the grant as given), and with URL the URL as given; none of the
    values taken from the credentials is empty. *)
Theorem X17_token_request_form (pc : PasswordCredentials.t)
    (rc : RefreshTokenCredentials.t) (c : Credentials.t) :
  (NewPasswordCredentials pc = (Some c, None) ->
   Retrieve (Credentials.provider c)
   = {[ "grant_type" := ["password"];
        "username" := [PasswordCredentials.Username pc];
        "password" := [PasswordCredentials.Password pc];
        "client_id" := [PasswordCredentials.ClientID pc];
        "client_secret" := [PasswordCredentials.ClientSecret pc] ]}
   /\ URL (Credentials.provider c) = PasswordCredentials.URL pc
   /\ Forall (fun value => value <> EmptyString)
        [PasswordCredentials.URL pc; PasswordCredentials.Username pc;
         PasswordCredentials.Password pc; PasswordCredentials.ClientID pc;
         PasswordCredentials.ClientSecret pc])
  /\ (NewRefreshTokenCredentials rc = (Some c, None) ->
      Retrieve (Credentials.provider c)
      = {[ "grant_type" := ["refresh_token"];
           "format" := ["json"];
           "refresh_token" := [RefreshTokenCredentials.RefreshToken rc];
           "client_id" := [RefreshTokenCredentials.ClientID rc];
           "client_secret" := [RefreshTokenCredentials.ClientSecret rc] ]}
      /\ URL (Credentials.provider c) = RefreshTokenCredentials.URL rc
      /\ Forall (fun value => value <> EmptyString)
           [RefreshTokenCredentials.URL rc;
            RefreshTokenCredentials.RefreshToken rc;
            RefreshTokenCredentials.ClientID rc;
            RefreshTokenCredentials.ClientSecret rc]).
Proof.
  split.
  - unfold NewPasswordCredentials, validatePasswordCredentials.
    destruct pc as [url user pass cid secret]. simpl.
    destruct url; [discriminate|]. destruct user; [discriminate|].
    destruct pass; [discriminate|]. destruct cid; [discriminate|].
    destruct secret; [discriminate|]. simpl.
    intros [= <-]. split; [vm_compute; reflexivity|]. split; [done|].
    repeat constructor; discriminate.
  - unfold NewRefreshTokenCredentials, validateRefreshTokenCredentials.
    destruct rc as [url token cid secret]. simpl.
    destruct url; [discriminate|]. destruct token; [discriminate|].
    destruct cid; [discriminate|]. destruct secret; [discriminate|]. simpl.
    intros [= <-]. split; [vm_compute; reflexivity|]. split; [done|].
    repeat constructor; discriminate.
Qed.

Lemma X17_token_request_form_witness :
  Retrieve (refreshTokenProvider exampleRefreshToken)
  = {[ "grant_type" := ["refresh_token"];
       "format" := ["json"];
       "refresh_token" := ["5Aep861"];
       "client_id" := ["3MVG9"];
       "client_secret" := ["secret"] ]}
  /\ URL (refreshTokenProvider exampleRefreshToken)
     = "https://login.salesforce.com"
  /\ Forall (fun value => value <> EmptyString)
       ["https://login.salesforce.com"; "5Aep861"; "3MVG9"; "secret"].
Proof.
  exact (proj2 (X17_token_request_form examplePassword exampleRefreshToken
                  {| Credentials.provider :=
                       refreshTokenProvider exampleRefreshToken |}) eq_refl).
Defined.

End credentials_facts.

(** ** When the parsers panic *)

Section panics.
Import bulk.

Lemma successfulRow_panic j fields values p :
  length values = length fields ->
  successfulRow j fields values = Panicked p ->
  p = IndexOutOfRange (-1) (Z.of_nat (length fields))
  /\ (sfID ∉ fields \/ sfCreated ∉ fields).
Proof.
  intros Hlen Hrow.
  destruct (decide (sfCreated ∈ fields)) as [Hcr|Hcr].
  - destruct (index_header_column j _ _ _ Hcr Hlen) as [cell Hc].
    destruct (decide (sfID ∈ fields)) as [Hid|Hid].
    + destruct (successfulRow_reserved j fields values Hid Hcr Hlen)
        as (cell' & Hc' & Hok).
      destruct (decide (cell' ∈ strconv.boolLiterals)) as [Hb|Hb].
      * destruct (Hok Hb) as [rec Hdone]. congruence.
      * rewrite (successfulRow_bad_flag _ _ _ _ Hc' Hb) in Hrow.
        discriminate.
    + rewrite (successfulRow_no_id _ _ _ _ Hid Hc) in Hrow.
      case_bool_decide; [|discriminate].
      injection Hrow as <-. rewrite Hlen. by split; [|left].
  - rewrite (successfulRow_no_created _ _ _ Hcr) in Hrow.
    injection Hrow as <-. rewrite Hlen. by split; [|right].
Qed.

Lemma failedRow_panic j fields values p :
  length values = length fields ->
  failedRow j fields values = Panicked p ->
  p = IndexOutOfRange (-1) (Z.of_nat (length fields))
  /\ (sfError ∉ fields \/ sfID ∉ fields).
Proof.
  intros Hlen Hrow.
  destruct (decide (sfError ∈ fields)) as [Her|Her];
    [destruct (decide (sfID ∈ fields)) as [Hid|Hid]|].
  - destruct (failedRow_reserved j fields values Her Hid Hlen) as [rec Hdone].
    congruence.
  - rewrite (failedRow_absent j fields values (or_intror Hid) Hlen) in Hrow.
    injection Hrow as <-. rewrite Hlen. by split; [|right].
  - rewrite (failedRow_absent j fields values (or_introl Her) Hlen) in Hrow.
    injection Hrow as <-. rewrite Hlen. by split; [|left].
Qed.

Lemma successfulRows_panic j fields last p : forall rows acc,
  Forall (fun v => length v = length fields) rows ->
  successfulRows j fields rows last acc = Panicked p ->
  rows <> []
  /\ p = IndexOutOfRange (-1) (Z.of_nat (length fields))
  /\ (sfID ∉ fields \/ sfCreated ∉ fields).
Proof.
  induction rows as [|values rows IH]; intros acc Hlen; simpl.
  - by case_bool_decide.
  - apply Forall_cons in Hlen as [Hv Hlen].
    destruct (successfulRow j fields values) as [[rec [e|]]|q|] eqn:Hrow;
      simpl; try discriminate.
    + intros Hrest. by destruct (IH _ Hlen Hrest) as (_ & ? & ?).
    + intros [= ->]. split; [done|]. by apply (successfulRow_panic j _ values).
Qed.

Lemma failedRows_panic j fields last p : forall rows acc,
  Forall (fun v => length v = length fields) rows ->
  failedRows j fields rows last acc = Panicked p ->
  rows <> []
  /\ p = IndexOutOfRange (-1) (Z.of_nat (length fields))
  /\ (sfError ∉ fields \/ sfID ∉ fields).
Proof.
  induction rows as [|values rows IH]; intros acc Hlen; simpl.
  - by case_bool_decide.
  - apply Forall_cons in Hlen as [Hv Hlen].
    destruct (failedRow j fields values) as [rec|q|] eqn:Hrow;
      simpl; try discriminate.
    + intros Hrest. by destruct (IH _ Hlen Hrest) as (_ & ? & ?).
    + intros [= ->]. split; [done|]. by apply (failedRow_panic j _ values).
Qed.

(** X18: ParseSuccessfulResults and ParseFailedResults return or panic
    for every input, and panic in one situation only: the input has a data
    row and its header lacks a reserved column (sf__Id or sf__Created;
    sf__Error or sf__Id).  The panic is always the index -1 out of range for
    the length of the row; the slices fields[2:] and values[2:] never
    fail. *)
Theorem X18_parsers_panic_only_for_an_absent_column (j : Job.t)
    (stream : csv.Stream) :
  match ParseSuccessfulResults j stream with
  | Done _ => True
  | Panicked p =>
      exists fields rows last,
        csv.yields (readerOf j stream) (fields :: rows) last
        /\ rows <> []
        /\ (sfID ∉ fields \/ sfCreated ∉ fields)
        /\ p = IndexOutOfRange (-1) (Z.of_nat (length fields))
  | OutOfFuel => False
  end
  /\ match ParseFailedResults j stream with
     | Done _ => True
     | Panicked p =>
         exists fields rows last,
           csv.yields (readerOf j stream) (fields :: rows) last
           /\ rows <> []
           /\ (sfError ∉ fields \/ sfID ∉ fields)
           /\ p = IndexOutOfRange (-1) (Z.of_nat (length fields))
     | OutOfFuel => False
     end.
Proof.
  destruct (yields_total (readerOf j stream)) as (rows & last & Hy).
  rewrite (ParseSuccessfulResults_yields _ _ _ _ Hy),
    (ParseFailedResults_yields _ _ _ _ Hy).
  destruct rows as [|fields rows]; [done|].
  pose proof (readerOf_header _ _ _ _ _ Hy) as Hlen.
  split.
  - pose proof (successfulRows_ends j fields last rows []) as Hends.
    destruct (successfulRows j fields rows last []) as [r|p|] eqn:Hrun;
      [done| |done].
    destruct (successfulRows_panic _ _ _ _ _ _ Hlen Hrun) as (Hne & -> & Hab).
    by exists fields, rows, last.
  - pose proof (failedRows_ends j fields last rows []) as Hends.
    destruct (failedRows j fields rows last []) as [r|p|] eqn:Hrun;
      [done| |done].
    destruct (failedRows_panic _ _ _ _ _ _ Hlen Hrun) as (Hne & -> & Hab).
    by exists fields, rows, last.
Qed.

End panics.

(** ** Closing and aborting *)

Section state_facts.

(** X19: Close and Abort of the ingest job and Abort of the query job send
    one PATCH to {service}/jobs/ingest/{id} ({service}/jobs/query/{id}) whose
    JSON body is the single member state, with the value UploadComplete for
    Close and Aborted for Abort.  The record Close returns without error is
    the one decoded from the 200 answer of the server: the call itself sets
    no state in it. *)
Theorem X19_close_and_abort_patch_the_state (env : Env.t) (j : bulk.Job.t)
    (qj : bulkquery.QueryJob.t) (w : World.t) :
  let patch (s : session.ServiceFormatter) (url state : string)
      (sent : list http.Request.t) :=
    forall u q,
      Env.url_Parse env url = inl (u, q) ->
      sent
      = World.sent w
        ++ [session.AuthorizationHeader s
              {| http.Request.Method := "PATCH";
                 http.Request.URL := u;
                 http.Request.Query := q;
                 http.Request.Header :=
                   http.Add "Content-Type" "application/json"
                     (http.Add "Accept" "application/json" ∅);
                 http.Request.Body := http.JSON [("state", state)] |}] in
  let ingestURL :=
    session.ServiceURL (bulk.Job.session j) +:+ "/jobs/ingest" +:+ "/"
    +:+ bulk.WriteResponse.ID (bulk.Job.WriteResponse j) in
  let queryURL :=
    session.ServiceURL (bulkquery.QueryJob.session qj) +:+ "/jobs/query"
    +:+ "/"
    +:+ bulkquery.QueryResponse.ID (bulkquery.QueryJob.QueryResponse qj) in
  patch (bulk.Job.session j) ingestURL "UploadComplete"
    (World.sent (snd (bulk.Close env j w)))
  /\ patch (bulk.Job.session j) ingestURL "Aborted"
       (World.sent (snd (bulk.Abort env j w)))
  /\ patch (bulkquery.QueryJob.session qj) queryURL "Aborted"
       (World.sent (snd (bulkquery.Abort env qj w)))
  /\ (snd (fst (bulk.Close env j w)) = None ->
      exists request response members,
        World.sent (snd (bulk.Close env j w)) = World.sent w ++ [request]
        /\ session.Client (bulk.Job.session j) (World.sent w) request
           = inl response
        /\ http.Response.StatusCode response = http.StatusOK
        /\ Env.json_Unmarshal env (http.Response.Body response) = inl members
        /\ fst (fst (bulk.Close env j w))
           = bulk.WriteResponse.ofJSON members).
Proof.
  intros patch ingestURL queryURL. unfold patch, ingestURL, queryURL.
  split; [|split; [|split]].
  - intros u q Hurl.
    unfold bulk.Close, bulk.setState, NewRequest, bulk.bulk2Endpoint.
    rewrite Hurl. apply response_sends.
  - intros u q Hurl.
    unfold bulk.Abort, bulk.setState, NewRequest, bulk.bulk2Endpoint.
    rewrite Hurl. apply response_sends.
  - intros u q Hurl.
    unfold bulkquery.Abort, bulkquery.setState, NewRequest,
      bulkquery.bulk2Endpoint.
    rewrite Hurl. unfold bulkquery.response, session.Do.
    by repeat case_match.
  - unfold bulk.Close, bulk.setState.
    destruct (NewRequest _ _ _ _) as [request|e]; [|done].
    unfold bulk.response, session.Do.
    destruct (session.Client _ _ _) as [response|e] eqn:Hc; simpl; [|done].
    destruct (Z.eqb_spec (http.Response.StatusCode response) http.StatusOK)
      as [Hs|Hs]; simpl; [|done].
    destruct (Env.json_Unmarshal env _) as [members|e'] eqn:Hm; simpl;
      [|done].
    intros _. by eexists _, response, members.
Qed.

End state_facts.

(** ** The two services of the version 1 job *)

Section v1_calls.
Import bulkv1.

Lemma v1_infoResponse_sends env j request w :
  World.sent (snd (infoResponse env j request w)) = World.sent w ++ [request].
Proof. unfold infoResponse, session.Do. by repeat case_match. Qed.

(** X20: the version 1 job addresses two services.  create and createBatch
    post to the asynchronous service URL followed by "job"; BatchInfo, Close,
    Abort, Delete and ExportResults go to the service URL of the REST API
    followed by "job", with nothing between the two.  Each call sends one
    request, made by the session's AuthorizationHeader, with the method and
    the body given here (the state Closed for Close and Aborted for Abort),
    and sends nothing when its URL does not parse. *)
Theorem X20_v1_calls_and_their_urls (env : Env.t) (j : Job.t)
    (options : Options.t) (header : HeaderOptions.t) (body filename : string)
    (info : BatchInfo.t) (w : World.t) :
  let async := AsyncServiceFormatter.AsyncServiceURL (Job.session j) in
  let rest := session.ServiceURL (formatterOf j) in
  let id := JobInfo.ID (Job.Response j) in
  let sends (method url : string) (b : http.body)
      (sent : list http.Request.t) :=
    match Env.url_Parse env url with
    | inl (u, q) =>
        exists unsigned,
          sent = World.sent w
                 ++ [session.AuthorizationHeader (formatterOf j) unsigned]
          /\ http.Request.Method unsigned = method
          /\ http.Request.URL unsigned = u
          /\ http.Request.Query unsigned = q
          /\ http.Request.Body unsigned = b
    | inr _ => sent = World.sent w
    end in
  (snd (formatOptions j options header) = None ->
   sends "POST" (async +:+ "job") (marshalOptions options)
     (World.sent (snd (create env j options header w))))
  /\ sends "POST" (async +:+ "job" +:+ "/" +:+ id +:+ "/batch")
       (http.Raw body) (World.sent (snd (createBatch env j body w)))
  /\ sends "GET"
       (rest +:+ "job" +:+ "/" +:+ id +:+ "/batch/" +:+ BatchInfo.ID info)
       http.NoBody (World.sent (snd (BatchInfo env j info w)))
  /\ sends "PATCH" (rest +:+ "job" +:+ "/" +:+ id)
       (http.JSON [("state", "Closed")]) (World.sent (snd (Close env j w)))
  /\ sends "PATCH" (rest +:+ "job" +:+ "/" +:+ id)
       (http.JSON [("state", "Aborted")]) (World.sent (snd (Abort env j w)))
  /\ sends "DELETE" (rest +:+ "job" +:+ "/" +:+ id) http.NoBody
       (World.sent (snd (Job_Delete env j w)))
  /\ sends "GET"
       (rest +:+ "job" +:+ "/" +:+ id +:+ "/batch/" +:+ BatchInfo.ID info
        +:+ "/result")
       http.NoBody (World.sent (snd (ExportResults env j filename info w))).
Proof.
  intros async rest id sends. unfold sends, async, rest, id.
  repeat apply conj.
  - intros Hvalid. unfold create.
    destruct (formatOptions j options header) as [h [e|]]; [discriminate|].
    unfold createCallout, NewRequest, bulkEndpoint.
    destruct (Env.url_Parse env _) as [[u q]|e]; [|done].
    match goal with
    | |- context [response env j (session.AuthorizationHeader ?s ?r) w] =>
        exists r;
        pose proof (v1_response_sends env j (session.AuthorizationHeader s r) w)
          as Hs;
        destruct (response env j (session.AuthorizationHeader s r) w)
          as [[value err] w']
    end.
    by split.
  - unfold createBatch, NewRequest, bulkEndpoint, session.Do.
    destruct (Env.url_Parse env _) as [[u q]|e]; [|done].
    eexists. split; [by repeat case_match|done].
  - unfold BatchInfo, fetchBatchInfo, NewRequest, bulkEndpoint.
    destruct (Env.url_Parse env _) as [[u q]|e]; [|done].
    eexists. split; [apply v1_infoResponse_sends|done].
  - unfold Close, setState, NewRequest, bulkEndpoint.
    destruct (Env.url_Parse env _) as [[u q]|e]; [|done].
    eexists. split; [apply v1_response_sends|done].
  - unfold Abort, setState, NewRequest, bulkEndpoint.
    destruct (Env.url_Parse env _) as [[u q]|e]; [|done].
    eexists. split; [apply v1_response_sends|done].
  - unfold Job_Delete, NewRequest, bulkEndpoint, session.Do.
    destruct (Env.url_Parse env _) as [[u q]|e]; [|done].
    eexists. split; [by repeat case_match|done].
  - unfold ExportResults, getResults, NewRequest, bulkEndpoint, session.Do.
    destruct (Env.url_Parse env _) as [[u q]|e]; [|done].
    eexists. split.
    + destruct (session.Client _ _ _) as [response|e]; [|reflexivity].
      destruct (negb _); [reflexivity|].
      match goal with
      | |- context [copyToFile env filename ?b ?w0] =>
          by destruct (copyToFile_files env filename b w0) as (_ & _ & _ & ->)
      end.
    + done.
Qed.

End v1_calls.
